(** * Token resolution over JSON records: a shallow embedding

    This development embeds the two scripts of the repository,
    [cds_mapping.py] (placeholder resolution against a CDS record, and the
    fetch of that record) and [merge_letterdata.py] (the merges into
    [LetterData] and the [escape_slashes] tree walk), as Rocq functions
    over a tagged JSON value type, and proves the properties the
    specification states about them, then further properties read off the
    code.  File access, the HTTP request and the console are outside the
    embedding: the documents loaded and the response received are
    arguments.

    Conventions of the embedding.
    - A Python [str] is a Rocq [string] holding the bytes of its UTF-8
      encoding (a surrogate is encoded like any other code point), so a
      character is one to four bytes.  [str.upper], [str.isspace] and
      [str.strip] work character by character, with the tables of CPython
      3.11 (Unicode 14.0.0) for the characters outside ASCII.  Searching
      for an ASCII character or an ASCII prefix is done on the bytes,
      where it finds the same places.
    - A Python [dict] obtained from [json.load] is an association list in
      insertion order (the order [dict.items()] iterates in); its keys are
      strings and pairwise distinct.
    - A Python [int] is a [Z]; a Python [float] is carried by the text
      [str] renders it with, since the scripts only pass floats through or
      print them.
    - An exception is an explicit [Raise] result.  The interpreter's
      recursion limit is not modelled. *)

From Stdlib Require Import List Bool Ascii String ZArith NArith Lia
  DecimalString.
Import ListNotations.
Open Scope string_scope.

(** ** Python built-ins used by the scripts *)

Module Py.

Local Open Scope nat_scope.

(** *** Characters

    A continuation byte of UTF-8, of the form [10xxxxxx]. *)
Definition is_cont (b : ascii) : bool :=
  let n := nat_of_ascii b in (128 <=? n) && (n <=? 191).

(** The string goes on inside a character: its first byte is a
    continuation byte. *)
Definition continues (s : string) : bool :=
  match s with
  | EmptyString => false
  | String b _ => is_cont b
  end.

(** The characters of a string, each as the bytes that encode it: a
    character starts at every byte that is not a continuation byte. *)
Fixpoint chars (s : string) : list string :=
  match s with
  | EmptyString => []
  | String b rest =>
      match chars rest with
      | [] => [String b EmptyString]
      | c :: cs =>
          if continues rest then String b c :: cs
          else String b EmptyString :: c :: cs
      end
  end.

(** [''.join(l)] *)
Fixpoint join (l : list string) : string :=
  match l with
  | [] => EmptyString
  | c :: rest => c ++ join rest
  end.

(** The UTF-8 encoding of a code point. *)
Definition utf8 (cp : N) : string :=
  let byte (n : N) := String (ascii_of_N n) EmptyString in
  let cont (n : N) := byte (128 + n mod 64)%N in
  if (cp <? 128)%N then byte cp
  else if (cp <? 2048)%N then byte (192 + cp / 64)%N ++ cont cp
  else if (cp <? 65536)%N then
    byte (224 + cp / 4096)%N ++ cont (cp / 64)%N ++ cont cp
  else byte (240 + cp / 262144)%N ++ cont (cp / 4096)%N
       ++ cont (cp / 64)%N ++ cont cp.

(** The blank characters outside ASCII, by code point: those for which
    [str.isspace] holds, which are also those [str.strip] removes. *)
Definition space_points : list N :=
  [0x85; 0xA0; 0x1680; 0x2000; 0x2001; 0x2002; 0x2003; 0x2004; 0x2005;
   0x2006; 0x2007; 0x2008; 0x2009; 0x200A; 0x2028; 0x2029; 0x202F; 0x205F;
   0x3000]%N.

(** The characters outside ASCII that [str.upper] changes, by code point,
    each with the code points of its upper case (one to three). *)
Definition upper_points : list (N * list N) :=
  [(0xB5, [0x39C]); (0xDF, [0x53; 0x53]); (0xE0, [0xC0]); (0xE1, [0xC1]);
   (0xE2, [0xC2]); (0xE3, [0xC3]); (0xE4, [0xC4]); (0xE5, [0xC5]);
   (0xE6, [0xC6]); (0xE7, [0xC7]); (0xE8, [0xC8]); (0xE9, [0xC9]);
   (0xEA, [0xCA]); (0xEB, [0xCB]); (0xEC, [0xCC]); (0xED, [0xCD]);
   (0xEE, [0xCE]); (0xEF, [0xCF]); (0xF0, [0xD0]); (0xF1, [0xD1]);
   (0xF2, [0xD2]); (0xF3, [0xD3]); (0xF4, [0xD4]); (0xF5, [0xD5]);
   (0xF6, [0xD6]); (0xF8, [0xD8]); (0xF9, [0xD9]); (0xFA, [0xDA]);
   (0xFB, [0xDB]); (0xFC, [0xDC]); (0xFD, [0xDD]); (0xFE, [0xDE]);
   (0xFF, [0x178]); (0x101, [0x100]); (0x103, [0x102]); (0x105, [0x104]);
   (0x107, [0x106]); (0x109, [0x108]); (0x10B, [0x10A]); (0x10D, [0x10C]);
   (0x10F, [0x10E]); (0x111, [0x110]); (0x113, [0x112]); (0x115, [0x114]);
   (0x117, [0x116]); (0x119, [0x118]); (0x11B, [0x11A]); (0x11D, [0x11C]);
   (0x11F, [0x11E]); (0x121, [0x120]); (0x123, [0x122]); (0x125, [0x124]);
   (0x127, [0x126]); (0x129, [0x128]); (0x12B, [0x12A]); (0x12D, [0x12C]);
   (0x12F, [0x12E]); (0x131, [0x49]); (0x133, [0x132]); (0x135, [0x134]);
   (0x137, [0x136]); (0x13A, [0x139]); (0x13C, [0x13B]); (0x13E, [0x13D]);
   (0x140, [0x13F]); (0x142, [0x141]); (0x144, [0x143]); (0x146, [0x145]);
   (0x148, [0x147]); (0x149, [0x2BC; 0x4E]); (0x14B, [0x14A]);
   (0x14D, [0x14C]); (0x14F, [0x14E]); (0x151, [0x150]); (0x153, [0x152]);
   (0x155, [0x154]); (0x157, [0x156]); (0x159, [0x158]); (0x15B, [0x15A]);
   (0x15D, [0x15C]); (0x15F, [0x15E]); (0x161, [0x160]); (0x163, [0x162]);
   (0x165, [0x164]); (0x167, [0x166]); (0x169, [0x168]); (0x16B, [0x16A]);
   (0x16D, [0x16C]); (0x16F, [0x16E]); (0x171, [0x170]); (0x173, [0x172]);
   (0x175, [0x174]); (0x177, [0x176]); (0x17A, [0x179]); (0x17C, [0x17B]);
   (0x17E, [0x17D]); (0x17F, [0x53]); (0x180, [0x243]); (0x183, [0x182]);
   (0x185, [0x184]); (0x188, [0x187]); (0x18C, [0x18B]); (0x192, [0x191]);
   (0x195, [0x1F6]); (0x199, [0x198]); (0x19A, [0x23D]); (0x19E, [0x220]);
   (0x1A1, [0x1A0]); (0x1A3, [0x1A2]); (0x1A5, [0x1A4]); (0x1A8, [0x1A7]);
   (0x1AD, [0x1AC]); (0x1B0, [0x1AF]); (0x1B4, [0x1B3]); (0x1B6, [0x1B5]);
   (0x1B9, [0x1B8]); (0x1BD, [0x1BC]); (0x1BF, [0x1F7]); (0x1C5, [0x1C4]);
   (0x1C6, [0x1C4]); (0x1C8, [0x1C7]); (0x1C9, [0x1C7]); (0x1CB, [0x1CA]);
   (0x1CC, [0x1CA]); (0x1CE, [0x1CD]); (0x1D0, [0x1CF]); (0x1D2, [0x1D1]);
   (0x1D4, [0x1D3]); (0x1D6, [0x1D5]); (0x1D8, [0x1D7]); (0x1DA, [0x1D9]);
   (0x1DC, [0x1DB]); (0x1DD, [0x18E]); (0x1DF, [0x1DE]); (0x1E1, [0x1E0]);
   (0x1E3, [0x1E2]); (0x1E5, [0x1E4]); (0x1E7, [0x1E6]); (0x1E9, [0x1E8]);
   (0x1EB, [0x1EA]); (0x1ED, [0x1EC]); (0x1EF, [0x1EE]);
   (0x1F0, [0x4A; 0x30C]); (0x1F2, [0x1F1]); (0x1F3, [0x1F1]);
   (0x1F5, [0x1F4]); (0x1F9, [0x1F8]); (0x1FB, [0x1FA]); (0x1FD, [0x1FC]);
   (0x1FF, [0x1FE]); (0x201, [0x200]); (0x203, [0x202]); (0x205, [0x204]);
   (0x207, [0x206]); (0x209, [0x208]); (0x20B, [0x20A]); (0x20D, [0x20C]);
   (0x20F, [0x20E]); (0x211, [0x210]); (0x213, [0x212]); (0x215, [0x214]);
   (0x217, [0x216]); (0x219, [0x218]); (0x21B, [0x21A]); (0x21D, [0x21C]);
   (0x21F, [0x21E]); (0x223, [0x222]); (0x225, [0x224]); (0x227, [0x226]);
   (0x229, [0x228]); (0x22B, [0x22A]); (0x22D, [0x22C]); (0x22F, [0x22E]);
   (0x231, [0x230]); (0x233, [0x232]); (0x23C, [0x23B]); (0x23F, [0x2C7E]);
   (0x240, [0x2C7F]); (0x242, [0x241]); (0x247, [0x246]); (0x249, [0x248]);
   (0x24B, [0x24A]); (0x24D, [0x24C]); (0x24F, [0x24E]); (0x250, [0x2C6F]);
   (0x251, [0x2C6D]); (0x252, [0x2C70]); (0x253, [0x181]); (0x254, [0x186]);
   (0x256, [0x189]); (0x257, [0x18A]); (0x259, [0x18F]); (0x25B, [0x190]);
   (0x25C, [0xA7AB]); (0x260, [0x193]); (0x261, [0xA7AC]); (0x263, [0x194]);
   (0x265, [0xA78D]); (0x266, [0xA7AA]); (0x268, [0x197]); (0x269, [0x196]);
   (0x26A, [0xA7AE]); (0x26B, [0x2C62]); (0x26C, [0xA7AD]); (0x26F, [0x19C]);
   (0x271, [0x2C6E]); (0x272, [0x19D]); (0x275, [0x19F]); (0x27D, [0x2C64]);
   (0x280, [0x1A6]); (0x282, [0xA7C5]); (0x283, [0x1A9]); (0x287, [0xA7B1]);
   (0x288, [0x1AE]); (0x289, [0x244]); (0x28A, [0x1B1]); (0x28B, [0x1B2]);
   (0x28C, [0x245]); (0x292, [0x1B7]); (0x29D, [0xA7B2]); (0x29E, [0xA7B0]);
   (0x345, [0x399]); (0x371, [0x370]); (0x373, [0x372]); (0x377, [0x376]);
   (0x37B, [0x3FD]); (0x37C, [0x3FE]); (0x37D, [0x3FF]);
   (0x390, [0x399; 0x308; 0x301]); (0x3AC, [0x386]); (0x3AD, [0x388]);
   (0x3AE, [0x389]); (0x3AF, [0x38A]); (0x3B0, [0x3A5; 0x308; 0x301]);
   (0x3B1, [0x391]); (0x3B2, [0x392]); (0x3B3, [0x393]); (0x3B4, [0x394]);
   (0x3B5, [0x395]); (0x3B6, [0x396]); (0x3B7, [0x397]); (0x3B8, [0x398]);
   (0x3B9, [0x399]); (0x3BA, [0x39A]); (0x3BB, [0x39B]); (0x3BC, [0x39C]);
   (0x3BD, [0x39D]); (0x3BE, [0x39E]); (0x3BF, [0x39F]); (0x3C0, [0x3A0]);
   (0x3C1, [0x3A1]); (0x3C2, [0x3A3]); (0x3C3, [0x3A3]); (0x3C4, [0x3A4]);
   (0x3C5, [0x3A5]); (0x3C6, [0x3A6]); (0x3C7, [0x3A7]); (0x3C8, [0x3A8]);
   (0x3C9, [0x3A9]); (0x3CA, [0x3AA]); (0x3CB, [0x3AB]); (0x3CC, [0x38C]);
   (0x3CD, [0x38E]); (0x3CE, [0x38F]); (0x3D0, [0x392]); (0x3D1, [0x398]);
   (0x3D5, [0x3A6]); (0x3D6, [0x3A0]); (0x3D7, [0x3CF]); (0x3D9, [0x3D8]);
   (0x3DB, [0x3DA]); (0x3DD, [0x3DC]); (0x3DF, [0x3DE]); (0x3E1, [0x3E0]);
   (0x3E3, [0x3E2]); (0x3E5, [0x3E4]); (0x3E7, [0x3E6]); (0x3E9, [0x3E8]);
   (0x3EB, [0x3EA]); (0x3ED, [0x3EC]); (0x3EF, [0x3EE]); (0x3F0, [0x39A]);
   (0x3F1, [0x3A1]); (0x3F2, [0x3F9]); (0x3F3, [0x37F]); (0x3F5, [0x395]);
   (0x3F8, [0x3F7]); (0x3FB, [0x3FA]); (0x430, [0x410]); (0x431, [0x411]);
   (0x432, [0x412]); (0x433, [0x413]); (0x434, [0x414]); (0x435, [0x415]);
   (0x436, [0x416]); (0x437, [0x417]); (0x438, [0x418]); (0x439, [0x419]);
   (0x43A, [0x41A]); (0x43B, [0x41B]); (0x43C, [0x41C]); (0x43D, [0x41D]);
   (0x43E, [0x41E]); (0x43F, [0x41F]); (0x440, [0x420]); (0x441, [0x421]);
   (0x442, [0x422]); (0x443, [0x423]); (0x444, [0x424]); (0x445, [0x425]);
   (0x446, [0x426]); (0x447, [0x427]); (0x448, [0x428]); (0x449, [0x429]);
   (0x44A, [0x42A]); (0x44B, [0x42B]); (0x44C, [0x42C]); (0x44D, [0x42D]);
   (0x44E, [0x42E]); (0x44F, [0x42F]); (0x450, [0x400]); (0x451, [0x401]);
   (0x452, [0x402]); (0x453, [0x403]); (0x454, [0x404]); (0x455, [0x405]);
   (0x456, [0x406]); (0x457, [0x407]); (0x458, [0x408]); (0x459, [0x409]);
   (0x45A, [0x40A]); (0x45B, [0x40B]); (0x45C, [0x40C]); (0x45D, [0x40D]);
   (0x45E, [0x40E]); (0x45F, [0x40F]); (0x461, [0x460]); (0x463, [0x462]);
   (0x465, [0x464]); (0x467, [0x466]); (0x469, [0x468]); (0x46B, [0x46A]);
   (0x46D, [0x46C]); (0x46F, [0x46E]); (0x471, [0x470]); (0x473, [0x472]);
   (0x475, [0x474]); (0x477, [0x476]); (0x479, [0x478]); (0x47B, [0x47A]);
   (0x47D, [0x47C]); (0x47F, [0x47E]); (0x481, [0x480]); (0x48B, [0x48A]);
   (0x48D, [0x48C]); (0x48F, [0x48E]); (0x491, [0x490]); (0x493, [0x492]);
   (0x495, [0x494]); (0x497, [0x496]); (0x499, [0x498]); (0x49B, [0x49A]);
   (0x49D, [0x49C]); (0x49F, [0x49E]); (0x4A1, [0x4A0]); (0x4A3, [0x4A2]);
   (0x4A5, [0x4A4]); (0x4A7, [0x4A6]); (0x4A9, [0x4A8]); (0x4AB, [0x4AA]);
   (0x4AD, [0x4AC]); (0x4AF, [0x4AE]); (0x4B1, [0x4B0]); (0x4B3, [0x4B2]);
   (0x4B5, [0x4B4]); (0x4B7, [0x4B6]); (0x4B9, [0x4B8]); (0x4BB, [0x4BA]);
   (0x4BD, [0x4BC]); (0x4BF, [0x4BE]); (0x4C2, [0x4C1]); (0x4C4, [0x4C3]);
   (0x4C6, [0x4C5]); (0x4C8, [0x4C7]); (0x4CA, [0x4C9]); (0x4CC, [0x4CB]);
   (0x4CE, [0x4CD]); (0x4CF, [0x4C0]); (0x4D1, [0x4D0]); (0x4D3, [0x4D2]);
   (0x4D5, [0x4D4]); (0x4D7, [0x4D6]); (0x4D9, [0x4D8]); (0x4DB, [0x4DA]);
   (0x4DD, [0x4DC]); (0x4DF, [0x4DE]); (0x4E1, [0x4E0]); (0x4E3, [0x4E2]);
   (0x4E5, [0x4E4]); (0x4E7, [0x4E6]); (0x4E9, [0x4E8]); (0x4EB, [0x4EA]);
   (0x4ED, [0x4EC]); (0x4EF, [0x4EE]); (0x4F1, [0x4F0]); (0x4F3, [0x4F2]);
   (0x4F5, [0x4F4]); (0x4F7, [0x4F6]); (0x4F9, [0x4F8]); (0x4FB, [0x4FA]);
   (0x4FD, [0x4FC]); (0x4FF, [0x4FE]); (0x501, [0x500]); (0x503, [0x502]);
   (0x505, [0x504]); (0x507, [0x506]); (0x509, [0x508]); (0x50B, [0x50A]);
   (0x50D, [0x50C]); (0x50F, [0x50E]); (0x511, [0x510]); (0x513, [0x512]);
   (0x515, [0x514]); (0x517, [0x516]); (0x519, [0x518]); (0x51B, [0x51A]);
   (0x51D, [0x51C]); (0x51F, [0x51E]); (0x521, [0x520]); (0x523, [0x522]);
   (0x525, [0x524]); (0x527, [0x526]); (0x529, [0x528]); (0x52B, [0x52A]);
   (0x52D, [0x52C]); (0x52F, [0x52E]); (0x561, [0x531]); (0x562, [0x532]);
   (0x563, [0x533]); (0x564, [0x534]); (0x565, [0x535]); (0x566, [0x536]);
   (0x567, [0x537]); (0x568, [0x538]); (0x569, [0x539]); (0x56A, [0x53A]);
   (0x56B, [0x53B]); (0x56C, [0x53C]); (0x56D, [0x53D]); (0x56E, [0x53E]);
   (0x56F, [0x53F]); (0x570, [0x540]); (0x571, [0x541]); (0x572, [0x542]);
   (0x573, [0x543]); (0x574, [0x544]); (0x575, [0x545]); (0x576, [0x546]);
   (0x577, [0x547]); (0x578, [0x548]); (0x579, [0x549]); (0x57A, [0x54A]);
   (0x57B, [0x54B]); (0x57C, [0x54C]); (0x57D, [0x54D]); (0x57E, [0x54E]);
   (0x57F, [0x54F]); (0x580, [0x550]); (0x581, [0x551]); (0x582, [0x552]);
   (0x583, [0x553]); (0x584, [0x554]); (0x585, [0x555]); (0x586, [0x556]);
   (0x587, [0x535; 0x552]); (0x10D0, [0x1C90]); (0x10D1, [0x1C91]);
   (0x10D2, [0x1C92]); (0x10D3, [0x1C93]); (0x10D4, [0x1C94]);
   (0x10D5, [0x1C95]); (0x10D6, [0x1C96]); (0x10D7, [0x1C97]);
   (0x10D8, [0x1C98]); (0x10D9, [0x1C99]); (0x10DA, [0x1C9A]);
   (0x10DB, [0x1C9B]); (0x10DC, [0x1C9C]); (0x10DD, [0x1C9D]);
   (0x10DE, [0x1C9E]); (0x10DF, [0x1C9F]); (0x10E0, [0x1CA0]);
   (0x10E1, [0x1CA1]); (0x10E2, [0x1CA2]); (0x10E3, [0x1CA3]);
   (0x10E4, [0x1CA4]); (0x10E5, [0x1CA5]); (0x10E6, [0x1CA6]);
   (0x10E7, [0x1CA7]); (0x10E8, [0x1CA8]); (0x10E9, [0x1CA9]);
   (0x10EA, [0x1CAA]); (0x10EB, [0x1CAB]); (0x10EC, [0x1CAC]);
   (0x10ED, [0x1CAD]); (0x10EE, [0x1CAE]); (0x10EF, [0x1CAF]);
   (0x10F0, [0x1CB0]); (0x10F1, [0x1CB1]); (0x10F2, [0x1CB2]);
   (0x10F3, [0x1CB3]); (0x10F4, [0x1CB4]); (0x10F5, [0x1CB5]);
   (0x10F6, [0x1CB6]); (0x10F7, [0x1CB7]); (0x10F8, [0x1CB8]);
   (0x10F9, [0x1CB9]); (0x10FA, [0x1CBA]); (0x10FD, [0x1CBD]);
   (0x10FE, [0x1CBE]); (0x10FF, [0x1CBF]); (0x13F8, [0x13F0]);
   (0x13F9, [0x13F1]); (0x13FA, [0x13F2]); (0x13FB, [0x13F3]);
   (0x13FC, [0x13F4]); (0x13FD, [0x13F5]); (0x1C80, [0x412]);
   (0x1C81, [0x414]); (0x1C82, [0x41E]); (0x1C83, [0x421]);
   (0x1C84, [0x422]); (0x1C85, [0x422]); (0x1C86, [0x42A]);
   (0x1C87, [0x462]); (0x1C88, [0xA64A]); (0x1D79, [0xA77D]);
   (0x1D7D, [0x2C63]); (0x1D8E, [0xA7C6]); (0x1E01, [0x1E00]);
   (0x1E03, [0x1E02]); (0x1E05, [0x1E04]); (0x1E07, [0x1E06]);
   (0x1E09, [0x1E08]); (0x1E0B, [0x1E0A]); (0x1E0D, [0x1E0C]);
   (0x1E0F, [0x1E0E]); (0x1E11, [0x1E10]); (0x1E13, [0x1E12]);
   (0x1E15, [0x1E14]); (0x1E17, [0x1E16]); (0x1E19, [0x1E18]);
   (0x1E1B, [0x1E1A]); (0x1E1D, [0x1E1C]); (0x1E1F, [0x1E1E]);
   (0x1E21, [0x1E20]); (0x1E23, [0x1E22]); (0x1E25, [0x1E24]);
   (0x1E27, [0x1E26]); (0x1E29, [0x1E28]); (0x1E2B, [0x1E2A]);
   (0x1E2D, [0x1E2C]); (0x1E2F, [0x1E2E]); (0x1E31, [0x1E30]);
   (0x1E33, [0x1E32]); (0x1E35, [0x1E34]); (0x1E37, [0x1E36]);
   (0x1E39, [0x1E38]); (0x1E3B, [0x1E3A]); (0x1E3D, [0x1E3C]);
   (0x1E3F, [0x1E3E]); (0x1E41, [0x1E40]); (0x1E43, [0x1E42]);
   (0x1E45, [0x1E44]); (0x1E47, [0x1E46]); (0x1E49, [0x1E48]);
   (0x1E4B, [0x1E4A]); (0x1E4D, [0x1E4C]); (0x1E4F, [0x1E4E]);
   (0x1E51, [0x1E50]); (0x1E53, [0x1E52]); (0x1E55, [0x1E54]);
   (0x1E57, [0x1E56]); (0x1E59, [0x1E58]); (0x1E5B, [0x1E5A]);
   (0x1E5D, [0x1E5C]); (0x1E5F, [0x1E5E]); (0x1E61, [0x1E60]);
   (0x1E63, [0x1E62]); (0x1E65, [0x1E64]); (0x1E67, [0x1E66]);
   (0x1E69, [0x1E68]); (0x1E6B, [0x1E6A]); (0x1E6D, [0x1E6C]);
   (0x1E6F, [0x1E6E]); (0x1E71, [0x1E70]); (0x1E73, [0x1E72]);
   (0x1E75, [0x1E74]); (0x1E77, [0x1E76]); (0x1E79, [0x1E78]);
   (0x1E7B, [0x1E7A]); (0x1E7D, [0x1E7C]); (0x1E7F, [0x1E7E]);
   (0x1E81, [0x1E80]); (0x1E83, [0x1E82]); (0x1E85, [0x1E84]);
   (0x1E87, [0x1E86]); (0x1E89, [0x1E88]); (0x1E8B, [0x1E8A]);
   (0x1E8D, [0x1E8C]); (0x1E8F, [0x1E8E]); (0x1E91, [0x1E90]);
   (0x1E93, [0x1E92]); (0x1E95, [0x1E94]); (0x1E96, [0x48; 0x331]);
   (0x1E97, [0x54; 0x308]); (0x1E98, [0x57; 0x30A]); (0x1E99, [0x59; 0x30A]);
   (0x1E9A, [0x41; 0x2BE]); (0x1E9B, [0x1E60]); (0x1EA1, [0x1EA0]);
   (0x1EA3, [0x1EA2]); (0x1EA5, [0x1EA4]); (0x1EA7, [0x1EA6]);
   (0x1EA9, [0x1EA8]); (0x1EAB, [0x1EAA]); (0x1EAD, [0x1EAC]);
   (0x1EAF, [0x1EAE]); (0x1EB1, [0x1EB0]); (0x1EB3, [0x1EB2]);
   (0x1EB5, [0x1EB4]); (0x1EB7, [0x1EB6]); (0x1EB9, [0x1EB8]);
   (0x1EBB, [0x1EBA]); (0x1EBD, [0x1EBC]); (0x1EBF, [0x1EBE]);
   (0x1EC1, [0x1EC0]); (0x1EC3, [0x1EC2]); (0x1EC5, [0x1EC4]);
   (0x1EC7, [0x1EC6]); (0x1EC9, [0x1EC8]); (0x1ECB, [0x1ECA]);
   (0x1ECD, [0x1ECC]); (0x1ECF, [0x1ECE]); (0x1ED1, [0x1ED0]);
   (0x1ED3, [0x1ED2]); (0x1ED5, [0x1ED4]); (0x1ED7, [0x1ED6]);
   (0x1ED9, [0x1ED8]); (0x1EDB, [0x1EDA]); (0x1EDD, [0x1EDC]);
   (0x1EDF, [0x1EDE]); (0x1EE1, [0x1EE0]); (0x1EE3, [0x1EE2]);
   (0x1EE5, [0x1EE4]); (0x1EE7, [0x1EE6]); (0x1EE9, [0x1EE8]);
   (0x1EEB, [0x1EEA]); (0x1EED, [0x1EEC]); (0x1EEF, [0x1EEE]);
   (0x1EF1, [0x1EF0]); (0x1EF3, [0x1EF2]); (0x1EF5, [0x1EF4]);
   (0x1EF7, [0x1EF6]); (0x1EF9, [0x1EF8]); (0x1EFB, [0x1EFA]);
   (0x1EFD, [0x1EFC]); (0x1EFF, [0x1EFE]); (0x1F00, [0x1F08]);
   (0x1F01, [0x1F09]); (0x1F02, [0x1F0A]); (0x1F03, [0x1F0B]);
   (0x1F04, [0x1F0C]); (0x1F05, [0x1F0D]); (0x1F06, [0x1F0E]);
   (0x1F07, [0x1F0F]); (0x1F10, [0x1F18]); (0x1F11, [0x1F19]);
   (0x1F12, [0x1F1A]); (0x1F13, [0x1F1B]); (0x1F14, [0x1F1C]);
   (0x1F15, [0x1F1D]); (0x1F20, [0x1F28]); (0x1F21, [0x1F29]);
   (0x1F22, [0x1F2A]); (0x1F23, [0x1F2B]); (0x1F24, [0x1F2C]);
   (0x1F25, [0x1F2D]); (0x1F26, [0x1F2E]); (0x1F27, [0x1F2F]);
   (0x1F30, [0x1F38]); (0x1F31, [0x1F39]); (0x1F32, [0x1F3A]);
   (0x1F33, [0x1F3B]); (0x1F34, [0x1F3C]); (0x1F35, [0x1F3D]);
   (0x1F36, [0x1F3E]); (0x1F37, [0x1F3F]); (0x1F40, [0x1F48]);
   (0x1F41, [0x1F49]); (0x1F42, [0x1F4A]); (0x1F43, [0x1F4B]);
   (0x1F44, [0x1F4C]); (0x1F45, [0x1F4D]); (0x1F50, [0x3A5; 0x313]);
   (0x1F51, [0x1F59]); (0x1F52, [0x3A5; 0x313; 0x300]); (0x1F53, [0x1F5B]);
   (0x1F54, [0x3A5; 0x313; 0x301]); (0x1F55, [0x1F5D]);
   (0x1F56, [0x3A5; 0x313; 0x342]); (0x1F57, [0x1F5F]); (0x1F60, [0x1F68]);
   (0x1F61, [0x1F69]); (0x1F62, [0x1F6A]); (0x1F63, [0x1F6B]);
   (0x1F64, [0x1F6C]); (0x1F65, [0x1F6D]); (0x1F66, [0x1F6E]);
   (0x1F67, [0x1F6F]); (0x1F70, [0x1FBA]); (0x1F71, [0x1FBB]);
   (0x1F72, [0x1FC8]); (0x1F73, [0x1FC9]); (0x1F74, [0x1FCA]);
   (0x1F75, [0x1FCB]); (0x1F76, [0x1FDA]); (0x1F77, [0x1FDB]);
   (0x1F78, [0x1FF8]); (0x1F79, [0x1FF9]); (0x1F7A, [0x1FEA]);
   (0x1F7B, [0x1FEB]); (0x1F7C, [0x1FFA]); (0x1F7D, [0x1FFB]);
   (0x1F80, [0x1F08; 0x399]); (0x1F81, [0x1F09; 0x399]);
   (0x1F82, [0x1F0A; 0x399]); (0x1F83, [0x1F0B; 0x399]);
   (0x1F84, [0x1F0C; 0x399]); (0x1F85, [0x1F0D; 0x399]);
   (0x1F86, [0x1F0E; 0x399]); (0x1F87, [0x1F0F; 0x399]);
   (0x1F88, [0x1F08; 0x399]); (0x1F89, [0x1F09; 0x399]);
   (0x1F8A, [0x1F0A; 0x399]); (0x1F8B, [0x1F0B; 0x399]);
   (0x1F8C, [0x1F0C; 0x399]); (0x1F8D, [0x1F0D; 0x399]);
   (0x1F8E, [0x1F0E; 0x399]); (0x1F8F, [0x1F0F; 0x399]);
   (0x1F90, [0x1F28; 0x399]); (0x1F91, [0x1F29; 0x399]);
   (0x1F92, [0x1F2A; 0x399]); (0x1F93, [0x1F2B; 0x399]);
   (0x1F94, [0x1F2C; 0x399]); (0x1F95, [0x1F2D; 0x399]);
   (0x1F96, [0x1F2E; 0x399]); (0x1F97, [0x1F2F; 0x399]);
   (0x1F98, [0x1F28; 0x399]); (0x1F99, [0x1F29; 0x399]);
   (0x1F9A, [0x1F2A; 0x399]); (0x1F9B, [0x1F2B; 0x399]);
   (0x1F9C, [0x1F2C; 0x399]); (0x1F9D, [0x1F2D; 0x399]);
   (0x1F9E, [0x1F2E; 0x399]); (0x1F9F, [0x1F2F; 0x399]);
   (0x1FA0, [0x1F68; 0x399]); (0x1FA1, [0x1F69; 0x399]);
   (0x1FA2, [0x1F6A; 0x399]); (0x1FA3, [0x1F6B; 0x399]);
   (0x1FA4, [0x1F6C; 0x399]); (0x1FA5, [0x1F6D; 0x399]);
   (0x1FA6, [0x1F6E; 0x399]); (0x1FA7, [0x1F6F; 0x399]);
   (0x1FA8, [0x1F68; 0x399]); (0x1FA9, [0x1F69; 0x399]);
   (0x1FAA, [0x1F6A; 0x399]); (0x1FAB, [0x1F6B; 0x399]);
   (0x1FAC, [0x1F6C; 0x399]); (0x1FAD, [0x1F6D; 0x399]);
   (0x1FAE, [0x1F6E; 0x399]); (0x1FAF, [0x1F6F; 0x399]); (0x1FB0, [0x1FB8]);
   (0x1FB1, [0x1FB9]); (0x1FB2, [0x1FBA; 0x399]); (0x1FB3, [0x391; 0x399]);
   (0x1FB4, [0x386; 0x399]); (0x1FB6, [0x391; 0x342]);
   (0x1FB7, [0x391; 0x342; 0x399]); (0x1FBC, [0x391; 0x399]);
   (0x1FBE, [0x399]); (0x1FC2, [0x1FCA; 0x399]); (0x1FC3, [0x397; 0x399]);
   (0x1FC4, [0x389; 0x399]); (0x1FC6, [0x397; 0x342]);
   (0x1FC7, [0x397; 0x342; 0x399]); (0x1FCC, [0x397; 0x399]);
   (0x1FD0, [0x1FD8]); (0x1FD1, [0x1FD9]); (0x1FD2, [0x399; 0x308; 0x300]);
   (0x1FD3, [0x399; 0x308; 0x301]); (0x1FD6, [0x399; 0x342]);
   (0x1FD7, [0x399; 0x308; 0x342]); (0x1FE0, [0x1FE8]); (0x1FE1, [0x1FE9]);
   (0x1FE2, [0x3A5; 0x308; 0x300]); (0x1FE3, [0x3A5; 0x308; 0x301]);
   (0x1FE4, [0x3A1; 0x313]); (0x1FE5, [0x1FEC]); (0x1FE6, [0x3A5; 0x342]);
   (0x1FE7, [0x3A5; 0x308; 0x342]); (0x1FF2, [0x1FFA; 0x399]);
   (0x1FF3, [0x3A9; 0x399]); (0x1FF4, [0x38F; 0x399]);
   (0x1FF6, [0x3A9; 0x342]); (0x1FF7, [0x3A9; 0x342; 0x399]);
   (0x1FFC, [0x3A9; 0x399]); (0x214E, [0x2132]); (0x2170, [0x2160]);
   (0x2171, [0x2161]); (0x2172, [0x2162]); (0x2173, [0x2163]);
   (0x2174, [0x2164]); (0x2175, [0x2165]); (0x2176, [0x2166]);
   (0x2177, [0x2167]); (0x2178, [0x2168]); (0x2179, [0x2169]);
   (0x217A, [0x216A]); (0x217B, [0x216B]); (0x217C, [0x216C]);
   (0x217D, [0x216D]); (0x217E, [0x216E]); (0x217F, [0x216F]);
   (0x2184, [0x2183]); (0x24D0, [0x24B6]); (0x24D1, [0x24B7]);
   (0x24D2, [0x24B8]); (0x24D3, [0x24B9]); (0x24D4, [0x24BA]);
   (0x24D5, [0x24BB]); (0x24D6, [0x24BC]); (0x24D7, [0x24BD]);
   (0x24D8, [0x24BE]); (0x24D9, [0x24BF]); (0x24DA, [0x24C0]);
   (0x24DB, [0x24C1]); (0x24DC, [0x24C2]); (0x24DD, [0x24C3]);
   (0x24DE, [0x24C4]); (0x24DF, [0x24C5]); (0x24E0, [0x24C6]);
   (0x24E1, [0x24C7]); (0x24E2, [0x24C8]); (0x24E3, [0x24C9]);
   (0x24E4, [0x24CA]); (0x24E5, [0x24CB]); (0x24E6, [0x24CC]);
   (0x24E7, [0x24CD]); (0x24E8, [0x24CE]); (0x24E9, [0x24CF]);
   (0x2C30, [0x2C00]); (0x2C31, [0x2C01]); (0x2C32, [0x2C02]);
   (0x2C33, [0x2C03]); (0x2C34, [0x2C04]); (0x2C35, [0x2C05]);
   (0x2C36, [0x2C06]); (0x2C37, [0x2C07]); (0x2C38, [0x2C08]);
   (0x2C39, [0x2C09]); (0x2C3A, [0x2C0A]); (0x2C3B, [0x2C0B]);
   (0x2C3C, [0x2C0C]); (0x2C3D, [0x2C0D]); (0x2C3E, [0x2C0E]);
   (0x2C3F, [0x2C0F]); (0x2C40, [0x2C10]); (0x2C41, [0x2C11]);
   (0x2C42, [0x2C12]); (0x2C43, [0x2C13]); (0x2C44, [0x2C14]);
   (0x2C45, [0x2C15]); (0x2C46, [0x2C16]); (0x2C47, [0x2C17]);
   (0x2C48, [0x2C18]); (0x2C49, [0x2C19]); (0x2C4A, [0x2C1A]);
   (0x2C4B, [0x2C1B]); (0x2C4C, [0x2C1C]); (0x2C4D, [0x2C1D]);
   (0x2C4E, [0x2C1E]); (0x2C4F, [0x2C1F]); (0x2C50, [0x2C20]);
   (0x2C51, [0x2C21]); (0x2C52, [0x2C22]); (0x2C53, [0x2C23]);
   (0x2C54, [0x2C24]); (0x2C55, [0x2C25]); (0x2C56, [0x2C26]);
   (0x2C57, [0x2C27]); (0x2C58, [0x2C28]); (0x2C59, [0x2C29]);
   (0x2C5A, [0x2C2A]); (0x2C5B, [0x2C2B]); (0x2C5C, [0x2C2C]);
   (0x2C5D, [0x2C2D]); (0x2C5E, [0x2C2E]); (0x2C5F, [0x2C2F]);
   (0x2C61, [0x2C60]); (0x2C65, [0x23A]); (0x2C66, [0x23E]);
   (0x2C68, [0x2C67]); (0x2C6A, [0x2C69]); (0x2C6C, [0x2C6B]);
   (0x2C73, [0x2C72]); (0x2C76, [0x2C75]); (0x2C81, [0x2C80]);
   (0x2C83, [0x2C82]); (0x2C85, [0x2C84]); (0x2C87, [0x2C86]);
   (0x2C89, [0x2C88]); (0x2C8B, [0x2C8A]); (0x2C8D, [0x2C8C]);
   (0x2C8F, [0x2C8E]); (0x2C91, [0x2C90]); (0x2C93, [0x2C92]);
   (0x2C95, [0x2C94]); (0x2C97, [0x2C96]); (0x2C99, [0x2C98]);
   (0x2C9B, [0x2C9A]); (0x2C9D, [0x2C9C]); (0x2C9F, [0x2C9E]);
   (0x2CA1, [0x2CA0]); (0x2CA3, [0x2CA2]); (0x2CA5, [0x2CA4]);
   (0x2CA7, [0x2CA6]); (0x2CA9, [0x2CA8]); (0x2CAB, [0x2CAA]);
   (0x2CAD, [0x2CAC]); (0x2CAF, [0x2CAE]); (0x2CB1, [0x2CB0]);
   (0x2CB3, [0x2CB2]); (0x2CB5, [0x2CB4]); (0x2CB7, [0x2CB6]);
   (0x2CB9, [0x2CB8]); (0x2CBB, [0x2CBA]); (0x2CBD, [0x2CBC]);
   (0x2CBF, [0x2CBE]); (0x2CC1, [0x2CC0]); (0x2CC3, [0x2CC2]);
   (0x2CC5, [0x2CC4]); (0x2CC7, [0x2CC6]); (0x2CC9, [0x2CC8]);
   (0x2CCB, [0x2CCA]); (0x2CCD, [0x2CCC]); (0x2CCF, [0x2CCE]);
   (0x2CD1, [0x2CD0]); (0x2CD3, [0x2CD2]); (0x2CD5, [0x2CD4]);
   (0x2CD7, [0x2CD6]); (0x2CD9, [0x2CD8]); (0x2CDB, [0x2CDA]);
   (0x2CDD, [0x2CDC]); (0x2CDF, [0x2CDE]); (0x2CE1, [0x2CE0]);
   (0x2CE3, [0x2CE2]); (0x2CEC, [0x2CEB]); (0x2CEE, [0x2CED]);
   (0x2CF3, [0x2CF2]); (0x2D00, [0x10A0]); (0x2D01, [0x10A1]);
   (0x2D02, [0x10A2]); (0x2D03, [0x10A3]); (0x2D04, [0x10A4]);
   (0x2D05, [0x10A5]); (0x2D06, [0x10A6]); (0x2D07, [0x10A7]);
   (0x2D08, [0x10A8]); (0x2D09, [0x10A9]); (0x2D0A, [0x10AA]);
   (0x2D0B, [0x10AB]); (0x2D0C, [0x10AC]); (0x2D0D, [0x10AD]);
   (0x2D0E, [0x10AE]); (0x2D0F, [0x10AF]); (0x2D10, [0x10B0]);
   (0x2D11, [0x10B1]); (0x2D12, [0x10B2]); (0x2D13, [0x10B3]);
   (0x2D14, [0x10B4]); (0x2D15, [0x10B5]); (0x2D16, [0x10B6]);
   (0x2D17, [0x10B7]); (0x2D18, [0x10B8]); (0x2D19, [0x10B9]);
   (0x2D1A, [0x10BA]); (0x2D1B, [0x10BB]); (0x2D1C, [0x10BC]);
   (0x2D1D, [0x10BD]); (0x2D1E, [0x10BE]); (0x2D1F, [0x10BF]);
   (0x2D20, [0x10C0]); (0x2D21, [0x10C1]); (0x2D22, [0x10C2]);
   (0x2D23, [0x10C3]); (0x2D24, [0x10C4]); (0x2D25, [0x10C5]);
   (0x2D27, [0x10C7]); (0x2D2D, [0x10CD]); (0xA641, [0xA640]);
   (0xA643, [0xA642]); (0xA645, [0xA644]); (0xA647, [0xA646]);
   (0xA649, [0xA648]); (0xA64B, [0xA64A]); (0xA64D, [0xA64C]);
   (0xA64F, [0xA64E]); (0xA651, [0xA650]); (0xA653, [0xA652]);
   (0xA655, [0xA654]); (0xA657, [0xA656]); (0xA659, [0xA658]);
   (0xA65B, [0xA65A]); (0xA65D, [0xA65C]); (0xA65F, [0xA65E]);
   (0xA661, [0xA660]); (0xA663, [0xA662]); (0xA665, [0xA664]);
   (0xA667, [0xA666]); (0xA669, [0xA668]); (0xA66B, [0xA66A]);
   (0xA66D, [0xA66C]); (0xA681, [0xA680]); (0xA683, [0xA682]);
   (0xA685, [0xA684]); (0xA687, [0xA686]); (0xA689, [0xA688]);
   (0xA68B, [0xA68A]); (0xA68D, [0xA68C]); (0xA68F, [0xA68E]);
   (0xA691, [0xA690]); (0xA693, [0xA692]); (0xA695, [0xA694]);
   (0xA697, [0xA696]); (0xA699, [0xA698]); (0xA69B, [0xA69A]);
   (0xA723, [0xA722]); (0xA725, [0xA724]); (0xA727, [0xA726]);
   (0xA729, [0xA728]); (0xA72B, [0xA72A]); (0xA72D, [0xA72C]);
   (0xA72F, [0xA72E]); (0xA733, [0xA732]); (0xA735, [0xA734]);
   (0xA737, [0xA736]); (0xA739, [0xA738]); (0xA73B, [0xA73A]);
   (0xA73D, [0xA73C]); (0xA73F, [0xA73E]); (0xA741, [0xA740]);
   (0xA743, [0xA742]); (0xA745, [0xA744]); (0xA747, [0xA746]);
   (0xA749, [0xA748]); (0xA74B, [0xA74A]); (0xA74D, [0xA74C]);
   (0xA74F, [0xA74E]); (0xA751, [0xA750]); (0xA753, [0xA752]);
   (0xA755, [0xA754]); (0xA757, [0xA756]); (0xA759, [0xA758]);
   (0xA75B, [0xA75A]); (0xA75D, [0xA75C]); (0xA75F, [0xA75E]);
   (0xA761, [0xA760]); (0xA763, [0xA762]); (0xA765, [0xA764]);
   (0xA767, [0xA766]); (0xA769, [0xA768]); (0xA76B, [0xA76A]);
   (0xA76D, [0xA76C]); (0xA76F, [0xA76E]); (0xA77A, [0xA779]);
   (0xA77C, [0xA77B]); (0xA77F, [0xA77E]); (0xA781, [0xA780]);
   (0xA783, [0xA782]); (0xA785, [0xA784]); (0xA787, [0xA786]);
   (0xA78C, [0xA78B]); (0xA791, [0xA790]); (0xA793, [0xA792]);
   (0xA794, [0xA7C4]); (0xA797, [0xA796]); (0xA799, [0xA798]);
   (0xA79B, [0xA79A]); (0xA79D, [0xA79C]); (0xA79F, [0xA79E]);
   (0xA7A1, [0xA7A0]); (0xA7A3, [0xA7A2]); (0xA7A5, [0xA7A4]);
   (0xA7A7, [0xA7A6]); (0xA7A9, [0xA7A8]); (0xA7B5, [0xA7B4]);
   (0xA7B7, [0xA7B6]); (0xA7B9, [0xA7B8]); (0xA7BB, [0xA7BA]);
   (0xA7BD, [0xA7BC]); (0xA7BF, [0xA7BE]); (0xA7C1, [0xA7C0]);
   (0xA7C3, [0xA7C2]); (0xA7C8, [0xA7C7]); (0xA7CA, [0xA7C9]);
   (0xA7D1, [0xA7D0]); (0xA7D7, [0xA7D6]); (0xA7D9, [0xA7D8]);
   (0xA7F6, [0xA7F5]); (0xAB53, [0xA7B3]); (0xAB70, [0x13A0]);
   (0xAB71, [0x13A1]); (0xAB72, [0x13A2]); (0xAB73, [0x13A3]);
   (0xAB74, [0x13A4]); (0xAB75, [0x13A5]); (0xAB76, [0x13A6]);
   (0xAB77, [0x13A7]); (0xAB78, [0x13A8]); (0xAB79, [0x13A9]);
   (0xAB7A, [0x13AA]); (0xAB7B, [0x13AB]); (0xAB7C, [0x13AC]);
   (0xAB7D, [0x13AD]); (0xAB7E, [0x13AE]); (0xAB7F, [0x13AF]);
   (0xAB80, [0x13B0]); (0xAB81, [0x13B1]); (0xAB82, [0x13B2]);
   (0xAB83, [0x13B3]); (0xAB84, [0x13B4]); (0xAB85, [0x13B5]);
   (0xAB86, [0x13B6]); (0xAB87, [0x13B7]); (0xAB88, [0x13B8]);
   (0xAB89, [0x13B9]); (0xAB8A, [0x13BA]); (0xAB8B, [0x13BB]);
   (0xAB8C, [0x13BC]); (0xAB8D, [0x13BD]); (0xAB8E, [0x13BE]);
   (0xAB8F, [0x13BF]); (0xAB90, [0x13C0]); (0xAB91, [0x13C1]);
   (0xAB92, [0x13C2]); (0xAB93, [0x13C3]); (0xAB94, [0x13C4]);
   (0xAB95, [0x13C5]); (0xAB96, [0x13C6]); (0xAB97, [0x13C7]);
   (0xAB98, [0x13C8]); (0xAB99, [0x13C9]); (0xAB9A, [0x13CA]);
   (0xAB9B, [0x13CB]); (0xAB9C, [0x13CC]); (0xAB9D, [0x13CD]);
   (0xAB9E, [0x13CE]); (0xAB9F, [0x13CF]); (0xABA0, [0x13D0]);
   (0xABA1, [0x13D1]); (0xABA2, [0x13D2]); (0xABA3, [0x13D3]);
   (0xABA4, [0x13D4]); (0xABA5, [0x13D5]); (0xABA6, [0x13D6]);
   (0xABA7, [0x13D7]); (0xABA8, [0x13D8]); (0xABA9, [0x13D9]);
   (0xABAA, [0x13DA]); (0xABAB, [0x13DB]); (0xABAC, [0x13DC]);
   (0xABAD, [0x13DD]); (0xABAE, [0x13DE]); (0xABAF, [0x13DF]);
   (0xABB0, [0x13E0]); (0xABB1, [0x13E1]); (0xABB2, [0x13E2]);
   (0xABB3, [0x13E3]); (0xABB4, [0x13E4]); (0xABB5, [0x13E5]);
   (0xABB6, [0x13E6]); (0xABB7, [0x13E7]); (0xABB8, [0x13E8]);
   (0xABB9, [0x13E9]); (0xABBA, [0x13EA]); (0xABBB, [0x13EB]);
   (0xABBC, [0x13EC]); (0xABBD, [0x13ED]); (0xABBE, [0x13EE]);
   (0xABBF, [0x13EF]); (0xFB00, [0x46; 0x46]); (0xFB01, [0x46; 0x49]);
   (0xFB02, [0x46; 0x4C]); (0xFB03, [0x46; 0x46; 0x49]);
   (0xFB04, [0x46; 0x46; 0x4C]); (0xFB05, [0x53; 0x54]);
   (0xFB06, [0x53; 0x54]); (0xFB13, [0x544; 0x546]);
   (0xFB14, [0x544; 0x535]); (0xFB15, [0x544; 0x53B]);
   (0xFB16, [0x54E; 0x546]); (0xFB17, [0x544; 0x53D]); (0xFF41, [0xFF21]);
   (0xFF42, [0xFF22]); (0xFF43, [0xFF23]); (0xFF44, [0xFF24]);
   (0xFF45, [0xFF25]); (0xFF46, [0xFF26]); (0xFF47, [0xFF27]);
   (0xFF48, [0xFF28]); (0xFF49, [0xFF29]); (0xFF4A, [0xFF2A]);
   (0xFF4B, [0xFF2B]); (0xFF4C, [0xFF2C]); (0xFF4D, [0xFF2D]);
   (0xFF4E, [0xFF2E]); (0xFF4F, [0xFF2F]); (0xFF50, [0xFF30]);
   (0xFF51, [0xFF31]); (0xFF52, [0xFF32]); (0xFF53, [0xFF33]);
   (0xFF54, [0xFF34]); (0xFF55, [0xFF35]); (0xFF56, [0xFF36]);
   (0xFF57, [0xFF37]); (0xFF58, [0xFF38]); (0xFF59, [0xFF39]);
   (0xFF5A, [0xFF3A]); (0x10428, [0x10400]); (0x10429, [0x10401]);
   (0x1042A, [0x10402]); (0x1042B, [0x10403]); (0x1042C, [0x10404]);
   (0x1042D, [0x10405]); (0x1042E, [0x10406]); (0x1042F, [0x10407]);
   (0x10430, [0x10408]); (0x10431, [0x10409]); (0x10432, [0x1040A]);
   (0x10433, [0x1040B]); (0x10434, [0x1040C]); (0x10435, [0x1040D]);
   (0x10436, [0x1040E]); (0x10437, [0x1040F]); (0x10438, [0x10410]);
   (0x10439, [0x10411]); (0x1043A, [0x10412]); (0x1043B, [0x10413]);
   (0x1043C, [0x10414]); (0x1043D, [0x10415]); (0x1043E, [0x10416]);
   (0x1043F, [0x10417]); (0x10440, [0x10418]); (0x10441, [0x10419]);
   (0x10442, [0x1041A]); (0x10443, [0x1041B]); (0x10444, [0x1041C]);
   (0x10445, [0x1041D]); (0x10446, [0x1041E]); (0x10447, [0x1041F]);
   (0x10448, [0x10420]); (0x10449, [0x10421]); (0x1044A, [0x10422]);
   (0x1044B, [0x10423]); (0x1044C, [0x10424]); (0x1044D, [0x10425]);
   (0x1044E, [0x10426]); (0x1044F, [0x10427]); (0x104D8, [0x104B0]);
   (0x104D9, [0x104B1]); (0x104DA, [0x104B2]); (0x104DB, [0x104B3]);
   (0x104DC, [0x104B4]); (0x104DD, [0x104B5]); (0x104DE, [0x104B6]);
   (0x104DF, [0x104B7]); (0x104E0, [0x104B8]); (0x104E1, [0x104B9]);
   (0x104E2, [0x104BA]); (0x104E3, [0x104BB]); (0x104E4, [0x104BC]);
   (0x104E5, [0x104BD]); (0x104E6, [0x104BE]); (0x104E7, [0x104BF]);
   (0x104E8, [0x104C0]); (0x104E9, [0x104C1]); (0x104EA, [0x104C2]);
   (0x104EB, [0x104C3]); (0x104EC, [0x104C4]); (0x104ED, [0x104C5]);
   (0x104EE, [0x104C6]); (0x104EF, [0x104C7]); (0x104F0, [0x104C8]);
   (0x104F1, [0x104C9]); (0x104F2, [0x104CA]); (0x104F3, [0x104CB]);
   (0x104F4, [0x104CC]); (0x104F5, [0x104CD]); (0x104F6, [0x104CE]);
   (0x104F7, [0x104CF]); (0x104F8, [0x104D0]); (0x104F9, [0x104D1]);
   (0x104FA, [0x104D2]); (0x104FB, [0x104D3]); (0x10597, [0x10570]);
   (0x10598, [0x10571]); (0x10599, [0x10572]); (0x1059A, [0x10573]);
   (0x1059B, [0x10574]); (0x1059C, [0x10575]); (0x1059D, [0x10576]);
   (0x1059E, [0x10577]); (0x1059F, [0x10578]); (0x105A0, [0x10579]);
   (0x105A1, [0x1057A]); (0x105A3, [0x1057C]); (0x105A4, [0x1057D]);
   (0x105A5, [0x1057E]); (0x105A6, [0x1057F]); (0x105A7, [0x10580]);
   (0x105A8, [0x10581]); (0x105A9, [0x10582]); (0x105AA, [0x10583]);
   (0x105AB, [0x10584]); (0x105AC, [0x10585]); (0x105AD, [0x10586]);
   (0x105AE, [0x10587]); (0x105AF, [0x10588]); (0x105B0, [0x10589]);
   (0x105B1, [0x1058A]); (0x105B3, [0x1058C]); (0x105B4, [0x1058D]);
   (0x105B5, [0x1058E]); (0x105B6, [0x1058F]); (0x105B7, [0x10590]);
   (0x105B8, [0x10591]); (0x105B9, [0x10592]); (0x105BB, [0x10594]);
   (0x105BC, [0x10595]); (0x10CC0, [0x10C80]); (0x10CC1, [0x10C81]);
   (0x10CC2, [0x10C82]); (0x10CC3, [0x10C83]); (0x10CC4, [0x10C84]);
   (0x10CC5, [0x10C85]); (0x10CC6, [0x10C86]); (0x10CC7, [0x10C87]);
   (0x10CC8, [0x10C88]); (0x10CC9, [0x10C89]); (0x10CCA, [0x10C8A]);
   (0x10CCB, [0x10C8B]); (0x10CCC, [0x10C8C]); (0x10CCD, [0x10C8D]);
   (0x10CCE, [0x10C8E]); (0x10CCF, [0x10C8F]); (0x10CD0, [0x10C90]);
   (0x10CD1, [0x10C91]); (0x10CD2, [0x10C92]); (0x10CD3, [0x10C93]);
   (0x10CD4, [0x10C94]); (0x10CD5, [0x10C95]); (0x10CD6, [0x10C96]);
   (0x10CD7, [0x10C97]); (0x10CD8, [0x10C98]); (0x10CD9, [0x10C99]);
   (0x10CDA, [0x10C9A]); (0x10CDB, [0x10C9B]); (0x10CDC, [0x10C9C]);
   (0x10CDD, [0x10C9D]); (0x10CDE, [0x10C9E]); (0x10CDF, [0x10C9F]);
   (0x10CE0, [0x10CA0]); (0x10CE1, [0x10CA1]); (0x10CE2, [0x10CA2]);
   (0x10CE3, [0x10CA3]); (0x10CE4, [0x10CA4]); (0x10CE5, [0x10CA5]);
   (0x10CE6, [0x10CA6]); (0x10CE7, [0x10CA7]); (0x10CE8, [0x10CA8]);
   (0x10CE9, [0x10CA9]); (0x10CEA, [0x10CAA]); (0x10CEB, [0x10CAB]);
   (0x10CEC, [0x10CAC]); (0x10CED, [0x10CAD]); (0x10CEE, [0x10CAE]);
   (0x10CEF, [0x10CAF]); (0x10CF0, [0x10CB0]); (0x10CF1, [0x10CB1]);
   (0x10CF2, [0x10CB2]); (0x118C0, [0x118A0]); (0x118C1, [0x118A1]);
   (0x118C2, [0x118A2]); (0x118C3, [0x118A3]); (0x118C4, [0x118A4]);
   (0x118C5, [0x118A5]); (0x118C6, [0x118A6]); (0x118C7, [0x118A7]);
   (0x118C8, [0x118A8]); (0x118C9, [0x118A9]); (0x118CA, [0x118AA]);
   (0x118CB, [0x118AB]); (0x118CC, [0x118AC]); (0x118CD, [0x118AD]);
   (0x118CE, [0x118AE]); (0x118CF, [0x118AF]); (0x118D0, [0x118B0]);
   (0x118D1, [0x118B1]); (0x118D2, [0x118B2]); (0x118D3, [0x118B3]);
   (0x118D4, [0x118B4]); (0x118D5, [0x118B5]); (0x118D6, [0x118B6]);
   (0x118D7, [0x118B7]); (0x118D8, [0x118B8]); (0x118D9, [0x118B9]);
   (0x118DA, [0x118BA]); (0x118DB, [0x118BB]); (0x118DC, [0x118BC]);
   (0x118DD, [0x118BD]); (0x118DE, [0x118BE]); (0x118DF, [0x118BF]);
   (0x16E60, [0x16E40]); (0x16E61, [0x16E41]); (0x16E62, [0x16E42]);
   (0x16E63, [0x16E43]); (0x16E64, [0x16E44]); (0x16E65, [0x16E45]);
   (0x16E66, [0x16E46]); (0x16E67, [0x16E47]); (0x16E68, [0x16E48]);
   (0x16E69, [0x16E49]); (0x16E6A, [0x16E4A]); (0x16E6B, [0x16E4B]);
   (0x16E6C, [0x16E4C]); (0x16E6D, [0x16E4D]); (0x16E6E, [0x16E4E]);
   (0x16E6F, [0x16E4F]); (0x16E70, [0x16E50]); (0x16E71, [0x16E51]);
   (0x16E72, [0x16E52]); (0x16E73, [0x16E53]); (0x16E74, [0x16E54]);
   (0x16E75, [0x16E55]); (0x16E76, [0x16E56]); (0x16E77, [0x16E57]);
   (0x16E78, [0x16E58]); (0x16E79, [0x16E59]); (0x16E7A, [0x16E5A]);
   (0x16E7B, [0x16E5B]); (0x16E7C, [0x16E5C]); (0x16E7D, [0x16E5D]);
   (0x16E7E, [0x16E5E]); (0x16E7F, [0x16E5F]); (0x1E922, [0x1E900]);
   (0x1E923, [0x1E901]); (0x1E924, [0x1E902]); (0x1E925, [0x1E903]);
   (0x1E926, [0x1E904]); (0x1E927, [0x1E905]); (0x1E928, [0x1E906]);
   (0x1E929, [0x1E907]); (0x1E92A, [0x1E908]); (0x1E92B, [0x1E909]);
   (0x1E92C, [0x1E90A]); (0x1E92D, [0x1E90B]); (0x1E92E, [0x1E90C]);
   (0x1E92F, [0x1E90D]); (0x1E930, [0x1E90E]); (0x1E931, [0x1E90F]);
   (0x1E932, [0x1E910]); (0x1E933, [0x1E911]); (0x1E934, [0x1E912]);
   (0x1E935, [0x1E913]); (0x1E936, [0x1E914]); (0x1E937, [0x1E915]);
   (0x1E938, [0x1E916]); (0x1E939, [0x1E917]); (0x1E93A, [0x1E918]);
   (0x1E93B, [0x1E919]); (0x1E93C, [0x1E91A]); (0x1E93D, [0x1E91B]);
   (0x1E93E, [0x1E91C]); (0x1E93F, [0x1E91D]); (0x1E940, [0x1E91E]);
   (0x1E941, [0x1E91F]); (0x1E942, [0x1E920]); (0x1E943, [0x1E921])]%N.

(** The two tables, keyed by the bytes of the character. *)
Definition spaces : list string :=
  Eval vm_compute in map utf8 space_points.

Definition uppers : list (string * string) :=
  Eval vm_compute in
    map (fun kv => (utf8 (fst kv), join (map utf8 (snd kv)))) upper_points.

(** [c.isspace()] for one character: in ASCII, TAB, LF, VT, FF, CR, the
    four separators FS, GS, RS, US, and the blank. *)
Definition isspace (c : string) : bool :=
  match c with
  | String b EmptyString =>
      let n := nat_of_ascii b in
      ((9 <=? n) && (n <=? 13)) || ((28 <=? n) && (n <=? 32))
  | _ => existsb (String.eqb c) spaces
  end.

(** [c.upper()] for one character: in ASCII, the letters [a] to [z];
    outside, by the table, where the result can be several characters. *)
Definition upper_char (c : string) : string :=
  match c with
  | String b EmptyString =>
      let n := nat_of_ascii b in
      if (97 <=? n) && (n <=? 122)
      then String (ascii_of_nat (n - 32)) EmptyString else c
  | _ =>
      match find (fun kv => String.eqb (fst kv) c) uppers with
      | Some kv => snd kv
      | None => c
      end
  end.

(** [s.upper()] *)
Definition upper (s : string) : string := join (map upper_char (chars s)).

(** Leading and trailing blank characters removed. *)
Fixpoint lstrip_chars (cs : list string) : list string :=
  match cs with
  | [] => []
  | c :: rest => if isspace c then lstrip_chars rest else cs
  end.

Fixpoint rstrip_chars (cs : list string) : list string :=
  match cs with
  | [] => []
  | c :: rest =>
      match rstrip_chars rest with
      | [] => if isspace c then [] else [c]
      | r => c :: r
      end
  end.

(** [s.strip()] with no argument. *)
Definition strip (s : string) : string :=
  join (rstrip_chars (lstrip_chars (chars s))).

(** *** Searches for an ASCII character

    [c in s] for a one-character string [c]. *)
Fixpoint contains (c : ascii) (s : string) : bool :=
  match s with
  | EmptyString => false
  | String d s' => Ascii.eqb d c || contains c s'
  end.

(** [s.startswith(p)] *)
Definition startswith (p s : string) : bool := String.prefix p s.

(** [s[n:]] for a non-negative [n], where the first [n] characters of [s]
    are ASCII. *)
Fixpoint drop (n : nat) (s : string) : string :=
  match n, s with
  | O, _ => s
  | S _, EmptyString => EmptyString
  | S n', String _ s' => drop n' s'
  end.

(** [s.partition(sep)] for a one-character separator: the text before
    the first occurrence, the separator found (empty when there is
    none), and the text after it. *)
Fixpoint partition (sep : ascii) (s : string) : string * string * string :=
  match s with
  | EmptyString => (EmptyString, EmptyString, EmptyString)
  | String c s' =>
      if Ascii.eqb c sep then (EmptyString, String sep EmptyString, s')
      else let '(before, found, after) := partition sep s' in
           (String c before, found, after)
  end.

(** [s.replace(old, new)] for a one-character [old]: every occurrence is
    replaced, left to right. *)
Fixpoint replace (old : ascii) (new : string) (s : string) : string :=
  match s with
  | EmptyString => EmptyString
  | String c s' =>
      if Ascii.eqb c old then new ++ replace old new s'
      else String c (replace old new s')
  end.

(** [str(n)] for an integer. *)
Definition str_int (n : Z) : string := NilZero.string_of_int (Z.to_int n).

Definition quote1 : ascii := ascii_of_nat 39.
Definition quote2 : ascii := ascii_of_nat 34.
Definition backslash : ascii := ascii_of_nat 92.

Definition hex_digit (n : nat) : ascii :=
  if n <? 10 then ascii_of_nat (48 + n) else ascii_of_nat (87 + n).

Fixpoint repr_body (q : ascii) (s : string) : string :=
  match s with
  | EmptyString => EmptyString
  | String c s' =>
      let n := nat_of_ascii c in
      let rest := repr_body q s' in
      if Ascii.eqb c q || Ascii.eqb c backslash then
        String backslash (String c rest)
      else if n =? 9 then String backslash (String "t" rest)
      else if n =? 10 then String backslash (String "n" rest)
      else if n =? 13 then String backslash (String "r" rest)
      else if (n <? 32) || (n =? 127) then
        String backslash
          (String "x" (String (hex_digit (n / 16))
                         (String (hex_digit (n mod 16)) rest)))
      else String c rest
  end.

(** [repr(s)] for a string: single quotes unless the text holds a single
    quote and no double quote.  A character outside ASCII is rendered as
    it is, as Python does for the printable ones. *)
Definition repr_str (s : string) : string :=
  let q := if contains quote1 s && negb (contains quote2 s)
           then quote2 else quote1 in
  String q (repr_body q s ++ String q EmptyString).

End Py.

(** ** JSON values and results *)

#[warnings="-register-all"] Inductive json : Type :=
| JNull
| JBool (b : bool)
| JInt (n : Z)
| JFloat (text : string)
| JStr (s : string)
| JList (items : list json)
| JDict (entries : list (string * json)).

Inductive exn : Type :=
| AttributeError.

Inductive result (A : Type) : Type :=
| Ok (a : A)
| Raise (e : exn).

Arguments Ok {A} a.
Arguments Raise {A} e.

Definition bind {A B : Type} (r : result A) (k : A -> result B) : result B :=
  match r with
  | Ok a => k a
  | Raise e => Raise e
  end.

Notation "x <- r ;; k" := (bind r (fun x => k))
  (at level 61, r at next level, right associativity).

(** [d.get(key)] on a dictionary. *)
Fixpoint dict_get (entries : list (string * json)) (key : string) : option json :=
  match entries with
  | [] => None
  | (k, v) :: rest => if String.eqb k key then Some v else dict_get rest key
  end.

(** [repr(value)] and [str(value)] of a JSON value.  They differ on a
    string only, which [repr] quotes. *)
Fixpoint py_repr (v : json) : string :=
  match v with
  | JNull => "None"
  | JBool true => "True"
  | JBool false => "False"
  | JInt n => Py.str_int n
  | JFloat text => text
  | JStr s => Py.repr_str s
  | JList items =>
      "[" ++ String.concat ", " (map py_repr items) ++ "]"
  | JDict entries =>
      "{" ++ String.concat ", "
               (map (fun kv => Py.repr_str (fst kv) ++ ": " ++ py_repr (snd kv))
                    entries) ++ "}"
  end.

Definition py_str (v : json) : string :=
  match v with
  | JStr s => s
  | _ => py_repr v
  end.

(** ** cds_mapping.py *)

(** The generator expression of [normalize_name]: the characters of [t]
    that are neither blank nor an underscore, joined. *)
Definition join_name_chars (t : string) : string :=
  Py.join (filter (fun ch => negb (Py.isspace ch) && negb (String.eqb ch "_"))
             (Py.chars t)).

(** Every caller passes a [str], on which the source's [str(s)] is the
    identity. *)
Definition normalize_name (s : string) : string :=
  join_name_chars (Py.strip (Py.upper s)).

Definition is_str (v : json) : bool :=
  match v with JStr _ => true | _ => false end.

Definition extract_scalar_value (value : json) : string :=
  match value with
  | JNull => EmptyString
  | JList items =>
      match items with
      | [] => EmptyString
      | _ =>
          (fix loop (l : list json) : string :=
             match l with
             | [] => EmptyString
             | JStr item :: _ => item
             | _ :: rest => loop rest
             end) items
      end
  | JStr _ | JInt _ | JFloat _ | JBool _ => py_str value
  | _ => py_str value
  end.

(** [root_obj.items()] exists on a dictionary only; the keys of a JSON
    object are strings, so the [isinstance(key, str)] test always passes. *)
Definition lookup_root_field (var_str : string) (root_obj : json)
  : result (option string) :=
  let target := normalize_name var_str in
  match root_obj with
  | JDict entries =>
      Ok ((fix loop (l : list (string * json)) : option string :=
             match l with
             | [] => None
             | (key, value) :: rest =>
                 if String.eqb (normalize_name key) target
                 then Some (extract_scalar_value value)
                 else loop rest
             end) entries)
  | _ => Raise AttributeError
  end.

Definition find_person_by_role (people_list : list json) (role_token : string)
  : option json :=
  let target := normalize_name role_token in
  (fix loop (l : list json) : option json :=
     match l with
     | [] => None
     | person :: rest =>
         match person with
         | JDict entries =>
             match dict_get entries "Role" with
             | Some (JStr role_val) =>
                 if String.eqb (normalize_name role_val) target
                 then Some person else loop rest
             | _ => loop rest
             end
         | _ => loop rest
         end
     end) people_list.

(** The inner function of [find_value_in_obj]; [None] is not found. *)
Fixpoint _search (target : string) (o : json) : option string :=
  match o with
  | JDict entries =>
      (fix items (l : list (string * json)) : option string :=
         match l with
         | [] => None
         | (k, v) :: rest =>
             if String.eqb (normalize_name k) target
             then Some (extract_scalar_value v)
             else match _search target v with
                  | Some found => Some found
                  | None => items rest
                  end
         end) entries
  | JList elems =>
      (fix each (l : list json) : option string :=
         match l with
         | [] => None
         | item :: rest =>
             match _search target item with
             | Some found => Some found
             | None => each rest
             end
         end) elems
  | _ => None
  end.

Definition find_value_in_obj (obj : json) (field_token : string)
  : option string :=
  _search (normalize_name field_token) obj.

(** [root_obj.get] exists on a dictionary only. *)
Definition lookup_people_field (root_obj : json) (role_token var_token : string)
  : result (option string) :=
  match root_obj with
  | JDict entries =>
      match dict_get entries "people" with
      | Some (JList people_list) =>
          match find_person_by_role people_list role_token with
          | None => Ok None
          | Some person => Ok (find_value_in_obj person var_token)
          end
      | _ => Ok None
      end
  | _ => Raise AttributeError
  end.

(** [value if value is not None else ''] *)
Definition or_empty (value : option string) : string :=
  match value with
  | Some s => s
  | None => EmptyString
  end.

Definition resolve_variable (var_str : json) (root_obj : json) : result string :=
  match var_str with
  | JNull => Ok EmptyString
  | _ =>
      let var_clean := Py.strip (py_str var_str) in
      if String.eqb var_clean EmptyString then Ok EmptyString
      else
        let var_upper := Py.upper var_clean in
        if Py.startswith "PEOPLE_" var_upper then
          let rest := Py.drop (String.length "PEOPLE_") var_upper in
          let '(role_token, sep, var_token) := Py.partition "_" rest in
          if String.eqb sep EmptyString then Ok EmptyString
          else
            value <- lookup_people_field root_obj role_token var_token ;;
            Ok (or_empty value)
        else if negb (Py.contains "_" var_clean) then
          value <- lookup_root_field var_clean root_obj ;;
          Ok (or_empty value)
        else Ok EmptyString
  end.

Fixpoint transform_structure (obj : json) (root_obj : json) : result json :=
  match obj with
  | JDict entries =>
      out <- (fix items (l : list (string * json))
                : result (list (string * json)) :=
                match l with
                | [] => Ok []
                | (k, v) :: rest =>
                    v' <- transform_structure v root_obj ;;
                    rest' <- items rest ;;
                    Ok ((k, v') :: rest')
                end) entries ;;
      Ok (JDict out)
  | JList elems =>
      out <- (fix each (l : list json) : result (list json) :=
                match l with
                | [] => Ok []
                | item :: rest =>
                    item' <- transform_structure item root_obj ;;
                    rest' <- each rest ;;
                    Ok (item' :: rest')
                end) elems ;;
      Ok (JList out)
  | JStr _ => r <- resolve_variable obj root_obj ;; Ok (JStr r)
  | _ => Ok obj
  end.

(** ** merge_letterdata.py *)

Fixpoint escape_slashes (obj : json) : json :=
  match obj with
  | JDict entries =>
      JDict (map (fun kv => (fst kv, escape_slashes (snd kv))) entries)
  | JList elems => JList (map escape_slashes elems)
  | JStr s => JStr (Py.replace "/" "//" s)
  | _ => obj
  end.

(** ** Reference definitions for the deep search *)

(** [key_hit target kv]: the key of the entry [kv] has the normalized
    name [target]. *)
Definition key_hit (target : string) (kv : string * json) : bool :=
  String.eqb (normalize_name (fst kv)) target.

(** The entries (key, value) of every object in the tree, in depth-first
    pre-order: an entry comes before the entries inside its value, which
    come before the next entry of the same object. *)
Fixpoint preorder_entries (o : json) : list (string * json) :=
  match o with
  | JDict entries =>
      (fix items (l : list (string * json)) : list (string * json) :=
         match l with
         | [] => []
         | (k, v) :: rest => (k, v) :: (preorder_entries v ++ items rest)%list
         end) entries
  | JList elems =>
      (fix each (l : list json) : list (string * json) :=
         match l with
         | [] => []
         | item :: rest => (preorder_entries item ++ each rest)%list
         end) elems
  | _ => []
  end.

(** The deep search as the specification words it, in two phases at each
    object: first every direct key is compared, and only when none matches
    are the child values searched in order.  It is compared below with
    [_search], which follows the source. *)
Fixpoint spec_direct_first_search (target : string) (o : json) : option string :=
  match o with
  | JDict entries =>
      match find (key_hit target) entries with
      | Some (_, v) => Some (extract_scalar_value v)
      | None =>
          (fix children (l : list (string * json)) : option string :=
             match l with
             | [] => None
             | (_, v) :: rest =>
                 match spec_direct_first_search target v with
                 | Some found => Some found
                 | None => children rest
                 end
             end) entries
      end
  | JList elems =>
      (fix each (l : list json) : option string :=
         match l with
         | [] => None
         | item :: rest =>
             match spec_direct_first_search target item with
             | Some found => Some found
             | None => each rest
             end
         end) elems
  | _ => None
  end.

(** Two JSON values of the same shape: the same kind of node everywhere,
    objects with the same keys in the same order, lists of the same
    length, equal leaves except strings, which are related by [leaf]. *)
#[warnings="-register-all"] Inductive same_shape
  (leaf : string -> string -> Prop) : json -> json -> Prop :=
| shape_null : same_shape leaf JNull JNull
| shape_bool b : same_shape leaf (JBool b) (JBool b)
| shape_int n : same_shape leaf (JInt n) (JInt n)
| shape_float t : same_shape leaf (JFloat t) (JFloat t)
| shape_str s s' : leaf s s' -> same_shape leaf (JStr s) (JStr s')
| shape_list l l' :
    Forall2 (same_shape leaf) l l' -> same_shape leaf (JList l) (JList l')
| shape_dict e e' :
    Forall2 (fun kv kv' => fst kv = fst kv'
                           /\ same_shape leaf (snd kv) (snd kv')) e e' ->
    same_shape leaf (JDict e) (JDict e').

(** [slash_doubled s s']: [s'] is [s] with each slash written twice and
    every other character kept. *)
Inductive slash_doubled : string -> string -> Prop :=
| doubled_end : slash_doubled EmptyString EmptyString
| doubled_slash s s' :
    slash_doubled s s' -> slash_doubled (String "/" s) (String "/" (String "/" s'))
| doubled_other c s s' :
    c <> "/"%char -> slash_doubled s s' -> slash_doubled (String c s) (String c s').

(** The entry of a people list that role lookup selects: an object whose
    [Role] is a string with the normalized name of [role_token]. *)
Definition role_hit (role_token : string) (person : json) : bool :=
  match person with
  | JDict entries =>
      match dict_get entries "Role" with
      | Some (JStr role_val) =>
          String.eqb (normalize_name role_val) (normalize_name role_token)
      | _ => false
      end
  | _ => false
  end.

Definition is_dict (v : json) : bool :=
  match v with JDict _ => true | _ => false end.

Definition is_list (v : json) : bool :=
  match v with JList _ => true | _ => false end.

(** Records and templates used as examples. *)
Definition city_person : json :=
  JDict [("A", JDict [("City", JStr "inner")]); ("City", JStr "outer")].

Definition owner_record : json :=
  JDict [("people",
          JList [JDict [("Role", JStr "Owner");
                        ("Address", JDict [("City", JStr "Troy")])]])].

Definition greeting_template : json :=
  JDict [("greeting", JStr "PEOPLE_OWNER_CITY"); ("code", JInt 7);
         ("flag", JNull)].

Definition email_person : json :=
  JDict [("Role", JStr "Owner"); ("Email", JNull);
         ("Contact", JDict [("E_Mail", JStr "ann@example.org")])].

(** The two comprehensions of [transform_structure], named. *)
Definition transform_each (root_obj : json) : list json -> result (list json) :=
  fix each (l : list json) : result (list json) :=
    match l with
    | [] => Ok []
    | item :: rest =>
        item' <- transform_structure item root_obj ;;
        rest' <- each rest ;;
        Ok (item' :: rest')
    end.

Definition transform_items (root_obj : json)
  : list (string * json) -> result (list (string * json)) :=
  fix items (l : list (string * json)) : result (list (string * json)) :=
    match l with
    | [] => Ok []
    | (k, v) :: rest =>
        v' <- transform_structure v root_obj ;;
        rest' <- items rest ;;
        Ok ((k, v') :: rest')
    end.

(** The relation between a template string and its replacement. *)
Definition resolves_to (root_obj : json) (s s' : string) : Prop :=
  resolve_variable (JStr s) root_obj = Ok s'.

(** ** Auxiliary definitions used in the proofs *)

(** Every byte of [t] is a continuation byte. *)
Fixpoint all_cont (t : string) : bool :=
  match t with
  | EmptyString => true
  | String b t' => Py.is_cont b && all_cont t'
  end.

(** One character's worth of bytes: a first byte, and continuation bytes
    only behind it. *)
Definition one_char (c : string) : bool :=
  match c with
  | EmptyString => false
  | String _ t => all_cont t
  end.

(** A character that starts where a character can start: its first byte
    is not a continuation byte. *)
Definition headed (c : string) : bool := one_char c && negb (Py.continues c).

(** A list of characters as [Py.chars] yields them: only the first can
    lack its first byte. *)
Definition chunked (cs : list string) : bool :=
  match cs with
  | [] => true
  | c :: rest => one_char c && forallb headed rest
  end.

(** The characters of [c.upper()]. *)
Definition upper_chars (c : string) : list string :=
  Py.chars (Py.upper_char c).

(** A character that [normalize_name] keeps. *)
Definition kept (ch : string) : bool :=
  negb (Py.isspace ch) && negb (String.eqb ch "_").

Definition several_bytes (c : string) : bool :=
  match c with
  | String _ (String _ _) => true
  | _ => false
  end.

(** What holds of each entry of the case table: the key is a character of
    several bytes, without underscore, not blank; the image is not empty,
    starts a character, holds no underscore, and each of its characters is
    not blank and is its own upper case. *)
Definition upper_entry_ok (kv : string * string) : bool :=
  let k := fst kv in
  let v := snd kv in
  headed k && several_bytes k
  && negb (Py.contains "_" k) && negb (Py.contains "_" v)
  && negb (Py.isspace k)
  && negb (Py.continues v)
  && negb (String.eqb v EmptyString)
  && forallb (fun d => String.eqb (Py.upper_char d) d && negb (Py.isspace d))
       (Py.chars v).

(** What holds of each entry of the table of blanks: it is a character of
    several bytes and its own upper case. *)
Definition space_entry_ok (c : string) : bool :=
  headed c && several_bytes c && String.eqb (Py.upper_char c) c.

(** A character of a normalized name: one character, its own upper case,
    not blank, not an underscore. *)
Definition name_char (d : string) : Prop :=
  one_char d = true /\ Py.upper_char d = d
  /\ Py.isspace d = false /\ d <> "_".

(** Two names that differ only in the case of letters, or by a blank or
    an underscore put in at a character boundary. *)
Inductive variant : string -> string -> Prop :=
| variant_same s : variant s s
| variant_sym s t : variant s t -> variant t s
| variant_trans s t u : variant s t -> variant t u -> variant s u
| variant_case s t : Py.upper s = Py.upper t -> variant s t
| variant_separator a sp b :
    Py.isspace sp = true \/ sp = "_" ->
    Py.continues b = false ->
    variant (a ++ sp ++ b) (a ++ b).

(** The extracted scalar of an entry's value. *)
Definition extract_entry (kv : string * json) : string :=
  extract_scalar_value (snd kv).

(** [resolve_variable] past its [None] test, on the trimmed text. *)
Definition resolve_clean (var_clean : string) (root_obj : json)
  : result string :=
  if String.eqb var_clean EmptyString then Ok EmptyString
  else
    let var_upper := Py.upper var_clean in
    if Py.startswith "PEOPLE_" var_upper then
      let rest := Py.drop (String.length "PEOPLE_") var_upper in
      let '(role_token, sep, var_token) := Py.partition "_" rest in
      if String.eqb sep EmptyString then Ok EmptyString
      else
        value <- lookup_people_field root_obj role_token var_token ;;
        Ok (or_empty value)
    else if negb (Py.contains "_" var_clean) then
      value <- lookup_root_field var_clean root_obj ;;
      Ok (or_empty value)
    else Ok EmptyString.

(** What the shape theorem says of one template. *)
Definition shaped (root_obj : json) (t : json) : Prop :=
  match transform_structure t root_obj with
  | Ok out => same_shape (resolves_to root_obj) t out
  | Raise _ => is_dict root_obj = false
  end.


(** Induction over JSON trees: the hypothesis for a list or an object
    holds for each element or each entry's value. *)

Section JsonInduction.
Variable P : json -> Prop.
Hypothesis on_null : P JNull.
Hypothesis on_bool : forall b, P (JBool b).
Hypothesis on_int : forall n, P (JInt n).
Hypothesis on_float : forall t, P (JFloat t).
Hypothesis on_str : forall s, P (JStr s).
Hypothesis on_list : forall l, Forall P l -> P (JList l).
Hypothesis on_dict :
  forall e, Forall (fun kv => P (snd kv)) e -> P (JDict e).

Fixpoint json_tree_ind (j : json) : P j :=
  match j with
  | JNull => on_null
  | JBool b => on_bool b
  | JInt n => on_int n
  | JFloat t => on_float t
  | JStr s => on_str s
  | JList l =>
      on_list l
        (list_ind (Forall P) (Forall_nil P)
           (fun x _ rest_ok => Forall_cons x (json_tree_ind x) rest_ok) l)
  | JDict e =>
      on_dict e
        (list_ind (Forall (fun kv => P (snd kv))) (Forall_nil _)
           (fun kv _ rest_ok =>
              Forall_cons kv (json_tree_ind (snd kv)) rest_ok) e)
  end.
End JsonInduction.

(** ** cds_mapping.py: the fetch of the Record *)

(** What the HTTP request and the decoding of its body yield in
    [fetch_cds_root]: a [requests.RequestException] (the request or
    [raise_for_status] failed), a [ValueError] (the body is not JSON), or
    the decoded body. *)
Inductive cds_response : Type :=
| RequestFailed (e : string)
| BodyNotJson (e : string)
| Body (data : json).

Inductive exit : Type :=
| SystemExit (message : string).

(** The CDS service is a function from the contract number queried to the
    response obtained. *)
Definition fetch_cds_root (api : string -> cds_response)
  (contract_number : string) : exit + json :=
  match api contract_number with
  | RequestFailed e => inl (SystemExit ("Error calling CDS API: " ++ e))
  | BodyNotJson e =>
      inl (SystemExit ("Error parsing CDS API response as JSON: " ++ e))
  | Body data =>
      match data with
      | JList (JDict entries :: _) => inr (JDict entries)
      | _ =>
          inl (SystemExit
                 "Unexpected CDS API response: expected a JSON array with one object.")
      end
  end.

(** ** merge_letterdata.py: the merges *)

(** [d[key] = value]: the value of a key already present is replaced
    where it stands, a new key is added last. *)
Fixpoint dict_set (entries : list (string * json)) (key : string)
  (value : json) : list (string * json) :=
  match entries with
  | [] => [(key, value)]
  | (k, v) :: rest =>
      if String.eqb k key then (k, value) :: rest
      else (k, v) :: dict_set rest key value
  end.

Module Merge.

(** The merge functions update [letter_data] in place and return nothing;
    here they return the dictionary as it stands afterwards.  [main] has
    checked that [letter_data] is a dictionary; the other argument comes
    from a file as it is, and [.get] or [.items()] on anything but a
    dictionary raises [AttributeError]. *)
Definition merge_docinfo (letter_data : list (string * json))
  (docinfo_data : json) : result (list (string * json)) :=
  match docinfo_data with
  | JDict d =>
      match dict_get d "DocInfo" with
      | Some (JDict docinfo) =>
          Ok (dict_set letter_data "DocInfo" (JDict docinfo))
      | _ => Ok letter_data
      end
  | _ => Raise AttributeError
  end.

Definition merge_pdf_insert (letter_data : list (string * json))
  (pdf_insert_data : json) : result (list (string * json)) :=
  match pdf_insert_data with
  | JDict d =>
      match dict_get d "PDF_Insert" with
      | Some (JList pdf_list) =>
          Ok (dict_set letter_data "PDF_Insert" (JList pdf_list))
      | _ => Ok letter_data
      end
  | _ => Raise AttributeError
  end.

Definition merge_option_list (letter_data : list (string * json))
  (option_list_data : json) : result (list (string * json)) :=
  match option_list_data with
  | JDict d =>
      match dict_get d "OptionList" with
      | Some (JList opt_list) =>
          Ok (dict_set letter_data "OptionList" (JList opt_list))
      | _ => Ok letter_data
      end
  | _ => Raise AttributeError
  end.

Definition merge_ui_fields (letter_data : list (string * json))
  (ui_data : json) : result (list (string * json)) :=
  match ui_data with
  | JDict ui =>
      Ok (fold_left (fun ld kv => dict_set ld (fst kv) (snd kv)) ui letter_data)
  | _ => Raise AttributeError
  end.

(** How [main] can end without an output: its own [ValueError], a
    [TypeError] of the membership test or the subscript on a document that
    is not a dictionary, or an exception of a merge left uncaught. *)
Inductive main_error : Type :=
| ValueError (message : string)
| TypeError
| Uncaught (e : exn).

Definition no_letter_data : main_error :=
  ValueError "input.json must contain a top-level 'LetterData' object.".

(** [main] from the five documents loaded to [output_data], the value it
    writes.  [letter_data] is the object held by [base_data], so its
    updates show in [base_data] under the same key. *)
Definition main (base_data docinfo_data pdf_insert_data ui_data
                   optionlist_data : json) : main_error + json :=
  match base_data with
  | JDict base =>
      match dict_get base "LetterData" with
      | Some (JDict letter_data) =>
          match
            (ld1 <- merge_docinfo letter_data docinfo_data ;;
             ld2 <- merge_pdf_insert ld1 pdf_insert_data ;;
             ld3 <- merge_option_list ld2 optionlist_data ;;
             merge_ui_fields ld3 ui_data)
          with
          | Ok ld => inr (escape_slashes
                            (JDict (dict_set base "LetterData" (JDict ld))))
          | Raise e => inl (Uncaught e)
          end
      | _ => inl no_letter_data
      end
  | JList elems =>
      if existsb (fun x => match x with
                           | JStr s => String.eqb s "LetterData"
                           | _ => false
                           end) elems
      then inl TypeError else inl no_letter_data
  | JStr s =>
      match String.index 0 "LetterData" s with
      | Some _ => inl TypeError
      | None => inl no_letter_data
      end
  | _ => inl TypeError
  end.

End Merge.

(** ** Further reference definitions *)

(** The sub-document a merge reads: the value under [key] of a document
    that is a dictionary. *)
Definition fragment (data : json) (key : string) : option json :=
  match data with
  | JDict d => dict_get d key
  | _ => None
  end.

(** No leaf of the tree is a string. *)
Fixpoint no_str_leaf (v : json) : bool :=
  match v with
  | JStr _ => false
  | JList l => forallb no_str_leaf l
  | JDict e => forallb (fun kv => no_str_leaf (snd kv)) e
  | _ => true
  end.

(** No string leaf of the tree holds a slash (keys are not leaves). *)
Fixpoint slash_free (v : json) : bool :=
  match v with
  | JStr s => negb (Py.contains "/" s)
  | JList l => forallb slash_free l
  | JDict e => forallb (fun kv => slash_free (snd kv)) e
  | _ => true
  end.

(** A value that holds no container: null, a boolean, a number or a
    string. *)
Definition is_scalar (v : json) : bool :=
  negb (is_dict v) && negb (is_list v).

(** The value a merge takes from its document under [key]: an object for
    [DocInfo], a list for [PDF_Insert] and [OptionList]; nothing when the
    key is absent or holds a value of another kind. *)
Definition dict_fragment (data : json) (key : string) : option json :=
  match fragment data key with
  | Some (JDict d) => Some (JDict d)
  | _ => None
  end.

Definition list_fragment (data : json) (key : string) : option json :=
  match fragment data key with
  | Some (JList l) => Some (JList l)
  | _ => None
  end.

(** [first_of a b]: [a] when there is one, else [b]. *)
Definition first_of (a b : option json) : option json :=
  match a with
  | Some v => Some v
  | None => b
  end.

(** The value under [k] of the merged [LetterData], before escaping: the
    UI field of that name if there is one; else, under the three reserved
    names, the fragment of the matching document if it has the right kind;
    else what [LetterData] held. *)
Definition merged_value (letter_data : list (string * json))
  (docinfo_data pdf_insert_data ui_data optionlist_data : json)
  (k : string) : option json :=
  first_of (fragment ui_data k)
    (if String.eqb k "OptionList"
     then first_of (list_fragment optionlist_data k) (dict_get letter_data k)
     else if String.eqb k "PDF_Insert"
     then first_of (list_fragment pdf_insert_data k) (dict_get letter_data k)
     else if String.eqb k "DocInfo"
     then first_of (dict_fragment docinfo_data k) (dict_get letter_data k)
     else dict_get letter_data k).

(** The loop of [merge_ui_fields]. *)
Definition assign_all (ui letter_data : list (string * json)) :=
  fold_left (fun ld kv => dict_set ld (fst kv) (snd kv)) ui letter_data.

(** One guarded assignment of a merge: [letter_data[key] = v] when the
    document gave a value [v] of the right kind, nothing otherwise. *)
Definition set_when (letter_data : list (string * json)) (key : string)
  (taken : option json) : list (string * json) :=
  match taken with
  | Some v => dict_set letter_data key v
  | None => letter_data
  end.

(** Documents of a merge used as an example: the UI document and the
    DocInfo document both give a [DocInfo]. *)
Definition letter_base : list (string * json) :=
  [("Meta", JStr "a/b");
   ("LetterData",
    JDict [("DocInfo", JDict [("v", JInt 1)]); ("Path", JStr "x/y")])].

Definition letter_docinfo : json :=
  JDict [("DocInfo", JDict [("Title", JStr "T/1")])].

Definition letter_ui : list (string * json) :=
  [("DocInfo", JStr "ui/wins")].

(** * Properties *)

(** ** Characters and strings *)

Module StrFacts.

Ltac by_cases_on_byte b :=
  destruct b as [[] [] [] [] [] [] [] []]; vm_compute; try reflexivity;
  try discriminate; auto.

Ltac split_and H :=
  repeat match type of H with
         | (_ && _) = true =>
             let H1 := fresh H in
             apply andb_true_iff in H as [H H1]
         end.

(** *** Joining and splitting *)

Lemma append_assoc (a b c : string) : (a ++ b) ++ c = a ++ b ++ c.
Proof. induction a as [|x a IH]; cbn [append]; [reflexivity | now rewrite IH]. Qed.

Lemma append_empty (a : string) : a ++ EmptyString = a.
Proof. induction a as [|x a IH]; cbn [append]; [reflexivity | now rewrite IH]. Qed.

Lemma join_app l1 l2 : Py.join (l1 ++ l2) = Py.join l1 ++ Py.join l2.
Proof.
  induction l1 as [|c l1 IH]; cbn [Py.join app append]; [reflexivity|].
  now rewrite IH, append_assoc.
Qed.

Lemma join_flat_map (f : string -> list string) cs :
  Py.join (flat_map f cs) = Py.join (map (fun c => Py.join (f c)) cs).
Proof.
  induction cs as [|c cs IH]; cbn [flat_map map Py.join]; [reflexivity|].
  now rewrite join_app, IH.
Qed.

Lemma chars_step b rest :
  Py.chars (String b rest)
  = match Py.chars rest with
    | [] => [String b EmptyString]
    | c :: cs =>
        if Py.continues rest then String b c :: cs
        else String b EmptyString :: c :: cs
    end.
Proof. reflexivity. Qed.

Lemma chars_nil s : Py.chars s = [] -> s = EmptyString.
Proof.
  destruct s as [|b rest]; [reflexivity|]. rewrite chars_step.
  destruct (Py.chars rest); [discriminate|].
  destruct (Py.continues rest); discriminate.
Qed.

(** The characters of a string, joined, give the string. *)
Lemma join_chars s : Py.join (Py.chars s) = s.
Proof.
  induction s as [|b rest IH]; [reflexivity|]. rewrite chars_step.
  destruct (Py.chars rest) as [|c cs] eqn:E.
  - apply chars_nil in E. now subst rest.
  - destruct (Py.continues rest); cbn [Py.join append] in *; now rewrite IH.
Qed.

Lemma chars_app a b :
  Py.continues b = false -> Py.chars (a ++ b) = (Py.chars a ++ Py.chars b)%list.
Proof.
  intros Hb. induction a as [|x a IH]; [reflexivity|].
  cbn [append]. rewrite !chars_step, IH.
  destruct a as [|y a'].
  - cbn [Py.chars app append]. rewrite Hb. now destruct (Py.chars b).
  - destruct (Py.chars (String y a')) as [|c cs] eqn:E;
      [apply chars_nil in E; discriminate E|].
    cbn [app append Py.continues]. now destruct (Py.is_cont y).
Qed.

Lemma chars_one c : one_char c = true -> Py.chars c = [c].
Proof.
  destruct c as [|b t]; [discriminate|]. cbn [one_char]. revert b.
  induction t as [|x t IH]; intros b H; [reflexivity|].
  cbn [all_cont] in H. apply andb_true_iff in H as [Hx Ht].
  rewrite chars_step, (IH x Ht). cbn [Py.continues]. now rewrite Hx.
Qed.

Lemma chars_chunked s : chunked (Py.chars s) = true.
Proof.
  induction s as [|b rest IH]; [reflexivity|]. rewrite chars_step.
  destruct (Py.chars rest) as [|c cs] eqn:E; [reflexivity|].
  cbn [chunked] in IH. apply andb_true_iff in IH as [Hc Hcs].
  pose proof (join_chars rest) as J. rewrite E in J. cbn [Py.join] in J.
  destruct c as [|y t]; [discriminate Hc|].
  rewrite <- J. cbn [append Py.continues]. cbn [one_char] in Hc.
  destruct (Py.is_cont y) eqn:Y.
  - cbn [chunked one_char all_cont]. now rewrite Y, Hc, Hcs.
  - cbn [chunked one_char all_cont forallb]. unfold headed at 1.
    cbn [one_char Py.continues]. now rewrite Hc, Y, Hcs.
Qed.

Lemma headed_one c : headed c = true -> one_char c = true.
Proof. unfold headed. intros H. now apply andb_true_iff in H as [H _]. Qed.

Lemma headed_chunked cs : forallb headed cs = true -> chunked cs = true.
Proof.
  destruct cs as [|c r]; [reflexivity|]. cbn [forallb chunked].
  intros H. apply andb_true_iff in H as [Hc Hr].
  now rewrite (headed_one _ Hc), Hr.
Qed.

Lemma chunked_one cs :
  chunked cs = true -> forall c, In c cs -> one_char c = true.
Proof.
  destruct cs as [|c0 r]; [intros _ c []|]. cbn [chunked].
  intros H c [<-|Hc]; apply andb_true_iff in H as [H0 Hr]; [exact H0|].
  apply headed_one. rewrite forallb_forall in Hr. now apply Hr.
Qed.

Lemma chars_one_char s c : In c (Py.chars s) -> one_char c = true.
Proof. apply chunked_one, chars_chunked. Qed.

Lemma join_headed cs :
  forallb headed cs = true -> Py.continues (Py.join cs) = false.
Proof.
  destruct cs as [|c r]; [reflexivity|]. cbn [forallb Py.join].
  intros H. apply andb_true_iff in H as [Hc _]. unfold headed in Hc.
  apply andb_true_iff in Hc as [H1 H2].
  destruct c as [|b t]; [discriminate H1|]. cbn [append Py.continues] in *.
  now apply negb_true_iff in H2.
Qed.

Lemma chars_join_headed cs :
  forallb headed cs = true -> Py.chars (Py.join cs) = cs.
Proof.
  induction cs as [|c r IH]; [reflexivity|]. cbn [forallb Py.join].
  intros H. apply andb_true_iff in H as [Hc Hr].
  rewrite chars_app by now apply join_headed.
  now rewrite (chars_one _ (headed_one _ Hc)), (IH Hr).
Qed.

(** A list of characters, joined and split again, is the same list. *)
Lemma chars_join cs : chunked cs = true -> Py.chars (Py.join cs) = cs.
Proof.
  destruct cs as [|c r]; [reflexivity|]. cbn [chunked Py.join].
  intros H. apply andb_true_iff in H as [Hc Hr].
  rewrite chars_app by now apply join_headed.
  now rewrite (chars_one _ Hc), (chars_join_headed _ Hr).
Qed.

Lemma chars_headed s :
  Py.continues s = false -> forallb headed (Py.chars s) = true.
Proof.
  intros Hs. pose proof (chars_chunked s) as H.
  destruct (Py.chars s) as [|c cs] eqn:E; [reflexivity|].
  cbn [chunked] in H. apply andb_true_iff in H as [Hc Hcs].
  cbn [forallb]. rewrite Hcs, andb_true_r. unfold headed. rewrite Hc.
  pose proof (join_chars s) as J. rewrite E in J. cbn [Py.join] in J.
  destruct c as [|y t]; [discriminate Hc|]. rewrite <- J in Hs.
  cbn [append Py.continues] in *. now rewrite Hs.
Qed.

(** *** Sublists of characters *)

Section Sublists.
Variable q : string -> bool.

Lemma all_filter (p : string -> bool) cs :
  forallb q cs = true -> forallb q (filter p cs) = true.
Proof.
  induction cs as [|c r IH]; [reflexivity|]. cbn [forallb filter].
  intros H. apply andb_true_iff in H as [Hc Hr].
  destruct (p c); cbn [forallb]; rewrite ?Hc; now apply IH.
Qed.

Lemma all_lstrip cs :
  forallb q cs = true -> forallb q (Py.lstrip_chars cs) = true.
Proof.
  induction cs as [|c r IH]; [reflexivity|]. cbn [forallb Py.lstrip_chars].
  intros H. destruct (Py.isspace c); [|exact H].
  apply andb_true_iff in H as [_ Hr]. now apply IH.
Qed.

Lemma all_rstrip cs :
  forallb q cs = true -> forallb q (Py.rstrip_chars cs) = true.
Proof.
  induction cs as [|c r IH]; [reflexivity|]. cbn [forallb Py.rstrip_chars].
  intros H. apply andb_true_iff in H as [Hc Hr]. specialize (IH Hr).
  destruct (Py.rstrip_chars r) as [|d r'].
  - destruct (Py.isspace c); cbn [forallb]; [reflexivity | now rewrite Hc].
  - cbn [forallb] in *. now rewrite Hc, IH.
Qed.
End Sublists.

Lemma filter_chunked p cs :
  chunked cs = true -> chunked (filter p cs) = true.
Proof.
  destruct cs as [|c r]; [reflexivity|]. cbn [chunked filter].
  intros H. apply andb_true_iff in H as [Hc Hr].
  destruct (p c).
  - cbn [chunked]. rewrite Hc. now apply all_filter.
  - now apply headed_chunked, all_filter.
Qed.

Lemma lstrip_chunked cs :
  chunked cs = true -> chunked (Py.lstrip_chars cs) = true.
Proof.
  destruct cs as [|c r]; [reflexivity|]. cbn [chunked Py.lstrip_chars].
  intros H. destruct (Py.isspace c); [|exact H].
  apply andb_true_iff in H as [_ Hr]. now apply headed_chunked, all_lstrip.
Qed.

Lemma rstrip_chunked cs :
  chunked cs = true -> chunked (Py.rstrip_chars cs) = true.
Proof.
  destruct cs as [|c r]; [reflexivity|]. cbn [chunked Py.rstrip_chars].
  intros H. apply andb_true_iff in H as [Hc Hr].
  pose proof (all_rstrip headed r Hr) as Hr'.
  destruct (Py.rstrip_chars r) as [|d r'].
  - destruct (Py.isspace c); cbn [chunked forallb]; [reflexivity|].
    now rewrite Hc.
  - cbn [chunked]. now rewrite Hc, Hr'.
Qed.

Lemma in_lstrip cs d : In d (Py.lstrip_chars cs) -> In d cs.
Proof.
  induction cs as [|c r IH]; [easy|]. cbn [Py.lstrip_chars].
  destruct (Py.isspace c); [|easy]. intros H. right. now apply IH.
Qed.

Lemma in_rstrip cs d : In d (Py.rstrip_chars cs) -> In d cs.
Proof.
  induction cs as [|c r IH]; [easy|]. cbn [Py.rstrip_chars].
  destruct (Py.rstrip_chars r) as [|e r'].
  - destruct (Py.isspace c); [easy|]. intros [<-|[]]. now left.
  - intros [<-|H]; [now left|]. right. now apply IH.
Qed.

(** *** The tables *)

Lemma uppers_ok : forallb upper_entry_ok Py.uppers = true.
Proof. vm_compute. reflexivity. Qed.

Lemma spaces_ok : forallb space_entry_ok Py.spaces = true.
Proof. vm_compute. reflexivity. Qed.

Lemma upper_char_several b x t :
  Py.upper_char (String b (String x t))
  = match find (fun kv => String.eqb (fst kv) (String b (String x t)))
            Py.uppers with
    | Some kv => snd kv
    | None => String b (String x t)
    end.
Proof. reflexivity. Qed.

Lemma isspace_several b x t :
  Py.isspace (String b (String x t))
  = existsb (String.eqb (String b (String x t))) Py.spaces.
Proof. reflexivity. Qed.

Lemma upper_char_empty : Py.upper_char EmptyString = EmptyString.
Proof. vm_compute. reflexivity. Qed.

Lemma isspace_empty : Py.isspace EmptyString = false.
Proof. vm_compute. reflexivity. Qed.

(** How [upper_char] treats a text: as one byte, by an entry of the
    table, or not at all. *)
Lemma upper_char_view c :
  (exists b, c = String b EmptyString)
  \/ (exists v, upper_entry_ok (c, v) = true /\ Py.upper_char c = v)
  \/ (Py.upper_char c = c /\ several_bytes c = true)
  \/ c = EmptyString.
Proof.
  destruct c as [|b [|x t]].
  - now right; right; right.
  - left. now exists b.
  - right. rewrite upper_char_several.
    destruct (find _ Py.uppers) as [[k v]|] eqn:F.
    + left. apply find_some in F as [Hin Hk]. cbn [fst] in Hk.
      apply String.eqb_eq in Hk. subst k. exists v. split; [|reflexivity].
      pose proof uppers_ok as H. rewrite forallb_forall in H. now apply H.
    + right. now left.
Qed.

Lemma isspace_view c :
  Py.isspace c = true ->
  (exists b, c = String b EmptyString) \/ space_entry_ok c = true.
Proof.
  destruct c as [|b [|x t]].
  - now rewrite isspace_empty.
  - intros _. left. now exists b.
  - rewrite isspace_several. intros H. right.
    apply existsb_exists in H as (sp & Hin & Hsp).
    apply String.eqb_eq in Hsp. subst sp.
    pose proof spaces_ok as S. rewrite forallb_forall in S. now apply S.
Qed.

Lemma upper_entry_facts k v :
  upper_entry_ok (k, v) = true ->
  headed k = true /\ several_bytes k = true
  /\ Py.contains "_" k = false /\ Py.contains "_" v = false
  /\ Py.isspace k = false /\ Py.continues v = false
  /\ v <> EmptyString
  /\ forall d, In d (Py.chars v) ->
               Py.upper_char d = d /\ Py.isspace d = false.
Proof.
  unfold upper_entry_ok. cbn [fst snd]. intros H.
  apply andb_true_iff in H as [H H8]. apply andb_true_iff in H as [H H7].
  apply andb_true_iff in H as [H H6]. apply andb_true_iff in H as [H H5].
  apply andb_true_iff in H as [H H4]. apply andb_true_iff in H as [H H3].
  apply andb_true_iff in H as [H1 H2].
  apply negb_true_iff in H3, H4, H5, H6, H7.
  repeat split; try assumption.
  - now apply String.eqb_neq.
  - rewrite forallb_forall in H8. specialize (H8 d H).
    apply andb_true_iff in H8 as [E _]. now apply String.eqb_eq.
  - rewrite forallb_forall in H8. specialize (H8 d H).
    apply andb_true_iff in H8 as [_ E]. now apply negb_true_iff.
Qed.

Ltac entry_facts H :=
  apply upper_entry_facts in H
    as (Hkey & Hseveral & Hkey_us & Himg_us & Hkey_sp & Himg_head
        & Himg_ne & Himg_chars).

(** *** One character in upper case *)

Lemma upper_char_not_empty c :
  c <> EmptyString -> Py.upper_char c <> EmptyString.
Proof.
  intros Hc.
  destruct (upper_char_view c) as [[b ->]|[(v & Hv & -> )|[[-> _]| -> ]]].
  - by_cases_on_byte b.
  - entry_facts Hv. exact Himg_ne.
  - exact Hc.
  - now destruct Hc.
Qed.

Lemma upper_chars_headed c :
  headed c = true -> forallb headed (upper_chars c) = true.
Proof.
  intros Hc. unfold upper_chars.
  destruct (upper_char_view c) as [[b ->]|[(v & Hv & -> )|[[-> _]| -> ]]].
  - revert Hc. by_cases_on_byte b.
  - entry_facts Hv. now apply chars_headed.
  - rewrite (chars_one _ (headed_one _ Hc)). cbn [forallb]. now rewrite Hc.
  - discriminate Hc.
Qed.

Lemma upper_char_headless c :
  one_char c = true -> Py.continues c = true -> Py.upper_char c = c.
Proof.
  intros Hc Hh.
  destruct (upper_char_view c) as [[b ->]|[(v & Hv & E)|[[E _]| -> ]]].
  - revert Hh. by_cases_on_byte b.
  - entry_facts Hv. unfold headed in Hkey. rewrite Hh, andb_false_r in Hkey.
    discriminate Hkey.
  - exact E.
  - discriminate Hc.
Qed.

Lemma upper_chars_fixed c d :
  one_char c = true -> In d (upper_chars c) ->
  Py.upper_char d = d /\ one_char d = true.
Proof.
  intros Hc Hd. unfold upper_chars in Hd.
  destruct (upper_char_view c) as [[b ->]|[(v & Hv & E)|[[E _]| -> ]]].
  - clear Hc. revert Hd.
    destruct b as [[] [] [] [] [] [] [] []]; intros Hd; vm_compute in Hd;
      destruct Hd as [<-|[]]; split; vm_compute; reflexivity.
  - rewrite E in Hd. split; [|now apply (chars_one_char v)].
    entry_facts Hv. now apply Himg_chars.
  - rewrite E, (chars_one _ Hc) in Hd. destruct Hd as [<-|[]]. now split.
  - discriminate Hc.
Qed.

Lemma upper_char_blank c : Py.isspace c = true -> Py.upper_char c = c.
Proof.
  intros H. destruct (isspace_view c H) as [[b ->]|Hsp].
  - revert H. by_cases_on_byte b.
  - unfold space_entry_ok in Hsp. split_and Hsp. now apply String.eqb_eq.
Qed.

Lemma space_one_char c : Py.isspace c = true -> headed c = true.
Proof.
  intros H. destruct (isspace_view c H) as [[b ->]|Hsp].
  - revert H. by_cases_on_byte b.
  - unfold space_entry_ok in Hsp. now split_and Hsp.
Qed.

Lemma upper_chars_blank c :
  Py.isspace c = true -> upper_chars c = [c].
Proof.
  intros H. unfold upper_chars. rewrite (upper_char_blank c H).
  apply chars_one, headed_one, space_one_char, H.
Qed.

Lemma upper_chars_not_blank c d :
  one_char c = true -> Py.isspace c = false -> In d (upper_chars c) ->
  Py.isspace d = false.
Proof.
  intros Hc Hsp Hd. unfold upper_chars in Hd.
  destruct (upper_char_view c) as [[b ->]|[(v & Hv & E)|[[E _]| -> ]]].
  - clear Hc. revert Hsp Hd.
    destruct b as [[] [] [] [] [] [] [] []]; intros Hsp Hd;
      vm_compute in Hsp; try discriminate Hsp; vm_compute in Hd;
      destruct Hd as [<-|[]]; vm_compute; reflexivity.
  - rewrite E in Hd. entry_facts Hv. now apply Himg_chars.
  - rewrite E, (chars_one _ Hc) in Hd. now destruct Hd as [<-|[]].
  - discriminate Hc.
Qed.

Lemma upper_chars_not_nil c : one_char c = true -> upper_chars c <> [].
Proof.
  intros Hc E. apply chars_nil in E.
  apply (upper_char_not_empty c); [|exact E]. now destruct c.
Qed.

Lemma contains_append ch a b :
  Py.contains ch (a ++ b) = Py.contains ch a || Py.contains ch b.
Proof.
  induction a as [|d a IH]; cbn [Py.contains append]; [reflexivity|].
  now rewrite IH, orb_assoc.
Qed.

Lemma contains_join ch l :
  Py.contains ch (Py.join l) = existsb (Py.contains ch) l.
Proof.
  induction l as [|c l IH]; cbn [Py.join existsb]; [reflexivity|].
  now rewrite contains_append, IH.
Qed.

Lemma upper_char_underscore c :
  Py.contains "_" (Py.upper_char c) = Py.contains "_" c.
Proof.
  destruct (upper_char_view c) as [[b ->]|[(v & Hv & -> )|[[-> _]| -> ]]].
  - by_cases_on_byte b.
  - entry_facts Hv. now rewrite Hkey_us, Himg_us.
  - reflexivity.
  - now rewrite upper_char_empty.
Qed.

(** *** Upper case of a string *)

Lemma upper_join s :
  Py.upper s = Py.join (flat_map upper_chars (Py.chars s)).
Proof.
  unfold Py.upper. rewrite join_flat_map. f_equal. apply map_ext.
  intros c. unfold upper_chars. now rewrite join_chars.
Qed.

Lemma upper_chars_chunked cs :
  chunked cs = true -> chunked (flat_map upper_chars cs) = true.
Proof.
  assert (A : forall r, forallb headed r = true ->
                        forallb headed (flat_map upper_chars r) = true).
  { induction r as [|c r IH]; [reflexivity|]. cbn [forallb flat_map].
    intros H. apply andb_true_iff in H as [Hc Hr].
    rewrite forallb_app, (upper_chars_headed c Hc). now apply IH. }
  destruct cs as [|c r]; [reflexivity|]. cbn [chunked flat_map].
  intros H. apply andb_true_iff in H as [Hc Hr].
  destruct (Py.continues c) eqn:Hh.
  - unfold upper_chars at 1.
    rewrite (upper_char_headless c Hc Hh), (chars_one c Hc).
    cbn [app chunked]. rewrite Hc. now apply A.
  - apply headed_chunked. rewrite forallb_app. rewrite (A r Hr), andb_true_r.
    apply upper_chars_headed. unfold headed. now rewrite Hc, Hh.
Qed.

(** The characters of [s.upper()]: those of each character's upper case,
    in order. *)
Lemma chars_upper s :
  Py.chars (Py.upper s) = flat_map upper_chars (Py.chars s).
Proof.
  rewrite upper_join. apply chars_join, upper_chars_chunked, chars_chunked.
Qed.

Lemma upper_fixed_chars cs :
  (forall d, In d cs -> Py.upper_char d = d) ->
  map Py.upper_char cs = cs.
Proof.
  intros H. rewrite <- (map_id cs) at 2. now apply map_ext_in.
Qed.

Lemma in_upper_chars s d :
  In d (Py.chars (Py.upper s)) -> Py.upper_char d = d /\ one_char d = true.
Proof.
  rewrite chars_upper. intros H. apply in_flat_map in H as (c & Hc & Hd).
  exact (upper_chars_fixed c d (chars_one_char s c Hc) Hd).
Qed.

Lemma upper_twice s : Py.upper (Py.upper s) = Py.upper s.
Proof.
  unfold Py.upper at 1. rewrite upper_fixed_chars; [apply join_chars|].
  intros d Hd. exact (proj1 (in_upper_chars s d Hd)).
Qed.

Lemma contains_upper s :
  Py.contains "_" (Py.upper s) = Py.contains "_" s.
Proof.
  transitivity (existsb (Py.contains "_") (Py.chars s));
    [|now rewrite <- contains_join, join_chars].
  unfold Py.upper. rewrite contains_join.
  induction (Py.chars s) as [|c cs IH]; cbn [map existsb]; [reflexivity|].
  now rewrite upper_char_underscore, IH.
Qed.

Lemma upper_empty s :
  String.eqb (Py.upper s) EmptyString = String.eqb s EmptyString.
Proof.
  destruct s as [|b rest]; [reflexivity|].
  assert (H : Py.upper (String b rest) <> EmptyString).
  { intros E. apply (f_equal Py.chars) in E. rewrite chars_upper in E.
    destruct (Py.chars (String b rest)) as [|c cs] eqn:C;
      [apply chars_nil in C; discriminate C|].
    cbn [flat_map Py.chars] in E. apply app_eq_nil in E as [E _].
    apply (upper_chars_not_nil c); [|exact E].
    apply (chars_one_char (String b rest)). rewrite C. now left. }
  apply String.eqb_neq in H. now rewrite H.
Qed.

(** *** Trimming *)

Lemma chars_strip s :
  Py.chars (Py.strip s) = Py.rstrip_chars (Py.lstrip_chars (Py.chars s)).
Proof.
  unfold Py.strip. apply chars_join, rstrip_chunked, lstrip_chunked,
    chars_chunked.
Qed.

Lemma chars_join_name t :
  Py.chars (join_name_chars t) = filter kept (Py.chars t).
Proof.
  unfold join_name_chars. apply chars_join, filter_chunked, chars_chunked.
Qed.

Lemma lstrip_head cs :
  Py.lstrip_chars cs = []
  \/ exists c r, Py.lstrip_chars cs = c :: r /\ Py.isspace c = false.
Proof.
  induction cs as [|c r IH]; cbn [Py.lstrip_chars]; [now left|].
  destruct (Py.isspace c) eqn:E; [exact IH|]. right. now exists c, r.
Qed.

Lemma rstrip_cons c r :
  Py.rstrip_chars (c :: r)
  = match Py.rstrip_chars r with
    | [] => if Py.isspace c then [] else [c]
    | d :: r' => c :: d :: r'
    end.
Proof. reflexivity. Qed.

Lemma rstrip_twice cs :
  Py.rstrip_chars (Py.rstrip_chars cs) = Py.rstrip_chars cs.
Proof.
  induction cs as [|c r IH]; [reflexivity|]. rewrite rstrip_cons.
  destruct (Py.rstrip_chars r) as [|d r'] eqn:E.
  - destruct (Py.isspace c) eqn:Ec; [reflexivity|].
    rewrite rstrip_cons. cbn [Py.rstrip_chars]. now rewrite Ec.
  - rewrite rstrip_cons, IH. reflexivity.
Qed.

Lemma lstrip_rstrip_head c r :
  Py.isspace c = false ->
  Py.lstrip_chars (Py.rstrip_chars (c :: r)) = Py.rstrip_chars (c :: r).
Proof.
  intros Hc. rewrite rstrip_cons.
  destruct (Py.rstrip_chars r); rewrite ?Hc; cbn [Py.lstrip_chars];
    now rewrite Hc.
Qed.

Lemma strip_chars_twice cs :
  Py.rstrip_chars (Py.lstrip_chars (Py.rstrip_chars (Py.lstrip_chars cs)))
  = Py.rstrip_chars (Py.lstrip_chars cs).
Proof.
  destruct (lstrip_head cs) as [->|(c & r & -> & Hc)]; [reflexivity|].
  now rewrite lstrip_rstrip_head, rstrip_twice.
Qed.

Lemma strip_twice s : Py.strip (Py.strip s) = Py.strip s.
Proof.
  unfold Py.strip at 1. rewrite chars_strip, strip_chars_twice.
  reflexivity.
Qed.

Lemma filter_lstrip cs :
  filter kept (Py.lstrip_chars cs) = filter kept cs.
Proof.
  induction cs as [|c r IH]; [reflexivity|]. cbn [Py.lstrip_chars].
  destruct (Py.isspace c) eqn:E; [|reflexivity].
  cbn [filter]. unfold kept at 2. now rewrite E.
Qed.

Lemma filter_rstrip cs :
  filter kept (Py.rstrip_chars cs) = filter kept cs.
Proof.
  induction cs as [|c r IH]; [reflexivity|]. rewrite rstrip_cons.
  cbn [filter]. rewrite <- IH.
  destruct (Py.rstrip_chars r) as [|d r']; [|reflexivity].
  destruct (Py.isspace c) eqn:E; cbn [filter]; [|reflexivity].
  unfold kept. now rewrite E.
Qed.

Lemma rstrip_not_blank cs :
  (forall d, In d cs -> Py.isspace d = false) -> Py.rstrip_chars cs = cs.
Proof.
  induction cs as [|c r IH]; intros H; [reflexivity|]. rewrite rstrip_cons.
  rewrite IH by (intros d Hd; apply H; now right).
  rewrite (H c (or_introl eq_refl)). now destruct r.
Qed.

Lemma lstrip_not_blank cs :
  (forall d, In d cs -> Py.isspace d = false) -> Py.lstrip_chars cs = cs.
Proof.
  destruct cs as [|c r]; intros H; [reflexivity|]. cbn [Py.lstrip_chars].
  now rewrite (H c (or_introl eq_refl)).
Qed.

Lemma rstrip_app l1 l2 :
  Py.rstrip_chars (l1 ++ l2)
  = match Py.rstrip_chars l2 with
    | [] => Py.rstrip_chars l1
    | d :: r => (l1 ++ d :: r)%list
    end.
Proof.
  induction l1 as [|c l1 IH]; cbn [app].
  - now destruct (Py.rstrip_chars l2).
  - rewrite !rstrip_cons, IH.
    destruct (Py.rstrip_chars l2) as [|d r]; [reflexivity|].
    cbn [app]. now destruct l1.
Qed.

Section UpperAndTrim.
Variable cs : list string.
Hypothesis characters : forall c, In c cs -> one_char c = true.

Lemma lstrip_upper_chars :
  Py.lstrip_chars (flat_map upper_chars cs)
  = flat_map upper_chars (Py.lstrip_chars cs).
Proof.
  induction cs as [|c r IH]; [reflexivity|].
  cbn [flat_map Py.lstrip_chars].
  assert (Hr : forall d, In d r -> one_char d = true)
    by (intros d Hd; apply characters; now right).
  destruct (Py.isspace c) eqn:E.
  - rewrite (upper_chars_blank c E). cbn [app Py.lstrip_chars].
    rewrite E. now apply IH.
  - cbn [flat_map].
    pose proof (characters c (or_introl eq_refl)) as Hc.
    destruct (upper_chars c) as [|d ds] eqn:U;
      [now destruct (upper_chars_not_nil c Hc)|].
    cbn [app Py.lstrip_chars].
    rewrite (upper_chars_not_blank c d Hc E); [reflexivity|].
    rewrite U. now left.
Qed.

Lemma rstrip_upper_chars :
  Py.rstrip_chars (flat_map upper_chars cs)
  = flat_map upper_chars (Py.rstrip_chars cs).
Proof.
  induction cs as [|c r IH]; [reflexivity|].
  assert (Hr : forall d, In d r -> one_char d = true)
    by (intros d Hd; apply characters; now right).
  pose proof (characters c (or_introl eq_refl)) as Hc.
  cbn [flat_map]. rewrite rstrip_app, rstrip_cons, (IH Hr).
  destruct (Py.rstrip_chars r) as [|d r'] eqn:R.
  - cbn [flat_map]. destruct (Py.isspace c) eqn:E.
    + rewrite (upper_chars_blank c E). cbn [Py.rstrip_chars].
      now rewrite E.
    + cbn [flat_map]. rewrite app_nil_r. apply rstrip_not_blank.
      intros e He. exact (upper_chars_not_blank c e Hc E He).
  - assert (Hd : one_char d = true).
    { apply Hr. apply in_rstrip. rewrite R. now left. }
    cbn [flat_map].
    destruct (upper_chars d) as [|e es] eqn:U;
      [now destruct (upper_chars_not_nil d Hd)|].
    reflexivity.
Qed.
End UpperAndTrim.

Lemma strip_upper s : Py.strip (Py.upper s) = Py.upper (Py.strip s).
Proof.
  rewrite (upper_join (Py.strip s)), chars_strip.
  unfold Py.strip. rewrite chars_upper.
  rewrite lstrip_upper_chars by apply chars_one_char.
  rewrite rstrip_upper_chars; [reflexivity|].
  intros c Hc. apply (chars_one_char s). now apply in_lstrip.
Qed.

(** *** Normalized names *)

(** The trimming in [normalize_name] removes nothing the filter would
    keep. *)
Lemma normalize_name_untrimmed s :
  normalize_name s = join_name_chars (Py.upper s).
Proof.
  unfold normalize_name, join_name_chars. fold kept.
  now rewrite chars_strip, filter_rstrip, filter_lstrip.
Qed.

Lemma upper_app a b :
  Py.continues b = false -> Py.upper (a ++ b) = Py.upper a ++ Py.upper b.
Proof.
  intros Hb. unfold Py.upper. now rewrite chars_app, map_app, join_app.
Qed.

Lemma upper_continues b :
  Py.continues b = false -> Py.continues (Py.upper b) = false.
Proof.
  intros Hb. rewrite upper_join. apply join_headed.
  pose proof (chars_headed b Hb) as H.
  induction (Py.chars b) as [|c r IH]; [reflexivity|].
  cbn [forallb flat_map] in *. apply andb_true_iff in H as [Hc Hr].
  rewrite forallb_app, (upper_chars_headed c Hc). now apply IH.
Qed.

Lemma join_name_app a b :
  Py.continues b = false ->
  join_name_chars (a ++ b) = join_name_chars a ++ join_name_chars b.
Proof.
  intros Hb. unfold join_name_chars.
  now rewrite chars_app, filter_app, join_app.
Qed.

Lemma normalize_name_app a b :
  Py.continues b = false ->
  normalize_name (a ++ b) = normalize_name a ++ normalize_name b.
Proof.
  intros Hb. rewrite !normalize_name_untrimmed, upper_app by exact Hb.
  now apply join_name_app, upper_continues.
Qed.

Lemma normalize_name_upper s : normalize_name (Py.upper s) = normalize_name s.
Proof. unfold normalize_name. now rewrite upper_twice. Qed.

Lemma normalize_name_strip s : normalize_name (Py.strip s) = normalize_name s.
Proof.
  unfold normalize_name. now rewrite <- strip_upper, strip_twice.
Qed.

(** The result of [normalize_name] holds name characters only. *)
Lemma normalize_name_chars s d :
  In d (Py.chars (normalize_name s)) -> name_char d.
Proof.
  unfold normalize_name. rewrite chars_join_name, chars_strip.
  intros H. apply filter_In in H as [Hin Hkept].
  apply in_rstrip, in_lstrip, in_upper_chars in Hin as [Hup Hone].
  unfold kept in Hkept. apply andb_true_iff in Hkept as [Hb Hu].
  apply negb_true_iff in Hb, Hu. apply String.eqb_neq in Hu.
  now repeat split.
Qed.

(** A string of name characters is its own normal form. *)
Lemma normalize_name_fixed s :
  (forall d, In d (Py.chars s) -> name_char d) -> normalize_name s = s.
Proof.
  intros H.
  assert (U : Py.upper s = s).
  { unfold Py.upper. rewrite upper_fixed_chars; [apply join_chars|].
    intros d Hd. now destruct (H d Hd) as (_ & E & _). }
  assert (B : forall d, In d (Py.chars s) -> Py.isspace d = false).
  { intros d Hd. now destruct (H d Hd) as (_ & _ & E & _). }
  assert (T : Py.strip s = s).
  { unfold Py.strip.
    rewrite (lstrip_not_blank _ B), (rstrip_not_blank _ B).
    apply join_chars. }
  unfold normalize_name, join_name_chars. rewrite U, T.
  rewrite forallb_filter_id; [apply join_chars|].
  apply forallb_forall. intros d Hd. destruct (H d Hd) as (_ & _ & E & N).
  rewrite E. apply String.eqb_neq in N. now rewrite N.
Qed.

Lemma blank_normalizes_empty sp :
  Py.isspace sp = true \/ sp = "_" -> normalize_name sp = EmptyString.
Proof.
  intros [H| ->]; [|reflexivity].
  rewrite normalize_name_untrimmed. unfold join_name_chars.
  rewrite chars_upper.
  rewrite (chars_one sp) by now apply headed_one, space_one_char.
  cbn [flat_map]. rewrite (upper_chars_blank sp H). cbn [app filter].
  now rewrite H.
Qed.

Lemma blank_continues sp b :
  Py.isspace sp = true \/ sp = "_" -> Py.continues (sp ++ b) = false.
Proof.
  intros [H| ->]; [|reflexivity].
  apply space_one_char in H. unfold headed in H.
  apply andb_true_iff in H as [H1 H2].
  destruct sp; [discriminate H1|]. cbn [append Py.continues] in *.
  now apply negb_true_iff.
Qed.

Lemma normalize_name_separator a sp b :
  Py.isspace sp = true \/ sp = "_" ->
  Py.continues b = false ->
  normalize_name (a ++ sp ++ b) = normalize_name (a ++ b).
Proof.
  intros Hsp Hb.
  rewrite (normalize_name_app a (sp ++ b)) by now apply blank_continues.
  rewrite (normalize_name_app sp b Hb), (blank_normalizes_empty sp Hsp).
  cbn [append]. symmetry. now apply normalize_name_app.
Qed.

Lemma contains_strip ch s :
  Py.contains ch s = false -> Py.contains ch (Py.strip s) = false.
Proof.
  rewrite <- (join_chars s) at 1. unfold Py.strip. rewrite !contains_join.
  intros H. destruct (existsb _ (Py.rstrip_chars _)) eqn:E; [|reflexivity].
  apply existsb_exists in E as (c & Hc & Hch).
  apply in_rstrip, in_lstrip in Hc.
  assert (X : existsb (Py.contains ch) (Py.chars s) = true)
    by (apply existsb_exists; now exists c).
  congruence.
Qed.

End StrFacts.


(** ** The deep search *)

Section Search.
Variable target : string.

(** One iteration of the loop over the entries of an object. *)
Lemma search_dict_cons k v rest :
  _search target (JDict ((k, v) :: rest)) =
    if String.eqb (normalize_name k) target
    then Some (extract_scalar_value v)
    else match _search target v with
         | Some found => Some found
         | None => _search target (JDict rest)
         end.
Proof. reflexivity. Qed.

(** One iteration of the loop over the elements of a list. *)
Lemma search_list_cons item rest :
  _search target (JList (item :: rest)) =
    match _search target item with
    | Some found => Some found
    | None => _search target (JList rest)
    end.
Proof. reflexivity. Qed.

Lemma preorder_dict_cons k v rest :
  preorder_entries (JDict ((k, v) :: rest)) =
    (k, v) :: (preorder_entries v ++ preorder_entries (JDict rest))%list.
Proof. reflexivity. Qed.

Lemma preorder_list_cons item rest :
  preorder_entries (JList (item :: rest)) =
    (preorder_entries item ++ preorder_entries (JList rest))%list.
Proof. reflexivity. Qed.

Lemma find_app {A : Type} (p : A -> bool) (l1 l2 : list A) :
  find p (l1 ++ l2)%list =
    match find p l1 with
    | Some x => Some x
    | None => find p l2
    end.
Proof.
  induction l1 as [|x l1 IH]; simpl; [reflexivity|].
  destruct (p x); [reflexivity | exact IH].
Qed.

(** The search returns the extracted value of the first entry, in
    depth-first pre-order, whose key has the target's normalized name. *)
Lemma search_first_in_preorder o :
  _search target o =
    option_map extract_entry (find (key_hit target) (preorder_entries o)).
Proof.
  induction o as [| | | | |l IH|e IH] using json_tree_ind;
    try reflexivity.
  - induction IH as [|x l Hx _ IHl]; [reflexivity|].
    rewrite search_list_cons, preorder_list_cons, find_app, Hx, IHl.
    now destruct (find (key_hit target) (preorder_entries x)).
  - induction IH as [|[k v] e Hv _ IHe]; [reflexivity|].
    rewrite search_dict_cons, preorder_dict_cons. simpl in Hv.
    cbn [find]. unfold key_hit at 1. cbn [fst].
    destruct (String.eqb (normalize_name k) target); [reflexivity|].
    rewrite find_app, Hv, IHe.
    now destruct (find (key_hit target) (preorder_entries v)).
Qed.

Lemma find_first_hit {A : Type} (p : A -> bool) pre x post :
  (forall y, In y pre -> p y = false) -> p x = true ->
  find p (pre ++ x :: post)%list = Some x.
Proof.
  intros Hpre Hx. induction pre as [|y pre IH]; simpl.
  - now rewrite Hx.
  - rewrite (Hpre y (or_introl eq_refl)). apply IH.
    intros z Hz. apply Hpre. now right.
Qed.

Lemma search_dict_app pre post :
  (forall kv, In kv pre -> key_hit target kv = false) ->
  _search target (JDict (pre ++ post)) =
    match _search target (JList (map snd pre)) with
    | Some found => Some found
    | None => _search target (JDict post)
    end.
Proof.
  induction pre as [|[k v] pre IH]; intros Hpre; [reflexivity|].
  cbn [map snd app]. rewrite search_dict_cons, search_list_cons.
  pose proof (Hpre (k, v) (or_introl eq_refl)) as Hk.
  unfold key_hit in Hk. cbn [fst] in Hk. rewrite Hk.
  destruct (_search target v); [reflexivity|].
  apply IH. intros kv Hkv. apply Hpre. now right.
Qed.
End Search.

(** C1, as amended.  At an object the entries are visited in iteration
    order, and for each entry the key is compared before the search
    descends into that entry's value.  So a direct key with the normalized
    name of the token, preceded by no other such direct key, is returned
    (as the extracted scalar of its value, whatever that value holds) only
    when the search of the values of all earlier sibling entries finds
    nothing; a match inside the subtree of an earlier sibling is returned
    in preference to it. *)
Theorem find_value_in_obj_entry_order :
  forall (field_token : string) (pre : list (string * json))
         (k : string) (v : json) (post : list (string * json)),
    normalize_name k = normalize_name field_token ->
    (forall kv, In kv pre ->
                normalize_name (fst kv) <> normalize_name field_token) ->
    find_value_in_obj (JDict (pre ++ (k, v) :: post)) field_token =
      match find_value_in_obj (JList (map snd pre)) field_token with
      | Some found => Some found
      | None => Some (extract_scalar_value v)
      end.
Proof.
  intros tok pre k v post Hk Hpre. unfold find_value_in_obj.
  rewrite search_dict_app.
  - destruct (_search (normalize_name tok) (JList (map snd pre)));
      [reflexivity|].
    rewrite search_dict_cons. apply String.eqb_eq in Hk. now rewrite Hk.
  - intros kv Hkv. unfold key_hit. apply String.eqb_neq. now apply Hpre.
Qed.

Lemma find_value_in_obj_entry_order_witness :
  normalize_name "City" = normalize_name "CITY"
  /\ (forall kv, In kv [("A", JDict [("City", JStr "inner")])] ->
                 normalize_name (fst kv) <> normalize_name "CITY")
  /\ find_value_in_obj city_person "CITY" = Some "inner".
Proof.
  assert (H : forall kv, In kv [("A", JDict [("City", JStr "inner")])] ->
                         normalize_name (fst kv) <> normalize_name "CITY").
  { intros kv [E|[]]. subst kv. vm_compute. discriminate. }
  split; [reflexivity|]. split; [exact H|].
  exact (find_value_in_obj_entry_order "CITY"
           [("A", JDict [("City", JStr "inner")])] "City" (JStr "outer") []
           eq_refl H).
Defined.

(** C1 as stated fails: in [city_person] the direct key [City] matches,
    yet the search returns the match found inside the value of the earlier
    sibling [A]; the two-phase search of the claim returns the direct
    one. *)
Lemma direct_key_not_preferred :
  find_value_in_obj city_person "CITY" = Some "inner"
  /\ spec_direct_first_search (normalize_name "CITY") city_person
     = Some "outer"
  /\ find_value_in_obj city_person "CITY"
     <> spec_direct_first_search (normalize_name "CITY") city_person.
Proof.
  repeat split; try reflexivity. vm_compute. discriminate.
Qed.

(** C10.  When the first entry, in traversal order, whose key has the
    token's normalized name holds a value that extracts to the empty
    string, the search returns the empty string and stops there, whatever
    later entries of the same normalized name hold; and the resolver's
    fallback maps that result and an absent field to the same text. *)
Theorem find_value_in_obj_empty_first_match :
  forall (obj : json) (field_token : string)
         (pre : list (string * json)) (k : string) (v : json)
         (post : list (string * json)),
    preorder_entries obj = (pre ++ (k, v) :: post)%list ->
    (forall kv, In kv pre ->
                normalize_name (fst kv) <> normalize_name field_token) ->
    normalize_name k = normalize_name field_token ->
    extract_scalar_value v = EmptyString ->
    find_value_in_obj obj field_token = Some EmptyString
    /\ or_empty (find_value_in_obj obj field_token) = or_empty None.
Proof.
  intros obj tok pre k v post Horder Hpre Hk Hv.
  assert (E : find_value_in_obj obj tok = Some EmptyString).
  { unfold find_value_in_obj.
    rewrite search_first_in_preorder, Horder, (find_first_hit _ pre (k, v)).
    - cbn. unfold extract_entry. cbn. now rewrite Hv.
    - intros kv Hkv. apply String.eqb_neq. now apply Hpre.
    - unfold key_hit. now apply String.eqb_eq. }
  split; [exact E | now rewrite E].
Qed.

Lemma find_value_in_obj_empty_first_match_witness :
  preorder_entries email_person
  = ([("Role", JStr "Owner")] ++ ("Email", JNull)
       :: [("Contact", JDict [("E_Mail", JStr "ann@example.org")]);
           ("E_Mail", JStr "ann@example.org")])%list
  /\ normalize_name "Email" = normalize_name "E_MAIL"
  /\ extract_scalar_value (JStr "ann@example.org") = "ann@example.org"
  /\ find_value_in_obj email_person "E_MAIL" = Some EmptyString
  /\ or_empty (find_value_in_obj email_person "E_MAIL") = or_empty None.
Proof.
  split; [reflexivity|]. split; [reflexivity|]. split; [reflexivity|].
  apply (find_value_in_obj_empty_first_match email_person "E_MAIL"
           [("Role", JStr "Owner")] "Email" JNull
           [("Contact", JDict [("E_Mail", JStr "ann@example.org")]);
            ("E_Mail", JStr "ann@example.org")]).
  - reflexivity.
  - intros kv [E|[]]. subst kv. vm_compute. discriminate.
  - reflexivity.
  - reflexivity.
Defined.

(** ** Normalization *)

(** C8.  [normalize_name] is idempotent, and it identifies the variants
    of a name: two names that differ only in the case of letters, or by
    blanks or underscores at any place, whether at the ends or inside,
    have the same normalized name. *)
Theorem normalize_name_idempotent :
  (forall s : string, normalize_name (normalize_name s) = normalize_name s)
  /\ normalize_name "First_Name" = normalize_name " firstname "
  /\ (forall s t : string, variant s t -> normalize_name s = normalize_name t).
Proof.
  split; [|split; [reflexivity|]].
  - intros s. apply StrFacts.normalize_name_fixed.
    intros d Hd. exact (StrFacts.normalize_name_chars s d Hd).
  - intros s t H.
    induction H as [s|s t _ IH|s t u _ IH1 _ IH2|s t E|a sp b Hsp Hb].
    + reflexivity.
    + now symmetry.
    + now transitivity (normalize_name t).
    + unfold normalize_name. now rewrite E.
    + now apply StrFacts.normalize_name_separator.
Qed.

Lemma normalize_name_idempotent_witness :
  variant "First_Name" " firstname "
  /\ normalize_name "First_Name" = normalize_name " firstname ".
Proof.
  assert (V : variant "First_Name" " firstname ").
  { apply variant_trans with "FirstName".
    - exact (variant_separator "First" "_" "Name" (or_intror eq_refl) eq_refl).
    - apply variant_trans with "firstname"; [now apply variant_case|].
      apply variant_sym. apply variant_trans with "firstname ".
      + exact (variant_separator "" " " "firstname " (or_introl eq_refl)
                 eq_refl).
      + exact (variant_separator "firstname" " " "" (or_introl eq_refl)
                 eq_refl). }
  split; [exact V|].
  exact (proj2 (proj2 normalize_name_idempotent) _ _ V).
Defined.


(** Outside ASCII: the name "cafe" with an acute accent, a blank, a
    no-break space and an "x" normalizes to "CAFEX" with the accent kept
    on the capital. *)
Example normalize_name_outside_ascii :
  normalize_name ("caf" ++ Py.utf8 233 ++ " " ++ Py.utf8 160 ++ "x")
  = "CAF" ++ Py.utf8 201 ++ "X".
Proof. vm_compute. reflexivity. Qed.

(** ** Scalar extraction *)

Section Extraction.

Lemma extract_list_cons v rest :
  extract_scalar_value (JList (v :: rest)) =
    match v with
    | JStr item => item
    | _ => extract_scalar_value (JList rest)
    end.
Proof. destruct v, rest; reflexivity. Qed.

Lemma extract_first_str pre s post :
  Forall (fun v => is_str v = false) pre ->
  extract_scalar_value (JList (pre ++ JStr s :: post)) = s.
Proof.
  induction 1 as [|v pre Hv _ IH]; [reflexivity|].
  cbn [app]. rewrite extract_list_cons.
  destruct v; try exact IH. discriminate Hv.
Qed.

Lemma extract_no_str l :
  Forall (fun v => is_str v = false) l ->
  extract_scalar_value (JList l) = EmptyString.
Proof.
  induction 1 as [|v l Hv _ IH]; [reflexivity|].
  rewrite extract_list_cons. destruct v; try exact IH. discriminate Hv.
Qed.

Lemma extract_list_member l :
  extract_scalar_value (JList l) = EmptyString
  \/ In (JStr (extract_scalar_value (JList l))) l.
Proof.
  induction l as [|v l IH]; [now left|].
  rewrite extract_list_cons.
  destruct v; try (destruct IH as [IH|IH]; [now left | right; now right]).
  right. now left.
Qed.

End Extraction.

(** C5.  [extract_scalar_value] maps null and the empty list to the empty
    string, a list to its first element that is a string and to the empty
    string when it has none (so never to the text of the list as a whole),
    a string to itself, an integer to its decimal text, a boolean to
    [True] or [False], and a float to its text.  The function is total: it
    yields a string for every value. *)
Theorem extract_scalar_value_precedence :
  extract_scalar_value JNull = EmptyString
  /\ extract_scalar_value (JList []) = EmptyString
  /\ (forall pre s post,
         Forall (fun v => is_str v = false) pre ->
         extract_scalar_value (JList (pre ++ JStr s :: post)) = s)
  /\ (forall l,
         Forall (fun v => is_str v = false) l ->
         extract_scalar_value (JList l) = EmptyString)
  /\ (forall l,
         extract_scalar_value (JList l) = EmptyString
         \/ In (JStr (extract_scalar_value (JList l))) l)
  /\ (forall s, extract_scalar_value (JStr s) = s)
  /\ (forall n, extract_scalar_value (JInt n) = Py.str_int n)
  /\ extract_scalar_value (JInt 42) = "42"
  /\ extract_scalar_value (JBool true) = "True"
  /\ extract_scalar_value (JBool false) = "False"
  /\ (forall t, extract_scalar_value (JFloat t) = t)
  /\ (forall v, exists s, extract_scalar_value v = s).
Proof.
  repeat split; try reflexivity.
  - apply extract_first_str.
  - apply extract_no_str.
  - apply extract_list_member.
  - intros v. now exists (extract_scalar_value v).
Qed.

Lemma extract_scalar_value_precedence_witness :
  Forall (fun v => is_str v = false) [JInt 1; JNull]
  /\ extract_scalar_value (JList [JInt 1; JNull; JStr "a"; JStr "b"]) = "a"
  /\ Forall (fun v => is_str v = false) [JInt 1; JInt 2]
  /\ extract_scalar_value (JList [JInt 1; JInt 2]) = EmptyString.
Proof.
  assert (H1 : Forall (fun v => is_str v = false) [JInt 1; JNull])
    by (repeat constructor).
  assert (H2 : Forall (fun v => is_str v = false) [JInt 1; JInt 2])
    by (repeat constructor).
  split; [exact H1|]. split.
  - exact (proj1 (proj2 (proj2 extract_scalar_value_precedence))
             [JInt 1; JNull] "a" [JStr "b"] H1).
  - split; [exact H2|].
    exact (proj1 (proj2 (proj2 (proj2 extract_scalar_value_precedence)))
             [JInt 1; JInt 2] H2).
Defined.

(** ** Role lookup *)

Section RoleLookup.
Variable role_token : string.

Lemma find_person_cons person rest :
  find_person_by_role (person :: rest) role_token =
    if role_hit role_token person then Some person
    else find_person_by_role rest role_token.
Proof.
  unfold find_person_by_role, role_hit.
  destruct person as [| | | | | |e]; try reflexivity.
  destruct (dict_get e "Role") as [[]|]; try reflexivity.
Qed.

Lemma find_person_is_find people :
  find_person_by_role people role_token = find (role_hit role_token) people.
Proof.
  induction people as [|p people IH]; [reflexivity|].
  rewrite find_person_cons. cbn [find]. now rewrite IH.
Qed.

Lemma role_hit_inv person :
  role_hit role_token person = true ->
  exists entries role_val,
    person = JDict entries
    /\ dict_get entries "Role" = Some (JStr role_val)
    /\ normalize_name role_val = normalize_name role_token.
Proof.
  unfold role_hit. destruct person as [| | | | | |e]; try discriminate.
  destruct (dict_get e "Role") as [[| | | |r| |]|] eqn:E; try discriminate.
  intros H. exists e, r. split; [reflexivity|]. split; [exact E|].
  now apply String.eqb_eq.
Qed.

(** Entries the scan skips. *)
Lemma role_hit_skipped person :
  is_dict person = false
  \/ (exists entries, person = JDict entries
                      /\ dict_get entries "Role" = None)
  \/ (exists entries v, person = JDict entries
                        /\ dict_get entries "Role" = Some v
                        /\ is_str v = false) ->
  role_hit role_token person = false.
Proof.
  intros [H|[(e & -> & H)|(e & v & -> & H & Hv)]]; unfold role_hit.
  - destruct person; try reflexivity. discriminate H.
  - now rewrite H.
  - rewrite H. destruct v; try reflexivity. discriminate Hv.
Qed.
End RoleLookup.

(** C6.  [find_person_by_role] scans the list in order: an entry that is
    not an object, or whose [Role] is absent or not a string, is skipped;
    the first object whose [Role] normalizes equal to the role token is
    returned, so the earliest of several people sharing the role is
    selected; and nothing is returned when no entry matches. *)
Theorem find_person_by_role_first_match :
  forall role_token : string,
    (forall person rest,
        is_dict person = false
        \/ (exists entries, person = JDict entries
                            /\ dict_get entries "Role" = None)
        \/ (exists entries v, person = JDict entries
                              /\ dict_get entries "Role" = Some v
                              /\ is_str v = false) ->
        find_person_by_role (person :: rest) role_token
        = find_person_by_role rest role_token)
    /\ (forall pre entries role_val post,
           (forall p, In p pre -> role_hit role_token p = false) ->
           dict_get entries "Role" = Some (JStr role_val) ->
           normalize_name role_val = normalize_name role_token ->
           find_person_by_role (pre ++ JDict entries :: post) role_token
           = Some (JDict entries))
    /\ (forall people,
           (forall p, In p people -> role_hit role_token p = false) ->
           find_person_by_role people role_token = None)
    /\ (forall people person,
           find_person_by_role people role_token = Some person ->
           In person people
           /\ exists entries role_val,
               person = JDict entries
               /\ dict_get entries "Role" = Some (JStr role_val)
               /\ normalize_name role_val = normalize_name role_token)
    /\ (forall people,
           find_person_by_role people role_token
           = find (role_hit role_token) people).
Proof.
  intros tok. repeat apply conj.
  - intros person rest H. rewrite find_person_cons.
    now rewrite (role_hit_skipped tok person H).
  - intros pre e r post Hpre Hrole Hnorm.
    rewrite find_person_is_find. apply find_first_hit; [exact Hpre|].
    unfold role_hit. rewrite Hrole. now apply String.eqb_eq.
  - intros people Hnone. rewrite find_person_is_find.
    destruct (find (role_hit tok) people) as [p|] eqn:E; [|reflexivity].
    apply find_some in E as [Hin Hp]. rewrite (Hnone p Hin) in Hp.
    discriminate Hp.
  - intros people person H. rewrite find_person_is_find in H.
    apply find_some in H as [Hin Hp]. split; [exact Hin|].
    now apply role_hit_inv.
  - apply find_person_is_find.
Qed.

Lemma find_person_by_role_first_match_witness :
  (forall p, In p [JStr "Owner"; JDict [("Name", JStr "Zed")]] ->
             role_hit "OWNER" p = false)
  /\ dict_get [("Role", JStr "Owner"); ("Name", JStr "Ann")] "Role"
     = Some (JStr "Owner")
  /\ normalize_name "Owner" = normalize_name "OWNER"
  /\ find_person_by_role
       [JStr "Owner"; JDict [("Name", JStr "Zed")];
        JDict [("Role", JStr "Owner"); ("Name", JStr "Ann")];
        JDict [("Role", JStr "owner"); ("Name", JStr "Bob")]] "OWNER"
     = Some (JDict [("Role", JStr "Owner"); ("Name", JStr "Ann")]).
Proof.
  assert (H : forall p, In p [JStr "Owner"; JDict [("Name", JStr "Zed")]] ->
                        role_hit "OWNER" p = false).
  { intros p [E|[E|[]]]; subst p; reflexivity. }
  split; [exact H|]. split; [reflexivity|]. split; [reflexivity|].
  exact (proj1 (proj2 (find_person_by_role_first_match "OWNER"))
           [JStr "Owner"; JDict [("Name", JStr "Zed")]]
           [("Role", JStr "Owner"); ("Name", JStr "Ann")] "Owner"
           [JDict [("Role", JStr "owner"); ("Name", JStr "Bob")]]
           H eq_refl eq_refl).
Defined.

(** ** Variable resolution *)

Section Resolution.

Lemma resolve_variable_clean var_str root_obj :
  resolve_variable var_str root_obj =
    match var_str with
    | JNull => Ok EmptyString
    | _ => resolve_clean (Py.strip (py_str var_str)) root_obj
    end.
Proof. destruct var_str; reflexivity. Qed.

Lemma lookup_people_field_object entries role_token var_token :
  exists value,
    lookup_people_field (JDict entries) role_token var_token = Ok value.
Proof.
  unfold lookup_people_field.
  destruct (dict_get entries "people") as [[]|]; try (eexists; reflexivity).
  destruct (find_person_by_role _ _); eexists; reflexivity.
Qed.

Lemma lookup_people_field_no_list entries role_token var_token :
  dict_get entries "people" = None
  \/ (exists v, dict_get entries "people" = Some v /\ is_list v = false) ->
  lookup_people_field (JDict entries) role_token var_token = Ok None.
Proof.
  unfold lookup_people_field. intros [H|(v & H & Hv)]; rewrite H.
  - reflexivity.
  - destruct v; try reflexivity. discriminate Hv.
Qed.

Lemma lookup_root_field_object var_str entries :
  exists value, lookup_root_field var_str (JDict entries) = Ok value.
Proof. unfold lookup_root_field. eexists. reflexivity. Qed.

Lemma lookup_people_field_non_object root role_token var_token :
  is_dict root = false ->
  lookup_people_field root role_token var_token = Raise AttributeError.
Proof. destruct root; try reflexivity. discriminate. Qed.

Lemma lookup_root_field_non_object var_str root :
  is_dict root = false ->
  lookup_root_field var_str root = Raise AttributeError.
Proof. destruct root; try reflexivity. discriminate. Qed.

Lemma resolve_clean_object var_clean entries :
  exists s, resolve_clean var_clean (JDict entries) = Ok s.
Proof.
  unfold resolve_clean.
  destruct (String.eqb var_clean EmptyString); [eexists; reflexivity|].
  destruct (Py.startswith _ _).
  - destruct (Py.partition _ _) as [[role_token sep] var_token].
    destruct (String.eqb sep EmptyString); [eexists; reflexivity|].
    destruct (lookup_people_field_object entries role_token var_token)
      as [value ->].
    eexists. reflexivity.
  - destruct (negb _); [|eexists; reflexivity].
    destruct (lookup_root_field_object var_clean entries) as [value ->].
    eexists. reflexivity.
Qed.

Lemma resolve_variable_object var_str entries :
  exists s, resolve_variable var_str (JDict entries) = Ok s.
Proof.
  rewrite resolve_variable_clean.
  destruct var_str; try apply resolve_clean_object.
  eexists. reflexivity.
Qed.

Lemma resolve_clean_non_object var_clean root :
  is_dict root = false ->
  resolve_clean var_clean root = Ok EmptyString
  \/ resolve_clean var_clean root = Raise AttributeError.
Proof.
  intros Hroot. unfold resolve_clean.
  destruct (String.eqb var_clean EmptyString); [now left|].
  destruct (Py.startswith _ _).
  - destruct (Py.partition _ _) as [[role_token sep] var_token].
    destruct (String.eqb sep EmptyString); [now left|].
    rewrite lookup_people_field_non_object by exact Hroot. now right.
  - destruct (negb _); [|now left].
    rewrite lookup_root_field_non_object by exact Hroot. now right.
Qed.

End Resolution.

(** C2, as amended.  For every token and every Record that is an object,
    [resolve_variable] returns a string and raises nothing; when the
    [people] entry of such a Record is absent or not a list, every token
    whose trimmed upper-case text starts with [PEOPLE_] resolves to the
    empty string.  For a Record that is not an object the call either
    returns the empty string or raises [AttributeError]. *)
Theorem resolve_variable_total_on_objects :
  forall (var_str : json),
    (forall entries,
        exists s, resolve_variable var_str (JDict entries) = Ok s)
    /\ (forall entries,
           dict_get entries "people" = None
           \/ (exists v, dict_get entries "people" = Some v
                         /\ is_list v = false) ->
           Py.startswith "PEOPLE_" (Py.upper (Py.strip (py_str var_str)))
           = true ->
           resolve_variable var_str (JDict entries) = Ok EmptyString)
    /\ (forall root_obj,
           is_dict root_obj = false ->
           resolve_variable var_str root_obj = Ok EmptyString
           \/ resolve_variable var_str root_obj = Raise AttributeError).
Proof.
  intros var_str. repeat apply conj.
  - apply resolve_variable_object.
  - intros entries Hpeople Hprefix. rewrite resolve_variable_clean.
    destruct var_str; try reflexivity;
      unfold resolve_clean; rewrite Hprefix;
      (destruct (String.eqb _ EmptyString); [reflexivity|]);
      (destruct (Py.partition _ _) as [[role_token sep] var_token]);
      (destruct (String.eqb sep EmptyString); [reflexivity|]);
      now rewrite lookup_people_field_no_list.
  - intros root_obj Hroot. rewrite resolve_variable_clean.
    destruct var_str; try (now apply resolve_clean_non_object).
    now left.
Qed.

Lemma resolve_variable_total_on_objects_witness :
  (dict_get [("people", JStr "nobody"); ("City", JStr "Troy")] "people" = None
   \/ (exists v,
          dict_get [("people", JStr "nobody"); ("City", JStr "Troy")] "people"
          = Some v /\ is_list v = false))
  /\ Py.startswith "PEOPLE_"
       (Py.upper (Py.strip (py_str (JStr " people_owner_city ")))) = true
  /\ resolve_variable (JStr " people_owner_city ")
       (JDict [("people", JStr "nobody"); ("City", JStr "Troy")])
     = Ok EmptyString.
Proof.
  assert (H : dict_get [("people", JStr "nobody"); ("City", JStr "Troy")]
                "people" = None
              \/ (exists v,
                     dict_get [("people", JStr "nobody"); ("City", JStr "Troy")]
                       "people" = Some v /\ is_list v = false)).
  { right. exists (JStr "nobody"). split; reflexivity. }
  split; [exact H|]. split; [reflexivity|].
  exact (proj1 (proj2 (resolve_variable_total_on_objects
                         (JStr " people_owner_city ")))
           [("people", JStr "nobody"); ("City", JStr "Troy")] H eq_refl).
Defined.

(** C2 as stated fails.  A Record that is not an object makes a lookup
    raise [AttributeError], for a root-level token and for a [PEOPLE_]
    token alike; and a Record without [people] still resolves a
    root-level token to the value of its field, not to the empty
    string. *)
Lemma resolve_variable_raises_on_non_object :
  resolve_variable (JStr "ContractNumber") (JList []) = Raise AttributeError
  /\ resolve_variable (JStr "PEOPLE_OWNER_CITY") JNull = Raise AttributeError
  /\ dict_get [("ContractNumber", JStr "123")] "people" = None
  /\ resolve_variable (JStr "ContractNumber")
       (JDict [("ContractNumber", JStr "123")]) = Ok "123".
Proof. repeat split; reflexivity. Qed.

(** C4.  A token whose trimmed, upper-cased text holds an underscore and
    does not start with [PEOPLE_] resolves to the empty string against
    every Record, whatever keys the Record has. *)
Theorem resolve_variable_underscore_unresolved :
  forall (var_str root_obj : json),
    Py.contains "_" (Py.upper (Py.strip (py_str var_str))) = true ->
    Py.startswith "PEOPLE_" (Py.upper (Py.strip (py_str var_str))) = false ->
    resolve_variable var_str root_obj = Ok EmptyString.
Proof.
  intros var_str root_obj Hus Hprefix.
  rewrite StrFacts.contains_upper in Hus.
  rewrite resolve_variable_clean.
  destruct var_str; try reflexivity;
    unfold resolve_clean; rewrite Hprefix, Hus;
    now destruct (String.eqb _ EmptyString).
Qed.

Lemma resolve_variable_underscore_unresolved_witness :
  Py.contains "_" (Py.upper (Py.strip (py_str (JStr "contract_number"))))
  = true
  /\ Py.startswith "PEOPLE_"
       (Py.upper (Py.strip (py_str (JStr "contract_number")))) = false
  /\ resolve_variable (JStr "Contract Number")
       (JDict [("ContractNumber", JStr "123")]) = Ok "123"
  /\ resolve_variable (JStr "contract_number")
       (JDict [("ContractNumber", JStr "123")]) = Ok EmptyString.
Proof.
  split; [reflexivity|]. split; [reflexivity|]. split; [reflexivity|].
  exact (resolve_variable_underscore_unresolved (JStr "contract_number")
           (JDict [("ContractNumber", JStr "123")]) eq_refl eq_refl).
Defined.

(** A no-break space in front of a token is trimmed like any blank, so
    the token is read as a [PEOPLE_] token. *)
Example resolve_variable_trims_no_break_space :
  resolve_variable (JStr (Py.utf8 160 ++ "PEOPLE_OWNER_CITY")) owner_record
  = Ok "Troy".
Proof. vm_compute. reflexivity. Qed.

(** ** Tree transformation *)

Section Shape.
Variable leaf : string -> string -> Prop.

Lemma same_shape_dict_keys e out :
  same_shape leaf (JDict e) out ->
  exists e', out = JDict e' /\ map fst e' = map fst e.
Proof.
  intros H. inversion H as [| | | | | |e0 e' Hall]; subst.
  exists e'. split; [reflexivity|]. clear H.
  induction Hall as [|kv kv' e e' [Hk _] _ IH]; [reflexivity|].
  cbn [map]. now rewrite Hk, IH.
Qed.

Lemma same_shape_list_length l out :
  same_shape leaf (JList l) out ->
  exists l', out = JList l' /\ List.length l' = List.length l.
Proof.
  intros H. inversion H as [| | | | |l0 l' Hall|]; subst.
  exists l'. split; [reflexivity|]. symmetry.
  exact (Forall2_length Hall).
Qed.

Lemma same_shape_other_leaf t out :
  is_str t = false -> is_list t = false -> is_dict t = false ->
  same_shape leaf t out -> out = t.
Proof.
  intros Hs Hl Hd H. inversion H; subst; try reflexivity; discriminate.
Qed.
End Shape.

Section Transform.
Variable root_obj : json.

Lemma transform_list l :
  transform_structure (JList l) root_obj =
    out <- transform_each root_obj l ;; Ok (JList out).
Proof. reflexivity. Qed.

Lemma transform_dict e :
  transform_structure (JDict e) root_obj =
    out <- transform_items root_obj e ;; Ok (JDict out).
Proof. reflexivity. Qed.

Lemma transform_each_shaped l :
  Forall (shaped root_obj) l ->
  match transform_each root_obj l with
  | Ok out => Forall2 (same_shape (resolves_to root_obj)) l out
  | Raise _ => is_dict root_obj = false
  end.
Proof.
  induction 1 as [|x l Hx _ IH]; cbn; [constructor|].
  unfold shaped in Hx.
  destruct (transform_structure x root_obj) as [x'|]; cbn; [|exact Hx].
  destruct (transform_each root_obj l) as [l'|]; cbn; [|exact IH].
  now constructor.
Qed.

Lemma transform_items_shaped e :
  Forall (fun kv => shaped root_obj (snd kv)) e ->
  match transform_items root_obj e with
  | Ok out =>
      Forall2 (fun kv kv' =>
                 fst kv = fst kv'
                 /\ same_shape (resolves_to root_obj) (snd kv) (snd kv'))
              e out
  | Raise _ => is_dict root_obj = false
  end.
Proof.
  induction 1 as [|[k v] e Hv _ IH]; cbn; [constructor|].
  unfold shaped in Hv. cbn [snd] in Hv.
  destruct (transform_structure v root_obj) as [v'|]; cbn; [|exact Hv].
  destruct (transform_items root_obj e) as [e'|]; cbn; [|exact IH].
  constructor; [|exact IH]. now split.
Qed.

End Transform.

(** C7.  [transform_structure] either raises, which it does only for a
    Record that is not an object, or returns a value of the shape of the
    template: objects with the same keys in the same order, lists of the
    same length and order, each string leaf replaced by what
    [resolve_variable] returns for it, and every number, boolean and null
    unchanged.  For a Record that is an object it always returns. *)
Theorem transform_structure_preserves_shape :
  forall (obj root_obj : json),
    match transform_structure obj root_obj with
    | Ok out => same_shape (resolves_to root_obj) obj out
    | Raise _ => is_dict root_obj = false
    end.
Proof.
  intros obj root_obj. change (shaped root_obj obj).
  induction obj as [| | | |s|l IH|e IH] using json_tree_ind;
    try (unfold shaped; cbn; constructor).
  - unfold shaped. cbn [transform_structure].
    destruct (resolve_variable (JStr s) root_obj) as [r|x] eqn:E; cbn.
    + now constructor.
    + destruct root_obj as [| | | | | |entries]; try reflexivity.
      destruct (resolve_variable_object (JStr s) entries) as [r Hr].
      rewrite Hr in E. discriminate E.
  - unfold shaped. rewrite transform_list.
    pose proof (transform_each_shaped root_obj l IH) as H.
    destruct (transform_each root_obj l); cbn; [|exact H].
    now constructor.
  - unfold shaped. rewrite transform_dict.
    pose proof (transform_items_shaped root_obj e IH) as H.
    destruct (transform_items root_obj e); cbn; [|exact H].
    now constructor.
Qed.

(** C3.  The end-to-end example of the specification. *)
Theorem transform_structure_greeting_example :
  transform_structure greeting_template owner_record
  = Ok (JDict [("greeting", JStr "Troy"); ("code", JInt 7); ("flag", JNull)]).
Proof. reflexivity. Qed.

(** ** Slash escaping *)

Lemma replace_slash_doubled s : slash_doubled s (Py.replace "/" "//" s).
Proof.
  induction s as [|c s IH]; cbn [Py.replace]; [constructor|].
  destruct (Ascii.eqb c "/") eqn:E.
  - apply Ascii.eqb_eq in E. subst c. now constructor.
  - apply Ascii.eqb_neq in E. now constructor.
Qed.

Lemma slash_doubled_unique s s' :
  slash_doubled s s' -> s' = Py.replace "/" "//" s.
Proof.
  induction 1 as [|s s' _ IH|c s s' Hc _ IH]; cbn [Py.replace].
  - reflexivity.
  - rewrite Ascii.eqb_refl, IH. reflexivity.
  - apply Ascii.eqb_neq in Hc. now rewrite Hc, IH.
Qed.

(** C9.  [escape_slashes] returns a value of the shape of its argument
    (same keys, same list lengths, same order, every leaf that is not a
    string unchanged) in which each string leaf is the original with every
    slash written twice. *)
Theorem escape_slashes_doubles_every_slash :
  forall obj : json, same_shape slash_doubled obj (escape_slashes obj).
Proof.
  induction obj as [| | | |s|l IH|e IH] using json_tree_ind;
    cbn [escape_slashes]; try constructor.
  - apply replace_slash_doubled.
  - induction IH as [|x l Hx _ IHl]; cbn [map]; now constructor.
  - induction IH as [|kv e Hkv _ IHe]; cbn [map]; constructor;
      [now split | exact IHe].
Qed.

(** * Further properties of the code *)



(** ** Normalization, character by character *)

(** X1.  A blank or an underscore at any place of a name, and the case of
    its letters, do not show in the normalized name.  Here [sp] is one
    blank character or the underscore, and [b] starts at a character
    boundary. *)
Theorem normalize_name_ignores_separators :
  forall (a sp b : string),
    Py.isspace sp = true \/ sp = "_" ->
    Py.continues b = false ->
    normalize_name (a ++ sp ++ b) = normalize_name (a ++ b)
    /\ normalize_name (Py.upper (a ++ sp ++ b)) = normalize_name (a ++ b).
Proof.
  intros a sp b Hsp Hb.
  assert (E : normalize_name (a ++ sp ++ b) = normalize_name (a ++ b))
    by now apply StrFacts.normalize_name_separator.
  split; [exact E|]. now rewrite StrFacts.normalize_name_upper.
Qed.

Lemma normalize_name_ignores_separators_witness :
  (Py.isspace (Py.utf8 160) = true \/ Py.utf8 160 = "_")
  /\ Py.continues "name" = false
  /\ normalize_name ("first" ++ Py.utf8 160 ++ "name") = "FIRSTNAME"
  /\ normalize_name (Py.upper ("first" ++ Py.utf8 160 ++ "name"))
     = "FIRSTNAME".
Proof.
  split; [left; reflexivity|]. split; [reflexivity|].
  exact (normalize_name_ignores_separators "first" (Py.utf8 160) "name"
           (or_introl eq_refl) eq_refl).
Defined.

(** X2.  A normalized name holds no blank, no underscore and no lower-case
    letter: each of its characters is its own upper case. *)
Theorem normalize_name_alphabet :
  forall (s c : string),
    In c (Py.chars (normalize_name s)) ->
    Py.isspace c = false /\ c <> "_" /\ Py.upper_char c = c.
Proof.
  intros s c Hc.
  destruct (StrFacts.normalize_name_chars s c Hc) as (_ & Hup & Hb & Hu).
  now repeat split.
Qed.

Lemma normalize_name_alphabet_witness :
  In (Py.utf8 201)
    (Py.chars (normalize_name (" caf" ++ Py.utf8 233 ++ "_x" ++ Py.utf8 160)))
  /\ Py.isspace (Py.utf8 201) = false /\ Py.utf8 201 <> "_"
  /\ Py.upper_char (Py.utf8 201) = Py.utf8 201.
Proof.
  assert (H : In (Py.utf8 201)
                (Py.chars (normalize_name
                             (" caf" ++ Py.utf8 233 ++ "_x" ++ Py.utf8 160)))).
  { vm_compute. do 3 right. now left. }
  split; [exact H|].
  exact (normalize_name_alphabet _ _ H).
Defined.

(** X3.  In a list, [extract_scalar_value] looks at the elements that are
    strings only: the other elements, nested lists and objects included,
    change nothing of the result. *)
Theorem extract_scalar_value_strings_only :
  forall l : list json,
    extract_scalar_value (JList l)
    = extract_scalar_value (JList (filter is_str l))
    /\ extract_scalar_value (JList l)
       = match filter is_str l with
         | JStr s :: _ => s
         | _ => EmptyString
         end.
Proof.
  intros l.
  assert (E : extract_scalar_value (JList l)
              = match filter is_str l with
                | JStr s :: _ => s
                | _ => EmptyString
                end).
  { induction l as [|v l IH]; [reflexivity|].
    rewrite extract_list_cons. destruct v; cbn [filter is_str]; auto. }
  split; [|exact E]. rewrite E.
  destruct (filter is_str l) as [|v r] eqn:F; [reflexivity|].
  rewrite extract_list_cons.
  assert (Hv : is_str v = true).
  { assert (Hin : In v (filter is_str l)) by (rewrite F; now left).
    now apply filter_In in Hin. }
  destruct v; try discriminate Hv. reflexivity.
Qed.

(** ** Root lookup and deep search *)

Lemma lookup_root_field_find var_str entries :
  lookup_root_field var_str (JDict entries)
  = Ok (option_map extract_entry
          (find (key_hit (normalize_name var_str)) entries)).
Proof.
  unfold lookup_root_field. f_equal.
  induction entries as [|[k v] entries IH]; [reflexivity|].
  cbn [find]. unfold key_hit at 1. cbn [fst].
  destruct (String.eqb (normalize_name k) (normalize_name var_str));
    [reflexivity | exact IH].
Qed.

(** X4.  On an object, [lookup_root_field] returns the extracted value of
    the first entry whose key has the normalized name of the variable, and
    it looks at the top level only: when no top-level key matches, nothing
    is found, whatever the values hold. *)
Theorem lookup_root_field_top_level_only :
  forall (var_str : string) (entries : list (string * json)),
    (forall pre k v post,
        entries = (pre ++ (k, v) :: post)%list ->
        (forall kv, In kv pre ->
                    normalize_name (fst kv) <> normalize_name var_str) ->
        normalize_name k = normalize_name var_str ->
        lookup_root_field var_str (JDict entries)
        = Ok (Some (extract_scalar_value v)))
    /\ ((forall kv, In kv entries ->
                    normalize_name (fst kv) <> normalize_name var_str) ->
        lookup_root_field var_str (JDict entries) = Ok None).
Proof.
  intros var_str entries. rewrite lookup_root_field_find. split.
  - intros pre k v post -> Hpre Hk.
    rewrite (find_first_hit _ pre (k, v)); [reflexivity| |].
    + intros kv Hkv. apply String.eqb_neq. now apply Hpre.
    + unfold key_hit. now apply String.eqb_eq.
  - intros Hnone.
    destruct (find (key_hit (normalize_name var_str)) entries) as [kv|] eqn:E;
      [|reflexivity].
    apply find_some in E as [Hin Hhit]. apply String.eqb_eq in Hhit.
    now destruct (Hnone kv Hin).
Qed.

Lemma lookup_root_field_top_level_only_witness :
  (forall kv, In kv [("Owner", JDict [("City", JStr "Troy")])] ->
              normalize_name (fst kv) <> normalize_name "city")
  /\ lookup_root_field "city" (JDict [("Owner", JDict [("City", JStr "Troy")])])
     = Ok None.
Proof.
  assert (H : forall kv, In kv [("Owner", JDict [("City", JStr "Troy")])] ->
                         normalize_name (fst kv) <> normalize_name "city").
  { intros kv [E|[]]. subst kv. vm_compute. discriminate. }
  split; [exact H|].
  exact (proj2 (lookup_root_field_top_level_only "city"
                  [("Owner", JDict [("City", JStr "Troy")])]) H).
Defined.

(** X5.  The deep search finds a field exactly when some key of the tree,
    at any depth, has the normalized name of the token: a result is the
    extracted value of such an entry, and not found means that no entry of
    the tree matches. *)
Theorem find_value_in_obj_found_iff_key_present :
  forall (obj : json) (field_token : string),
    match find_value_in_obj obj field_token with
    | Some found =>
        exists k v,
          In (k, v) (preorder_entries obj)
          /\ normalize_name k = normalize_name field_token
          /\ found = extract_scalar_value v
    | None =>
        forall kv, In kv (preorder_entries obj) ->
                   normalize_name (fst kv) <> normalize_name field_token
    end.
Proof.
  intros obj tok. unfold find_value_in_obj.
  rewrite search_first_in_preorder.
  destruct (find (key_hit (normalize_name tok)) (preorder_entries obj))
    as [[k v]|] eqn:E; cbn [option_map].
  - apply find_some in E as [Hin Hhit]. exists k, v.
    split; [exact Hin|]. split; [|reflexivity]. now apply String.eqb_eq in Hhit.
  - intros kv Hkv. apply String.eqb_neq.
    exact (find_none _ _ E kv Hkv).
Qed.

Lemma preorder_flat entries :
  (forall kv, In kv entries -> is_scalar (snd kv) = true) ->
  preorder_entries (JDict entries) = entries.
Proof.
  induction entries as [|[k v] entries IH]; intros Hflat; [reflexivity|].
  rewrite preorder_dict_cons, IH.
  - pose proof (Hflat (k, v) (or_introl eq_refl)) as Hv. cbn [snd] in Hv.
    destruct v; try reflexivity; discriminate Hv.
  - intros kv Hkv. apply Hflat. now right.
Qed.

(** X6.  On an object whose values are all scalars the deep search and
    the root lookup return the same. *)
Theorem find_value_in_obj_flat_object :
  forall (field_token : string) (entries : list (string * json)),
    (forall kv, In kv entries -> is_scalar (snd kv) = true) ->
    lookup_root_field field_token (JDict entries)
    = Ok (find_value_in_obj (JDict entries) field_token).
Proof.
  intros tok entries Hflat. rewrite lookup_root_field_find.
  unfold find_value_in_obj.
  now rewrite search_first_in_preorder, preorder_flat.
Qed.

Lemma find_value_in_obj_flat_object_witness :
  (forall kv, In kv [("Role", JStr "Owner"); ("Age", JInt 41)] ->
              is_scalar (snd kv) = true)
  /\ lookup_root_field "age" (JDict [("Role", JStr "Owner"); ("Age", JInt 41)])
     = Ok (Some "41")
  /\ find_value_in_obj (JDict [("Role", JStr "Owner"); ("Age", JInt 41)]) "age"
     = Some "41".
Proof.
  assert (H : forall kv, In kv [("Role", JStr "Owner"); ("Age", JInt 41)] ->
                         is_scalar (snd kv) = true).
  { intros kv [E|[E|[]]]; subst kv; reflexivity. }
  split; [exact H|]. split; [|reflexivity].
  exact (find_value_in_obj_flat_object "age"
           [("Role", JStr "Owner"); ("Age", JInt 41)] H).
Defined.

(** ** The three shapes of a token *)

Module TokenFacts.

Lemma partition_no_sep sep s :
  Py.contains sep s = false ->
  Py.partition sep s = (s, EmptyString, EmptyString).
Proof.
  induction s as [|c s IH]; cbn [Py.contains Py.partition]; [reflexivity|].
  intros H. apply orb_false_iff in H as [Hc Hs].
  now rewrite Hc, (IH Hs).
Qed.

Lemma partition_first sep a b :
  Py.contains sep a = false ->
  Py.partition sep (a ++ String sep b) = (a, String sep EmptyString, b).
Proof.
  induction a as [|c a IH]; cbn [Py.contains Py.partition append].
  - now rewrite Ascii.eqb_refl.
  - intros H. apply orb_false_iff in H as [Hc Ha].
    now rewrite Hc, (IH Ha).
Qed.

Lemma prefix_split p s :
  String.prefix p s = true -> exists t, s = p ++ t.
Proof.
  revert s. induction p as [|a p IH]; intros s H.
  - now exists s.
  - destruct s as [|b s]; [discriminate H|]. cbn [String.prefix] in H.
    destruct (ascii_dec a b) as [->|]; [|discriminate H].
    destruct (IH s H) as [t ->]. now exists t.
Qed.

Lemma prefix_app p t : String.prefix p (p ++ t) = true.
Proof.
  induction p as [|a p IH]; [now destruct t|]. cbn [String.prefix append].
  now destruct (ascii_dec a a).
Qed.

Lemma contains_app c a b :
  Py.contains c (a ++ b) = Py.contains c a || Py.contains c b.
Proof.
  induction a as [|d a IH]; cbn [Py.contains append]; [reflexivity|].
  now rewrite IH, orb_assoc.
Qed.

(** A text that starts with [PEOPLE_] holds an underscore. *)
Lemma people_prefix_underscore s :
  Py.startswith "PEOPLE_" s = true -> Py.contains "_" s = true.
Proof.
  intros H. apply prefix_split in H as [t ->].
  rewrite contains_app. reflexivity.
Qed.

Lemma lookup_root_field_same_name a b root :
  normalize_name a = normalize_name b ->
  lookup_root_field a root = lookup_root_field b root.
Proof. intros H. unfold lookup_root_field. now rewrite H. Qed.

Lemma resolve_clean_upper var_clean root :
  resolve_clean (Py.upper var_clean) root = resolve_clean var_clean root.
Proof.
  unfold resolve_clean.
  rewrite StrFacts.upper_empty, StrFacts.upper_twice,
    StrFacts.contains_upper.
  now rewrite (lookup_root_field_same_name (Py.upper var_clean) var_clean)
    by apply StrFacts.normalize_name_upper.
Qed.

Lemma find_value_in_obj_same_name person a b :
  normalize_name a = normalize_name b ->
  find_value_in_obj person a = find_value_in_obj person b.
Proof. intros H. unfold find_value_in_obj. now rewrite H. Qed.

Lemma lookup_people_field_find entries people role_token var_token :
  dict_get entries "people" = Some (JList people) ->
  lookup_people_field (JDict entries) role_token var_token
  = Ok match find (role_hit role_token) people with
       | Some person => find_value_in_obj person var_token
       | None => None
       end.
Proof.
  intros H. unfold lookup_people_field. rewrite H, find_person_is_find.
  now destruct (find (role_hit role_token) people).
Qed.

End TokenFacts.

(** X7.  A token whose trimmed upper-case text starts with [PEOPLE_] and
    holds no underscore after that prefix resolves to the empty string
    against every Record, object or not: no lookup is made. *)
Theorem resolve_variable_people_without_field :
  forall (var_str root_obj : json),
    Py.startswith "PEOPLE_" (Py.upper (Py.strip (py_str var_str))) = true ->
    Py.contains "_" (Py.drop 7 (Py.upper (Py.strip (py_str var_str)))) = false ->
    resolve_variable var_str root_obj = Ok EmptyString.
Proof.
  intros var_str root_obj Hprefix Hrest.
  rewrite resolve_variable_clean.
  destruct var_str; try reflexivity;
    unfold resolve_clean; rewrite Hprefix;
    change (String.length "PEOPLE_") with 7;
    rewrite (TokenFacts.partition_no_sep _ _ Hrest);
    now destruct (String.eqb _ EmptyString).
Qed.

Lemma resolve_variable_people_without_field_witness :
  Py.startswith "PEOPLE_" (Py.upper (Py.strip (py_str (JStr "people_owner"))))
  = true
  /\ Py.contains "_"
       (Py.drop 7 (Py.upper (Py.strip (py_str (JStr "people_owner"))))) = false
  /\ resolve_variable (JStr "people_owner") owner_record = Ok EmptyString
  /\ resolve_variable (JStr "people_owner") JNull = Ok EmptyString.
Proof.
  split; [reflexivity|]. split; [reflexivity|]. split.
  - exact (resolve_variable_people_without_field (JStr "people_owner")
             owner_record eq_refl eq_refl).
  - reflexivity.
Defined.

(** X8.  A string token that is not blank and holds no underscore resolves
    to what the root lookup of the token finds, the empty string when it
    finds nothing: on an object, the extracted value of the first
    top-level entry whose key has the normalized name of the token. *)
Theorem resolve_variable_root_token :
  forall (s : string) (root_obj : json),
    Py.strip s <> EmptyString ->
    Py.contains "_" s = false ->
    resolve_variable (JStr s) root_obj
    = (value <- lookup_root_field s root_obj ;; Ok (or_empty value))
    /\ forall entries,
        root_obj = JDict entries ->
        resolve_variable (JStr s) root_obj
        = Ok (or_empty
                (option_map extract_entry
                   (find (key_hit (normalize_name s)) entries))).
Proof.
  intros s root_obj Hblank Hus.
  assert (Hclean : Py.contains "_" (Py.strip s) = false)
    by now apply StrFacts.contains_strip.
  assert (E : resolve_variable (JStr s) root_obj
              = (value <- lookup_root_field s root_obj ;; Ok (or_empty value))).
  { rewrite resolve_variable_clean. unfold resolve_clean. cbn [py_str].
    apply String.eqb_neq in Hblank. rewrite Hblank.
    destruct (Py.startswith "PEOPLE_" (Py.upper (Py.strip s))) eqn:P.
    - apply TokenFacts.people_prefix_underscore in P.
      rewrite StrFacts.contains_upper in P. congruence.
    - rewrite Hclean. cbn [negb].
      now rewrite (TokenFacts.lookup_root_field_same_name (Py.strip s) s)
        by apply StrFacts.normalize_name_strip. }
  split; [exact E|]. intros entries ->.
  now rewrite E, lookup_root_field_find.
Qed.

Lemma resolve_variable_root_token_witness :
  Py.strip " Contract Number " <> EmptyString
  /\ Py.contains "_" " Contract Number " = false
  /\ resolve_variable (JStr " Contract Number ")
       (JDict [("Policy", JDict [("ContractNumber", JStr "9")]);
               ("contractnumber", JInt 123)])
     = Ok "123".
Proof.
  assert (H : Py.strip " Contract Number " <> EmptyString)
    by (vm_compute; discriminate).
  split; [exact H|]. split; [reflexivity|].
  exact (proj1 (resolve_variable_root_token " Contract Number "
                  (JDict [("Policy", JDict [("ContractNumber", JStr "9")]);
                          ("contractnumber", JInt 123)]) H eq_refl)).
Defined.

(** X9.  In a token whose trimmed upper-case text is [PEOPLE_], a role
    part, an underscore and a field part, the role part ends at the first
    underscore after the prefix: everything behind it, further underscores
    included, is the field token.  The token resolves to what
    [lookup_people_field] finds for the two parts, the empty string when it
    finds nothing; on an object with a [people] list that is the deep
    search of the field inside the first person of that role. *)
Theorem resolve_variable_people_token :
  forall (s : string) (root_obj : json) (role_token var_token : string),
    Py.upper (Py.strip s) = "PEOPLE_" ++ role_token ++ String "_" var_token ->
    Py.contains "_" role_token = false ->
    resolve_variable (JStr s) root_obj
    = (value <- lookup_people_field root_obj role_token var_token ;;
       Ok (or_empty value))
    /\ forall entries people,
        root_obj = JDict entries ->
        dict_get entries "people" = Some (JList people) ->
        resolve_variable (JStr s) root_obj
        = Ok (or_empty
                match find (role_hit role_token) people with
                | Some person => find_value_in_obj person var_token
                | None => None
                end).
Proof.
  intros s root_obj role_token var_token Hs Hrole.
  assert (E : resolve_variable (JStr s) root_obj
              = (value <- lookup_people_field root_obj role_token var_token ;;
                 Ok (or_empty value))).
  { rewrite resolve_variable_clean. unfold resolve_clean. cbn [py_str].
    destruct (String.eqb (Py.strip s) EmptyString) eqn:B.
    - apply String.eqb_eq in B. rewrite B in Hs. discriminate Hs.
    - rewrite Hs. unfold Py.startswith.
      rewrite TokenFacts.prefix_app.
      change (Py.drop (String.length "PEOPLE_")
                ("PEOPLE_" ++ role_token ++ String "_" var_token))
        with (role_token ++ String "_" var_token).
      now rewrite (TokenFacts.partition_first _ _ _ Hrole). }
  split; [exact E|]. intros entries people -> Hpeople.
  now rewrite E, (TokenFacts.lookup_people_field_find _ _ _ _ Hpeople).
Qed.

Lemma resolve_variable_people_token_witness :
  Py.upper (Py.strip " people_prim_owner_city ")
  = "PEOPLE_" ++ "PRIM" ++ String "_" "OWNER_CITY"
  /\ Py.contains "_" "PRIM" = false
  /\ resolve_variable (JStr " people_prim_owner_city ")
       (JDict [("people",
                JList [JDict [("Role", JStr "Prim_Owner");
                              ("City", JStr "Troy")];
                       JDict [("Role", JStr "Prim");
                              ("Owner_City", JStr "Rome")]])])
     = Ok "Rome".
Proof.
  split; [reflexivity|]. split; [reflexivity|].
  exact (proj1 (resolve_variable_people_token " people_prim_owner_city "
                  (JDict [("people",
                           JList [JDict [("Role", JStr "Prim_Owner");
                                         ("City", JStr "Troy")];
                                  JDict [("Role", JStr "Prim");
                                         ("Owner_City", JStr "Rome")]])])
                  "PRIM" "OWNER_CITY" eq_refl eq_refl)).
Defined.

(** X10.  Resolution does not depend on the letter case of the token nor
    on blanks around it, for every Record. *)
Theorem resolve_variable_token_case_and_blanks :
  forall (s : string) (root_obj : json),
    resolve_variable (JStr (Py.upper s)) root_obj
    = resolve_variable (JStr s) root_obj
    /\ resolve_variable (JStr (Py.strip s)) root_obj
       = resolve_variable (JStr s) root_obj.
Proof.
  intros s root_obj. rewrite !resolve_variable_clean. cbn [py_str]. split.
  - now rewrite StrFacts.strip_upper, TokenFacts.resolve_clean_upper.
  - now rewrite StrFacts.strip_twice.
Qed.

(** ** Templates without placeholders *)

(** X11.  A template that has no string leaf comes out of
    [transform_structure] as it went in, for every Record, object or not:
    the Record is not consulted and nothing is raised. *)
Theorem transform_structure_without_strings :
  forall (obj root_obj : json),
    no_str_leaf obj = true ->
    transform_structure obj root_obj = Ok obj.
Proof.
  intros obj root_obj.
  induction obj as [| | | |s|l IH|e IH] using json_tree_ind;
    intros H; try reflexivity.
  - discriminate H.
  - rewrite transform_list. cbn [no_str_leaf] in H.
    assert (E : transform_each root_obj l = Ok l).
    { induction IH as [|x l Hx _ IHl]; [reflexivity|].
      cbn [forallb] in H. apply andb_true_iff in H as [H1 H2].
      cbn [transform_each]. rewrite (Hx H1). cbn [bind].
      fold (transform_each root_obj l). now rewrite (IHl H2). }
    now rewrite E.
  - rewrite transform_dict. cbn [no_str_leaf] in H.
    assert (E : transform_items root_obj e = Ok e).
    { induction IH as [|[k v] e Hv _ IHe]; [reflexivity|].
      cbn [forallb snd] in H. apply andb_true_iff in H as [H1 H2].
      cbn [transform_items]. cbn [snd] in Hv. rewrite (Hv H1). cbn [bind].
      fold (transform_items root_obj e). now rewrite (IHe H2). }
    now rewrite E.
Qed.

Lemma transform_structure_without_strings_witness :
  no_str_leaf (JDict [("code", JInt 7); ("flags", JList [JNull; JBool true])])
  = true
  /\ transform_structure
       (JDict [("code", JInt 7); ("flags", JList [JNull; JBool true])])
       (JList [])
     = Ok (JDict [("code", JInt 7); ("flags", JList [JNull; JBool true])]).
Proof.
  split; [reflexivity|].
  exact (transform_structure_without_strings
           (JDict [("code", JInt 7); ("flags", JList [JNull; JBool true])])
           (JList []) eq_refl).
Defined.

(** ** The fetched Record *)

(** X12.  [fetch_cds_root] returns a Record exactly when the response
    body is a JSON list whose first element is an object, and the Record
    is that object; a failed request, a body that is not JSON, a body that
    is not a list, an empty list and a first element that is not an object
    all end in [SystemExit]. *)
Theorem fetch_cds_root_first_object :
  forall (api : string -> cds_response) (contract_number : string)
         (root_obj : json),
    fetch_cds_root api contract_number = inr root_obj
    <-> exists entries rest,
        api contract_number = Body (JList (JDict entries :: rest))
        /\ root_obj = JDict entries.
Proof.
  intros api cn root_obj. unfold fetch_cds_root. split.
  - destruct (api cn) as [e|e|data]; try discriminate.
    destruct data as [| | | | |[|first rest]|]; try discriminate.
    destruct first; try discriminate.
    intros H. injection H as <-. now eexists _, _.
  - intros (entries & rest & -> & ->). reflexivity.
Qed.

(** On an object Record the transformation returns, with the shape of
    the template. *)
Lemma transform_structure_on_object obj entries :
  exists out,
    transform_structure obj (JDict entries) = Ok out
    /\ same_shape (resolves_to (JDict entries)) obj out.
Proof.
  assert (H : shaped (JDict entries) obj).
  { induction obj as [| | | |s|l IH|e IH] using json_tree_ind;
      try (unfold shaped; cbn; constructor).
    - unfold shaped. cbn [transform_structure].
      destruct (resolve_variable_object (JStr s) entries) as [r Hr].
      rewrite Hr. cbn [bind]. now constructor.
    - unfold shaped. rewrite transform_list.
      pose proof (transform_each_shaped (JDict entries) l IH) as H.
      destruct (transform_each (JDict entries) l); cbn; [|exact H].
      now constructor.
    - unfold shaped. rewrite transform_dict.
      pose proof (transform_items_shaped (JDict entries) e IH) as H.
      destruct (transform_items (JDict entries) e); cbn; [|exact H].
      now constructor. }
  unfold shaped in H.
  destruct (transform_structure obj (JDict entries)) as [out|x];
    [now exists out | discriminate H].
Qed.

(** X13.  A Record that [fetch_cds_root] returns makes
    [transform_structure] return for every template: the fetch admits
    objects only, and on an object no lookup raises. *)
Theorem transform_structure_on_fetched_root :
  forall (api : string -> cds_response) (contract_number : string)
         (root_obj obj : json),
    fetch_cds_root api contract_number = inr root_obj ->
    exists out,
      transform_structure obj root_obj = Ok out
      /\ same_shape (resolves_to root_obj) obj out.
Proof.
  intros api cn root_obj obj Hfetch. unfold fetch_cds_root in Hfetch.
  destruct (api cn) as [e|e|data]; try discriminate.
  destruct data as [| | | | |[|first rest]|]; try discriminate.
  destruct first; try discriminate. injection Hfetch as <-.
  apply transform_structure_on_object.
Qed.

Lemma transform_structure_on_fetched_root_witness :
  fetch_cds_root (fun _ => Body (JList [owner_record])) "A-100"
  = inr owner_record
  /\ exists out,
      transform_structure greeting_template owner_record = Ok out
      /\ same_shape (resolves_to owner_record) greeting_template out.
Proof.
  split; [reflexivity|].
  exact (transform_structure_on_fetched_root
           (fun _ => Body (JList [owner_record])) "A-100"
           owner_record greeting_template eq_refl).
Defined.

(** ** Slash escaping, further *)

Module EscapeFacts.

Lemma slash_doubled_inj s1 t :
  slash_doubled s1 t -> forall s2, slash_doubled s2 t -> s1 = s2.
Proof.
  induction 1 as [|s s' _ IH|c s s' Hc _ IH]; intros s2 H2.
  - now inversion H2.
  - inversion H2 as [|u u' Hu|d u u' Hd Hu]; subst.
    + f_equal. now apply IH.
    + now destruct Hd.
  - inversion H2 as [|u u' Hu|d u u' Hd Hu]; subst.
    + now destruct Hc.
    + f_equal. now apply IH.
Qed.

Lemma replace_inj a b :
  Py.replace "/" "//" a = Py.replace "/" "//" b -> a = b.
Proof.
  intros H. apply (slash_doubled_inj a (Py.replace "/" "//" a)).
  - apply replace_slash_doubled.
  - rewrite H. apply replace_slash_doubled.
Qed.

Lemma replace_length s :
  String.length s <= String.length (Py.replace "/" "//" s).
Proof.
  induction s as [|c s IH]; cbn [Py.replace]; [apply le_n|].
  destruct (Ascii.eqb c "/"); cbn [append String.length]; lia.
Qed.

Lemma replace_fixed s :
  Py.replace "/" "//" s = s <-> Py.contains "/" s = false.
Proof.
  induction s as [|c s IH]; cbn [Py.replace Py.contains]; [easy|].
  destruct (Ascii.eqb c "/") eqn:E; cbn [orb].
  - split; [|discriminate]. cbn [append]. intros H. injection H as _ H.
    pose proof (replace_length s) as L.
    apply (f_equal String.length) in H. cbn [String.length] in H. lia.
  - rewrite <- IH. split; [now intros [= ->] | now intros ->].
Qed.

Lemma map_fixed {A : Type} (f : A -> A) l :
  map f l = l <-> Forall (fun x => f x = x) l.
Proof.
  induction l as [|x l IH]; cbn [map].
  - split; [constructor | reflexivity].
  - split.
    + intros [= Hx Hl]. constructor; [exact Hx | now apply IH].
    + intros H. inversion H as [|? ? Hx Hl]; subst.
      rewrite Hx. f_equal. now apply IH.
Qed.

End EscapeFacts.

(** X14.  [escape_slashes] loses nothing: two values with the same
    escaped form are equal. *)
Theorem escape_slashes_injective :
  forall a b : json, escape_slashes a = escape_slashes b -> a = b.
Proof.
  induction a as [|x|x|x|s|l IH|e IH] using json_tree_ind;
    intros b H; destruct b; cbn [escape_slashes] in H;
    try discriminate H; try exact H.
  - injection H as H. f_equal. now apply EscapeFacts.replace_inj.
  - injection H as H. f_equal. revert items H.
    induction IH as [|x l Hx _ IHl]; intros [|y items] H;
      try discriminate H; [reflexivity|].
    cbn [map] in H. injection H as H1 H2.
    f_equal; [now apply Hx | now apply IHl].
  - injection H as H. f_equal. revert entries H.
    induction IH as [|[k v] e Hv _ IHe]; intros [|[k' v'] entries] H;
      try discriminate H; [reflexivity|].
    cbn [map fst snd] in H. injection H as H1 H2 H3. cbn [snd] in Hv.
    f_equal; [f_equal; [exact H1 | now apply Hv] | now apply IHe].
Qed.

Lemma escape_slashes_injective_witness :
  escape_slashes (JDict [("path", JStr ("a" ++ "/b"))])
  = escape_slashes (JDict [("path", JStr "a/b")])
  /\ JDict [("path", JStr ("a" ++ "/b"))] = JDict [("path", JStr "a/b")].
Proof.
  split; [reflexivity|].
  exact (escape_slashes_injective
           (JDict [("path", JStr ("a" ++ "/b"))])
           (JDict [("path", JStr "a/b")]) eq_refl).
Defined.

(** X15.  [escape_slashes] returns its argument unchanged exactly when no
    string leaf holds a slash; a slash in a key does not count, keys are
    never rewritten. *)
Theorem escape_slashes_fixed_iff_slash_free :
  forall obj : json, escape_slashes obj = obj <-> slash_free obj = true.
Proof.
  induction obj as [| | | |s|l IH|e IH] using json_tree_ind;
    cbn [escape_slashes slash_free]; try easy.
  - rewrite negb_true_iff, <- EscapeFacts.replace_fixed.
    split; [now intros [= ->] | now intros ->].
  - rewrite forallb_forall, <- Forall_forall.
    transitivity (map escape_slashes l = l).
    + split; [now intros [= ->] | now intros ->].
    + rewrite EscapeFacts.map_fixed.
      induction IH as [|x l Hx _ IHl].
      * split; constructor.
      * split; intros H; inversion H; subst; constructor;
          try (now apply Hx); now apply IHl.
  - rewrite forallb_forall, <- Forall_forall.
    transitivity (map (fun kv => (fst kv, escape_slashes (snd kv))) e = e).
    + split; [now intros [= ->] | now intros ->].
    + rewrite EscapeFacts.map_fixed.
      induction IH as [|[k v] e Hv _ IHe].
      * split; constructor.
      * cbn [snd] in Hv.
        split; intros H; inversion H as [|? ? H1 H2]; subst;
          cbn [fst snd] in *; constructor; cbn [fst snd];
          try (now apply IHe).
        -- apply Hv. now injection H1.
        -- f_equal. now apply Hv.
Qed.

(** ** Dictionaries and the merges *)

Module DictFacts.

Lemma get_set k key entries value :
  dict_get (dict_set entries key value) k
  = if String.eqb k key then Some value else dict_get entries k.
Proof.
  induction entries as [|[k0 v0] entries IH]; cbn [dict_set dict_get].
  - rewrite (String.eqb_sym key k). now destruct (String.eqb k key).
  - destruct (String.eqb k0 key) eqn:E0; cbn [dict_get].
    + apply String.eqb_eq in E0. subst k0.
      rewrite (String.eqb_sym key k). now destruct (String.eqb k key).
    + destruct (String.eqb k0 k) eqn:E1; [|exact IH].
      apply String.eqb_eq in E1. subst k0.
      now rewrite E0.
Qed.

Lemma get_absent k entries :
  ~ In k (map fst entries) -> dict_get entries k = None.
Proof.
  induction entries as [|[k0 v0] entries IH]; cbn [dict_get map fst];
    [reflexivity|].
  intros H. destruct (String.eqb k0 k) eqn:E.
  - apply String.eqb_eq in E. destruct H. now left.
  - apply IH. intros Hin. apply H. now right.
Qed.

Lemma get_present k v entries :
  dict_get entries k = Some v -> In k (map fst entries).
Proof.
  induction entries as [|[k0 v0] entries IH]; cbn [dict_get map fst];
    [discriminate|].
  destruct (String.eqb k0 k) eqn:E.
  - apply String.eqb_eq in E. now left.
  - intros H. right. now apply IH.
Qed.

(** Assignment keeps the keys in place and adds a new key last. *)
Lemma keys_set entries key value :
  map fst (dict_set entries key value)
  = if existsb (String.eqb key) (map fst entries)
    then map fst entries
    else (map fst entries ++ [key])%list.
Proof.
  induction entries as [|[k0 v0] entries IH]; cbn [dict_set map fst existsb app];
    [reflexivity|].
  rewrite (String.eqb_sym key k0).
  destruct (String.eqb k0 key) eqn:E; cbn [map fst orb]; [reflexivity|].
  rewrite IH. now destruct (existsb (String.eqb key) (map fst entries)).
Qed.

Lemma keys_set_present entries key value :
  In key (map fst entries) ->
  map fst (dict_set entries key value) = map fst entries.
Proof.
  intros H. rewrite keys_set.
  replace (existsb (String.eqb key) (map fst entries)) with true;
    [reflexivity|].
  symmetry. apply existsb_exists. exists key. split; [exact H|].
  apply String.eqb_refl.
Qed.

Lemma keys_set_grow entries key value :
  exists added,
    map fst (dict_set entries key value) = (map fst entries ++ added)%list.
Proof.
  rewrite keys_set. destruct (existsb _ _).
  - exists []. now rewrite app_nil_r.
  - now exists [key].
Qed.

Lemma keys_set_nodup entries key value :
  NoDup (map fst entries) -> NoDup (map fst (dict_set entries key value)).
Proof.
  intros H. rewrite keys_set.
  destruct (existsb (String.eqb key) (map fst entries)) eqn:E; [exact H|].
  apply NoDup_app; [exact H | repeat constructor; intros [] | ].
  intros k Hk [Ek|[]]. subst k.
  assert (X : existsb (String.eqb key) (map fst entries) = true).
  { apply existsb_exists. exists key.
    split; [exact Hk | apply String.eqb_refl]. }
  congruence.
Qed.

Lemma get_map (f : json -> json) (entries : list (string * json)) k :
  dict_get (map (fun kv => (fst kv, f (snd kv))) entries) k
  = option_map f (dict_get entries k).
Proof.
  induction entries as [|[k0 v0] entries IH]; cbn [map dict_get fst snd];
    [reflexivity|].
  now destruct (String.eqb k0 k).
Qed.

Lemma keys_map (f : json -> json) (entries : list (string * json)) :
  map fst (map (fun kv => (fst kv, f (snd kv))) entries) = map fst entries.
Proof. rewrite map_map. now apply map_ext. Qed.

Lemma get_assign_all ui :
  NoDup (map fst ui) ->
  forall letter_data k,
    dict_get (assign_all ui letter_data) k
    = first_of (dict_get ui k) (dict_get letter_data k).
Proof.
  unfold assign_all.
  induction ui as [|[k0 v0] ui IH]; intros Hnd ld k; [reflexivity|].
  cbn [map fst] in Hnd. inversion Hnd as [|? ? Hk0 Hrest]; subst.
  cbn [fold_left fst snd dict_get]. rewrite (IH Hrest), get_set.
  rewrite (String.eqb_sym k0 k).
  destruct (String.eqb k k0) eqn:E; [|reflexivity].
  apply String.eqb_eq in E. subst k. now rewrite (get_absent k0 ui Hk0).
Qed.

Lemma keys_assign_all ui :
  forall letter_data,
    (NoDup (map fst letter_data) ->
     NoDup (map fst (assign_all ui letter_data)))
    /\ exists added,
        map fst (assign_all ui letter_data)
        = (map fst letter_data ++ added)%list.
Proof.
  unfold assign_all.
  induction ui as [|[k0 v0] ui IH]; intros ld; cbn [fold_left fst snd].
  - split; [auto|]. exists []. now rewrite app_nil_r.
  - destruct (IH (dict_set ld k0 v0)) as [Hnd [added Hkeys]]. split.
    + intros H. now apply Hnd, keys_set_nodup.
    + destruct (keys_set_grow ld k0 v0) as [first Hfirst].
      exists (first ++ added)%list. now rewrite Hkeys, Hfirst, app_assoc.
Qed.

End DictFacts.

Module MergeFacts.

Import DictFacts.

Lemma get_set_when letter_data key taken k :
  dict_get (set_when letter_data key taken) k
  = if String.eqb k key
    then first_of taken (dict_get letter_data k)
    else dict_get letter_data k.
Proof.
  destruct taken as [v|]; cbn [set_when first_of].
  - rewrite get_set. now destruct (String.eqb k key).
  - now destruct (String.eqb k key).
Qed.

Lemma keys_set_when letter_data key taken :
  (NoDup (map fst letter_data) ->
   NoDup (map fst (set_when letter_data key taken)))
  /\ exists added,
      map fst (set_when letter_data key taken)
      = (map fst letter_data ++ added)%list.
Proof.
  destruct taken as [v|]; cbn [set_when].
  - split; [apply keys_set_nodup | apply keys_set_grow].
  - split; [auto|]. exists []. now rewrite app_nil_r.
Qed.

Lemma merge_docinfo_object letter_data d :
  Merge.merge_docinfo letter_data (JDict d)
  = Ok (set_when letter_data "DocInfo" (dict_fragment (JDict d) "DocInfo")).
Proof.
  unfold Merge.merge_docinfo, dict_fragment, fragment.
  now destruct (dict_get d "DocInfo") as [[]|].
Qed.

Lemma merge_pdf_insert_object letter_data d :
  Merge.merge_pdf_insert letter_data (JDict d)
  = Ok (set_when letter_data "PDF_Insert"
          (list_fragment (JDict d) "PDF_Insert")).
Proof.
  unfold Merge.merge_pdf_insert, list_fragment, fragment.
  now destruct (dict_get d "PDF_Insert") as [[]|].
Qed.

Lemma merge_option_list_object letter_data d :
  Merge.merge_option_list letter_data (JDict d)
  = Ok (set_when letter_data "OptionList"
          (list_fragment (JDict d) "OptionList")).
Proof.
  unfold Merge.merge_option_list, list_fragment, fragment.
  now destruct (dict_get d "OptionList") as [[]|].
Qed.

Lemma merge_ui_fields_object letter_data ui :
  Merge.merge_ui_fields letter_data (JDict ui) = Ok (assign_all ui letter_data).
Proof. reflexivity. Qed.

End MergeFacts.

(** X16.  [merge_docinfo] changes nothing but the entry [DocInfo] of
    [letter_data], and that one only when the document holds an object
    under [DocInfo]; the keys present keep their places and stay distinct.
    It raises only when the document is not a dictionary. *)
Theorem merge_docinfo_touches_docinfo_only :
  forall (letter_data : list (string * json)) (docinfo_data : json),
    match Merge.merge_docinfo letter_data docinfo_data with
    | Ok updated =>
        (forall k,
            dict_get updated k
            = if String.eqb k "DocInfo"
              then first_of (dict_fragment docinfo_data "DocInfo")
                     (dict_get letter_data k)
              else dict_get letter_data k)
        /\ (NoDup (map fst letter_data) -> NoDup (map fst updated))
        /\ exists added,
            map fst updated = (map fst letter_data ++ added)%list
    | Raise _ => is_dict docinfo_data = false
    end.
Proof.
  intros ld data. destruct data; try reflexivity.
  rewrite MergeFacts.merge_docinfo_object. split.
  - intros k. apply MergeFacts.get_set_when.
  - apply MergeFacts.keys_set_when.
Qed.

(** X17.  [merge_pdf_insert] and [merge_option_list] change nothing but
    the entry [PDF_Insert], respectively [OptionList], and only when the
    document holds a list under that name; the keys present keep their
    places and stay distinct.  Each raises only when its document is not a
    dictionary. *)
Theorem merge_lists_touch_their_key_only :
  forall (letter_data : list (string * json)) (data : json),
    match Merge.merge_pdf_insert letter_data data with
    | Ok updated =>
        (forall k,
            dict_get updated k
            = if String.eqb k "PDF_Insert"
              then first_of (list_fragment data "PDF_Insert")
                     (dict_get letter_data k)
              else dict_get letter_data k)
        /\ (NoDup (map fst letter_data) -> NoDup (map fst updated))
        /\ exists added,
            map fst updated = (map fst letter_data ++ added)%list
    | Raise _ => is_dict data = false
    end
    /\ match Merge.merge_option_list letter_data data with
       | Ok updated =>
           (forall k,
               dict_get updated k
               = if String.eqb k "OptionList"
                 then first_of (list_fragment data "OptionList")
                        (dict_get letter_data k)
                 else dict_get letter_data k)
           /\ (NoDup (map fst letter_data) -> NoDup (map fst updated))
           /\ exists added,
               map fst updated = (map fst letter_data ++ added)%list
       | Raise _ => is_dict data = false
       end.
Proof.
  intros ld data. destruct data; try (split; reflexivity).
  rewrite MergeFacts.merge_pdf_insert_object,
    MergeFacts.merge_option_list_object.
  split; (split;
          [intros k; apply MergeFacts.get_set_when
          | apply MergeFacts.keys_set_when]).
Qed.

(** X18.  After [merge_ui_fields] every key of the UI document holds the
    UI value, every other key holds what it held, the keys that were
    present keep their places, new ones follow, and the keys stay
    distinct.  On a UI document that is not a dictionary it raises. *)
Theorem merge_ui_fields_overwrites :
  forall (letter_data ui : list (string * json)),
    NoDup (map fst ui) ->
    exists updated,
      Merge.merge_ui_fields letter_data (JDict ui) = Ok updated
      /\ (forall k,
             dict_get updated k
             = first_of (dict_get ui k) (dict_get letter_data k))
      /\ (NoDup (map fst letter_data) -> NoDup (map fst updated))
      /\ (exists added,
             map fst updated = (map fst letter_data ++ added)%list)
      /\ forall other,
          is_dict other = false ->
          Merge.merge_ui_fields letter_data other = Raise AttributeError.
Proof.
  intros ld ui Hnd. exists (assign_all ui ld).
  split; [reflexivity|]. split.
  - intros k. now apply DictFacts.get_assign_all.
  - destruct (DictFacts.keys_assign_all ui ld) as [H1 H2].
    split; [exact H1|]. split; [exact H2|].
    intros other Hother. destruct other; try reflexivity. discriminate Hother.
Qed.

Lemma merge_ui_fields_overwrites_witness :
  NoDup (map fst [("Name", JStr "Ann"); ("DocInfo", JNull)])
  /\ exists updated,
      Merge.merge_ui_fields [("DocInfo", JDict []); ("Id", JInt 1)]
        (JDict [("Name", JStr "Ann"); ("DocInfo", JNull)]) = Ok updated
      /\ dict_get updated "DocInfo" = Some JNull
      /\ dict_get updated "Id" = Some (JInt 1)
      /\ map fst updated = ["DocInfo"; "Id"; "Name"].
Proof.
  assert (H : NoDup (map fst [("Name", JStr "Ann"); ("DocInfo", JNull)])).
  { repeat constructor; cbn; intuition discriminate. }
  split; [exact H|].
  destruct (merge_ui_fields_overwrites
              [("DocInfo", JDict []); ("Id", JInt 1)]
              [("Name", JStr "Ann"); ("DocInfo", JNull)] H)
    as (updated & E & _).
  exists updated. split; [exact E|].
  cbv in E. injection E as <-. repeat split.
Defined.

(** ** The merge script as a whole *)

Module MainFacts.

Import DictFacts MergeFacts.

(** The four merges in the order of [main]. *)
Lemma merges_on_objects letter_data d1 d2 ui d3 :
  (ld1 <- Merge.merge_docinfo letter_data (JDict d1) ;;
   ld2 <- Merge.merge_pdf_insert ld1 (JDict d2) ;;
   ld3 <- Merge.merge_option_list ld2 (JDict d3) ;;
   Merge.merge_ui_fields ld3 (JDict ui))
  = Ok (assign_all ui
          (set_when
             (set_when
                (set_when letter_data "DocInfo"
                   (dict_fragment (JDict d1) "DocInfo"))
                "PDF_Insert" (list_fragment (JDict d2) "PDF_Insert"))
             "OptionList" (list_fragment (JDict d3) "OptionList"))).
Proof.
  rewrite merge_docinfo_object. cbn [bind].
  rewrite merge_pdf_insert_object. cbn [bind].
  rewrite merge_option_list_object. cbn [bind].
  apply merge_ui_fields_object.
Qed.

Lemma merges_raise letter_data docinfo_data pdf_insert_data ui_data
  optionlist_data :
  is_dict docinfo_data && is_dict pdf_insert_data
  && is_dict optionlist_data && is_dict ui_data = false ->
  (ld1 <- Merge.merge_docinfo letter_data docinfo_data ;;
   ld2 <- Merge.merge_pdf_insert ld1 pdf_insert_data ;;
   ld3 <- Merge.merge_option_list ld2 optionlist_data ;;
   Merge.merge_ui_fields ld3 ui_data)
  = Raise AttributeError.
Proof.
  intros H.
  destruct docinfo_data as [| | | | | |d1]; try reflexivity.
  rewrite merge_docinfo_object. cbn [bind].
  destruct pdf_insert_data as [| | | | | |d2]; try reflexivity.
  rewrite merge_pdf_insert_object. cbn [bind].
  destruct optionlist_data as [| | | | | |d3]; try reflexivity.
  rewrite merge_option_list_object. cbn [bind].
  destruct ui_data; try reflexivity. discriminate H.
Qed.

Lemma eqb_name k name : String.eqb k name = true -> k = name.
Proof. apply String.eqb_eq. Qed.

End MainFacts.

(** X19.  [main] produces an output exactly when the base document is an
    object holding an object under [LetterData] and the four other
    documents are objects.  Without such a [LetterData] in an object base
    document it raises its [ValueError], whatever the other documents
    are. *)
Theorem main_output_iff_well_formed :
  forall (base_data docinfo_data pdf_insert_data ui_data optionlist_data : json),
    ((exists out,
         Merge.main base_data docinfo_data pdf_insert_data ui_data
           optionlist_data = inr out)
     <-> (exists base letter_data,
             base_data = JDict base
             /\ dict_get base "LetterData" = Some (JDict letter_data))
         /\ is_dict docinfo_data = true /\ is_dict pdf_insert_data = true
         /\ is_dict optionlist_data = true /\ is_dict ui_data = true)
    /\ (forall base,
           base_data = JDict base ->
           dict_fragment base_data "LetterData" = None ->
           Merge.main base_data docinfo_data pdf_insert_data ui_data
             optionlist_data = inl Merge.no_letter_data).
Proof.
  intros base_data docinfo pdf ui opt. split.
  - split.
    + intros [out H]. unfold Merge.main in H.
      destruct base_data as [| | | |s|l|base]; try discriminate H.
      * destruct (String.index 0 "LetterData" s); discriminate H.
      * destruct (existsb _ l); discriminate H.
      * destruct (dict_get base "LetterData") as [[| | | | | |ld]|] eqn:L;
          try discriminate H.
        split; [now exists base, ld|].
        destruct (is_dict docinfo && is_dict pdf && is_dict opt && is_dict ui)
          eqn:D.
        -- apply andb_true_iff in D as [D D4].
           apply andb_true_iff in D as [D D3].
           apply andb_true_iff in D as [D1 D2]. auto.
        -- rewrite (MainFacts.merges_raise ld _ _ _ _ D) in H. discriminate H.
    + intros ((base & ld & -> & L) & D1 & D2 & D3 & D4).
      destruct docinfo as [| | | | | |d1]; try discriminate D1.
      destruct pdf as [| | | | | |d2]; try discriminate D2.
      destruct opt as [| | | | | |d3]; try discriminate D3.
      destruct ui as [| | | | | |u]; try discriminate D4.
      unfold Merge.main. rewrite L, MainFacts.merges_on_objects.
      eexists. reflexivity.
  - intros base -> H. unfold Merge.main.
    unfold dict_fragment, fragment in H.
    destruct (dict_get base "LetterData") as [[]|]; try reflexivity.
    discriminate H.
Qed.

(** X20.  When [main] produces an output, the output is the base
    document with its keys in place, every value outside [LetterData]
    escaped and otherwise as it was, and under [LetterData] an object in
    which each key holds the escaped form of the merged value: the UI
    field of that name first, then (for [OptionList], [PDF_Insert] and
    [DocInfo]) the fragment of the matching document, then the original
    entry.  So a UI field overrides the fragment of the same name. *)
Theorem main_merged_letter_data :
  forall (base letter_data ui : list (string * json))
         (docinfo_data pdf_insert_data optionlist_data : json),
    dict_get base "LetterData" = Some (JDict letter_data) ->
    is_dict docinfo_data = true ->
    is_dict pdf_insert_data = true ->
    is_dict optionlist_data = true ->
    NoDup (map fst ui) ->
    exists out merged,
      Merge.main (JDict base) docinfo_data pdf_insert_data (JDict ui)
        optionlist_data = inr (JDict out)
      /\ map fst out = map fst base
      /\ (forall k, k <> "LetterData" ->
                    dict_get out k = option_map escape_slashes (dict_get base k))
      /\ dict_get out "LetterData" = Some (JDict merged)
      /\ forall k,
          dict_get merged k
          = option_map escape_slashes
              (merged_value letter_data docinfo_data pdf_insert_data
                 (JDict ui) optionlist_data k).
Proof.
  intros base ld ui docinfo pdf opt L D1 D2 D3 Hnd.
  destruct docinfo as [| | | | | |d1]; try discriminate D1.
  destruct pdf as [| | | | | |d2]; try discriminate D2.
  destruct opt as [| | | | | |d3]; try discriminate D3.
  unfold Merge.main. rewrite L, MainFacts.merges_on_objects.
  cbn [escape_slashes]. eexists _, _. split; [reflexivity|].
  split; [|split; [|split]].
  - rewrite DictFacts.keys_map. apply DictFacts.keys_set_present.
    exact (DictFacts.get_present _ _ _ L).
  - intros k Hk. rewrite DictFacts.get_map, DictFacts.get_set.
    apply String.eqb_neq in Hk. now rewrite Hk.
  - rewrite DictFacts.get_map, DictFacts.get_set. cbn. reflexivity.
  - intros k. rewrite DictFacts.get_map. f_equal.
    rewrite (DictFacts.get_assign_all ui Hnd).
    unfold merged_value. cbn [fragment]. f_equal.
    rewrite !MergeFacts.get_set_when.
    destruct (String.eqb k "OptionList") eqn:E1.
    + apply MainFacts.eqb_name in E1. subst k. reflexivity.
    + destruct (String.eqb k "PDF_Insert") eqn:E2.
      * apply MainFacts.eqb_name in E2. subst k. reflexivity.
      * destruct (String.eqb k "DocInfo") eqn:E3; [|reflexivity].
        apply MainFacts.eqb_name in E3. subst k. reflexivity.
Qed.

Lemma main_merged_letter_data_witness :
  dict_get letter_base "LetterData"
  = Some (JDict [("DocInfo", JDict [("v", JInt 1)]); ("Path", JStr "x/y")])
  /\ is_dict letter_docinfo = true
  /\ NoDup (map fst letter_ui)
  /\ Merge.main (JDict letter_base) letter_docinfo (JDict []) (JDict letter_ui)
       (JDict [("OptionList", JStr "none")])
     = inr (JDict [("Meta", JStr "a//b");
                   ("LetterData",
                    JDict [("DocInfo", JStr "ui//wins");
                           ("Path", JStr "x//y")])])
  /\ exists out merged,
      Merge.main (JDict letter_base) letter_docinfo (JDict []) (JDict letter_ui)
        (JDict [("OptionList", JStr "none")]) = inr (JDict out)
      /\ map fst out = map fst letter_base
      /\ (forall k, k <> "LetterData" ->
                    dict_get out k
                    = option_map escape_slashes (dict_get letter_base k))
      /\ dict_get out "LetterData" = Some (JDict merged)
      /\ forall k,
          dict_get merged k
          = option_map escape_slashes
              (merged_value
                 [("DocInfo", JDict [("v", JInt 1)]); ("Path", JStr "x/y")]
                 letter_docinfo (JDict []) (JDict letter_ui)
                 (JDict [("OptionList", JStr "none")]) k).
Proof.
  assert (H : NoDup (map fst letter_ui)).
  { repeat constructor. intros []. }
  split; [reflexivity|]. split; [reflexivity|]. split; [exact H|].
  split; [reflexivity|].
  exact (main_merged_letter_data letter_base
           [("DocInfo", JDict [("v", JInt 1)]); ("Path", JStr "x/y")]
           letter_ui letter_docinfo (JDict [])
           (JDict [("OptionList", JStr "none")])
           eq_refl eq_refl eq_refl eq_refl H).
Defined.
